(** * ZonKey-AI worker: licence validation, device sessions, quota gate and
    payment webhooks.

    A shallow embedding of the worker's TypeScript sources
    ([utils.ts], [auth.ts], [webhook.ts], [score-products.ts] and the router
    file) together with the properties stated about them.

    Conventions.
    - A JavaScript string is a [string]: a sequence of code units below 256.
      ([btoa] raises on any larger code unit, so the credential code cannot
      go further than that.)
    - A [Uint8Array] is a [list Z] of values in [0, 256).
    - JavaScript numbers that the code uses as epoch seconds, counters and
      limits are integers, modelled in [Z].
    - The clock ([Date.now()], the local midnight), the random sources
      ([Math.random], [crypto.randomUUID]) and the replies of the billing
      provider are inputs of the functions that consult them.
    - A thrown exception is the [Throw] case of [Exc].
    - A handler threads the database through its statements.  Where it
      awaits another service between two of them (the billing provider in
      [validate]), requests of other clients run in between, and the
      handler is given the database of each statement. *)

From Stdlib Require Import ZArith List String Ascii Bool Lia DecimalString.
From Stdlib Require QArith.
From stdpp Require Import gmap strings list.
Import ListNotations.

Local Open Scope string_scope.
Local Open Scope list_scope.
Local Open Scope Z_scope.

(* ===================================================================== *)
(** * Exceptions *)
(* ===================================================================== *)

(** The outcome of a computation that may throw; [Throw msg] carries the
    [message] of the JavaScript error. *)
Inductive Exc (A : Type) : Type :=
| Ret (a : A)
| Throw (msg : string).
Arguments Ret {A} a.
Arguments Throw {A} msg.

#[global] Instance Exc_ret : MRet Exc := fun _ a => Ret a.
#[global] Instance Exc_bind : MBind Exc := fun _ _ k m =>
  match m with
  | Ret a => k a
  | Throw e => Throw e
  end.

(** [try { m } catch { h }] when the handler ignores the error. *)
Definition catchE {A} (m : Exc A) (h : string -> A) : A :=
  match m with
  | Ret a => a
  | Throw e => h e
  end.

(* ===================================================================== *)
(** * Platform primitives *)
(* ===================================================================== *)

(** ** Strings and byte arrays *)
Module Js.

Definition code (c : ascii) : Z := Z.of_N (N_of_ascii c).
Definition chr (z : Z) : ascii := ascii_of_N (Z.to_N (z mod 256)).

(** [s.charCodeAt(i)] for every [i], in order. *)
Definition charCodes (s : string) : list Z := map code (list_ascii_of_string s).

(** [String.fromCharCode(...bytes)]. *)
Definition fromCharCodes (l : list Z) : string := string_of_list_ascii (map chr l).

(** [new TextEncoder().encode(s)]: UTF-8 of code units below 256. *)
Definition utf8_unit (c : Z) : list Z :=
  if c <? 128 then [c]
  else [Z.lor 192 (Z.shiftr c 6); Z.lor 128 (Z.land c 63)].

Definition TextEncoder_encode (s : string) : list Z :=
  flat_map utf8_unit (charCodes s).

(** [s.startsWith(p)]. *)
Fixpoint startsWith (p s : string) : bool :=
  match p, s with
  | EmptyString, _ => true
  | String a p', String b s' => Ascii.eqb a b && startsWith p' s'
  | String _ _, EmptyString => false
  end.

(** [s.slice(n)] for a non-negative [n]. *)
Fixpoint slice_from (n : nat) (s : string) : string :=
  match n, s with
  | O, _ => s
  | S n', String _ s' => slice_from n' s'
  | S _, EmptyString => EmptyString
  end.

(** [s.substring(0, n)]. *)
Fixpoint take (n : nat) (s : string) : string :=
  match n, s with
  | S n', String c s' => String c (take n' s')
  | _, _ => EmptyString
  end.

(** [s.split(c)] for a one-character separator: never the empty list. *)
Fixpoint split (sep : ascii) (s : string) : list string :=
  match s with
  | EmptyString => [EmptyString]
  | String c s' =>
      if Ascii.eqb c sep then EmptyString :: split sep s'
      else match split sep s' with
           | hd :: tl => String c hd :: tl
           | [] => [String c EmptyString]
           end
  end.

(** [s.replace(/c/g, r)]: every occurrence of the character [c]. *)
Fixpoint replace_all_char (c : ascii) (r : string) (s : string) : string :=
  match s with
  | EmptyString => EmptyString
  | String x s' =>
      (if Ascii.eqb x c then r else String x EmptyString)
        +:+ replace_all_char c r s'
  end.

(** [s.replace(p, r)] with a string pattern: the first occurrence only. *)
Fixpoint replace_first (p r : string) (s : string) : string :=
  if startsWith p s then r +:+ slice_from (String.length p) s
  else match s with
       | EmptyString => EmptyString
       | String x s' => String x (replace_first p r s')
       end.

(** [s.toUpperCase()], one code unit at a time: the ASCII letters, the
    letters of Latin-1 ([à] to [þ] without the division sign), and [ß],
    whose capital is the two letters [SS].  The capitals of [µ] and [ÿ]
    are the code units 924 and 376, which the strings of this development
    cannot hold: [upper_fits] tells the strings that have neither, and
    [toUpperCase] is the method on those. *)
Definition upper_char (c : ascii) : string :=
  let n := code c in
  if (97 <=? n) && (n <=? 122) then String (chr (n - 32)) EmptyString
  else if (224 <=? n) && (n <=? 254) && negb (n =? 247)
  then String (chr (n - 32)) EmptyString
  else if n =? 223 then "SS"
  else String c EmptyString.

Fixpoint toUpperCase (s : string) : string :=
  match s with
  | EmptyString => EmptyString
  | String c s' => upper_char c +:+ toUpperCase s'
  end.

Fixpoint upper_fits (s : string) : bool :=
  match s with
  | EmptyString => true
  | String c s' => negb (code c =? 181) && negb (code c =? 255) && upper_fits s'
  end.

(** Truthiness of a string that may be [undefined] or [null]. *)
Definition truthy (o : option string) : bool :=
  match o with
  | Some s => negb (String.eqb s "")
  | None => false
  end.

(** [a || b] on such values. *)
Definition or_else (a b : option string) : option string :=
  if truthy a then a else b.

(** [n || d] on a number: zero is falsy. *)
Definition num_or (n d : Z) : Z := if n =? 0 then d else n.

(** Decimal rendering of an integer, as in a template literal. *)
Definition show (z : Z) : string := NilZero.string_of_int (Z.to_int z).

End Js.

(** ** SHA-256 and HMAC ([crypto.subtle]) *)
Module Crypto.

Definition w32 (x : Z) : Z := x mod 2 ^ 32.

Definition rotr (n x : Z) : Z :=
  Z.lor (Z.shiftr x n) (w32 (Z.shiftl x (32 - n))).

Definition Ch (x y z : Z) : Z :=
  Z.lxor (Z.land x y) (Z.land (Z.lxor x (2 ^ 32 - 1)) z).
Definition Maj (x y z : Z) : Z :=
  Z.lxor (Z.lxor (Z.land x y) (Z.land x z)) (Z.land y z).
Definition bsig0 (x : Z) : Z := Z.lxor (Z.lxor (rotr 2 x) (rotr 13 x)) (rotr 22 x).
Definition bsig1 (x : Z) : Z := Z.lxor (Z.lxor (rotr 6 x) (rotr 11 x)) (rotr 25 x).
Definition ssig0 (x : Z) : Z := Z.lxor (Z.lxor (rotr 7 x) (rotr 18 x)) (Z.shiftr x 3).
Definition ssig1 (x : Z) : Z := Z.lxor (Z.lxor (rotr 17 x) (rotr 19 x)) (Z.shiftr x 10).

(** The round constants are the fractional parts of the cube roots of the
    first 64 primes, the initial state those of the square roots of the
    first 8. *)
Definition is_prime (n : Z) : bool :=
  forallb (fun d => negb (n mod d =? 0))
          (List.filter (fun d => d * d <=? n) (map Z.of_nat (seq 2 20))).

Definition primes64 : list Z :=
  Eval vm_compute in List.filter is_prime (map Z.of_nat (seq 2 310)).

Fixpoint cbrt_bits (bits : nat) (n r : Z) : Z :=
  match bits with
  | O => r
  | S b =>
      let r' := r + 2 ^ Z.of_nat b in
      cbrt_bits b n (if r' * r' * r' <=? n then r' else r)
  end.

Definition Kc : list Z :=
  Eval vm_compute in map (fun p => w32 (cbrt_bits 40 (p * 2 ^ 96) 0)) primes64.

Definition H0 : list Z :=
  Eval vm_compute in map (fun p => w32 (Z.sqrt (p * 2 ^ 64))) (firstn 8 primes64).

(** Big-endian packing. *)
Definition be_bytes (n : nat) (x : Z) : list Z :=
  map (fun i => Z.shiftr x (8 * Z.of_nat i) mod 256) (rev (seq 0 n)).

Fixpoint be_words (l : list Z) : list Z :=
  match l with
  | a :: b :: c :: d :: r => (((a * 256 + b) * 256 + c) * 256 + d) :: be_words r
  | _ => []
  end.

Definition pad (msg : list Z) : list Z :=
  let len := Z.of_nat (length msg) in
  msg ++ [128] ++ repeat 0 (Z.to_nat ((55 - len) mod 64)) ++ be_bytes 8 (8 * len).

(** The message schedule: 48 more words after the 16 of the block. *)
Fixpoint schedule (n : nat) (w : list Z) : list Z :=
  match n with
  | O => w
  | S n' =>
      let t := length w in
      let at_ k := nth (t - k) w 0 in
      schedule n' (w ++ [w32 (ssig1 (at_ 2%nat) + at_ 7%nat + ssig0 (at_ 15%nat) + at_ 16%nat)])
  end.

Definition round (st : list Z) (kw : Z * Z) : list Z :=
  match st with
  | [a; b; c; d; e; f; g; h] =>
      let t1 := h + bsig1 e + Ch e f g + fst kw + snd kw in
      let t2 := bsig0 a + Maj a b c in
      [w32 (t1 + t2); a; b; c; w32 (d + t1); e; f; g]
  | _ => st
  end.

Definition compress (st block : list Z) : list Z :=
  let w := schedule 48 (be_words block) in
  let st' := fold_left round (combine Kc w) st in
  map (fun p => w32 (fst p + snd p)) (combine st st').

Fixpoint blocks (fuel : nat) (l : list Z) : list (list Z) :=
  match fuel, l with
  | S f, _ :: _ => firstn 64 l :: blocks f (skipn 64 l)
  | _, _ => []
  end.

(** [crypto.subtle.digest('SHA-256', msg)]. *)
Definition sha256_bytes (msg : list Z) : list Z :=
  let p := pad msg in
  flat_map (be_bytes 4) (fold_left compress (blocks (length p) p) H0).

(** [crypto.subtle.sign('HMAC', key, msg)] for a SHA-256 key. *)
Definition hmac_sha256 (key msg : list Z) : list Z :=
  let k0 := if (64 <? length key)%nat then sha256_bytes key else key in
  let k := k0 ++ repeat 0 (64 - length k0) in
  sha256_bytes (map (Z.lxor 92) k ++ sha256_bytes (map (Z.lxor 54) k ++ msg)).

(** [crypto.subtle.importKey('raw', key, HMAC/SHA-256, ...)] rejects an
    empty key. *)
Definition importKey (key : list Z) : Exc (list Z) :=
  match key with
  | [] => Throw "Zero-length key is not supported"
  | _ => Ret key
  end.

Definition eqb_bytes (a b : list Z) : bool :=
  bool_decide (a = b).

(** [crypto.subtle.verify('HMAC', key, sig, msg)]. *)
Definition hmac_verify (key sig msg : list Z) : bool :=
  eqb_bytes sig (hmac_sha256 key msg).

Definition hex_digit (n : Z) : ascii :=
  if n <? 10 then Js.chr (48 + n) else Js.chr (87 + n).

(** [b.toString(16).padStart(2, '0')], joined. *)
Fixpoint hex (l : list Z) : string :=
  match l with
  | [] => EmptyString
  | b :: r => String (hex_digit (b / 16)) (String (hex_digit (b mod 16)) (hex r))
  end.

End Crypto.

(** ** Base64 ([btoa] and [atob]) *)
Module Base64.

Definition alphabet : string :=
  "ABCDEFGHIJKLMNOPQRSTUVWXYZabcdefghijklmnopqrstuvwxyz0123456789+/".

Definition pad_char : ascii := "="%char.

(** The character of a sextet. *)
Definition enc (n : Z) : ascii :=
  match String.get (Z.to_nat n) alphabet with
  | Some c => c
  | None => pad_char
  end.

(** The sextet of a character of the alphabet. *)
Definition dec (c : ascii) : option Z :=
  let n := Js.code c in
  if (65 <=? n) && (n <=? 90) then Some (n - 65)
  else if (97 <=? n) && (n <=? 122) then Some (n - 71)
  else if (48 <=? n) && (n <=? 57) then Some (n + 4)
  else if n =? 43 then Some 62
  else if n =? 47 then Some 63
  else None.

Fixpoint encode (l : list Z) : string :=
  match l with
  | a :: b :: c :: r =>
      String (enc (a / 4))
        (String (enc (a mod 4 * 16 + b / 16))
           (String (enc (b mod 16 * 4 + c / 64))
              (String (enc (c mod 64)) (encode r))))
  | [a; b] =>
      String (enc (a / 4))
        (String (enc (a mod 4 * 16 + b / 16))
           (String (enc (b mod 16 * 4)) (String pad_char EmptyString)))
  | [a] =>
      String (enc (a / 4))
        (String (enc (a mod 4 * 16))
           (String pad_char (String pad_char EmptyString)))
  | [] => EmptyString
  end.

(** [btoa(s)], on a string of code units below 256. *)
Definition btoa (s : string) : string := encode (Js.charCodes s).

Definition is_space (c : ascii) : bool :=
  let n := Js.code c in
  (n =? 9) || (n =? 10) || (n =? 12) || (n =? 13) || (n =? 32).

(** One or two trailing [=] are dropped when the length is a multiple of
    four. *)
Definition strip_padding (l : list ascii) : list ascii :=
  if (length l mod 4 =? 0)%nat then
    match rev l with
    | p :: q :: r =>
        if Ascii.eqb p pad_char then
          if Ascii.eqb q pad_char then rev r else rev (q :: r)
        else l
    | _ => l
    end
  else l.

Fixpoint sextets (l : list ascii) : option (list Z) :=
  match l with
  | [] => Some []
  | c :: r =>
      match dec c, sextets r with
      | Some n, Some ns => Some (n :: ns)
      | _, _ => None
      end
  end.

Fixpoint decode (l : list Z) : option (list Z) :=
  match l with
  | a :: b :: c :: d :: r =>
      match decode r with
      | Some bs =>
          Some ((a * 4 + b / 16) :: (b mod 16 * 16 + c / 4) :: (c mod 4 * 64 + d) :: bs)
      | None => None
      end
  | [a; b; c] => Some [a * 4 + b / 16; b mod 16 * 16 + c / 4]
  | [a; b] => Some [a * 4 + b / 16]
  | [_] => None
  | [] => Some []
  end.

(** [atob(s)]: the forgiving decoder of the platform; [None] is the
    [InvalidCharacterError]. *)
Definition atob (s : string) : option string :=
  let l := strip_padding (List.filter (fun c => negb (is_space c)) (list_ascii_of_string s)) in
  match sextets l with
  | Some ns =>
      match decode ns with
      | Some bs => Some (Js.fromCharCodes bs)
      | None => None
      end
  | None => None
  end.

End Base64.

(* ===================================================================== *)
(** * The credential ([utils.ts], [auth.ts]) *)
(* ===================================================================== *)

Module JWTPayload.
Record t : Type := {
  sub : string;
  plan : string;
  iat : Z;
  exp : Z
}.
End JWTPayload.

(** ** JSON text of the values that are serialised *)
Module Json.

Definition hex4 (n : Z) : string :=
  String (Crypto.hex_digit (n / 4096 mod 16))
    (String (Crypto.hex_digit (n / 256 mod 16))
       (String (Crypto.hex_digit (n / 16 mod 16))
          (String (Crypto.hex_digit (n mod 16)) EmptyString))).

Definition dquote : string := String (Js.chr 34) EmptyString.

Definition escape (c : ascii) : string :=
  let n := Js.code c in
  if n =? 34 then "\" +:+ dquote
  else if n =? 92 then "\\"
  else if n =? 8 then "\b"
  else if n =? 9 then "\t"
  else if n =? 10 then "\n"
  else if n =? 12 then "\f"
  else if n =? 13 then "\r"
  else if n <? 32 then "\u" +:+ hex4 n
  else String c EmptyString.

Fixpoint escape_all (s : string) : string :=
  match s with
  | EmptyString => EmptyString
  | String c s' => escape c +:+ escape_all s'
  end.

(** [JSON.stringify(s)] for a string. *)
Definition quote (s : string) : string :=
  dquote +:+ escape_all s +:+ dquote.

(** [JSON.stringify({ alg: 'HS256', typ: 'JWT' })]. *)
Definition stringify_header : string :=
  "{" +:+ quote "alg" +:+ ":" +:+ quote "HS256" +:+ ","
      +:+ quote "typ" +:+ ":" +:+ quote "JWT" +:+ "}".

(** [JSON.stringify(payload)] for a [JWTPayload.t]: the properties in their
    order of definition. *)
Definition stringify_payload (p : JWTPayload.t) : string :=
  "{" +:+ quote "sub" +:+ ":" +:+ quote (JWTPayload.sub p) +:+ ","
      +:+ quote "plan" +:+ ":" +:+ quote (JWTPayload.plan p) +:+ ","
      +:+ quote "iat" +:+ ":" +:+ Js.show (JWTPayload.iat p) +:+ ","
      +:+ quote "exp" +:+ ":" +:+ Js.show (JWTPayload.exp p) +:+ "}".

End Json.

(** ** [utils.ts] *)
Module Utils.

(** [.replace(/\+/g, '-').replace(/\//g, '_').replace(/=/g, '')]. *)
Definition to_url (s : string) : string :=
  Js.replace_all_char "="%char ""
    (Js.replace_all_char "/"%char "_"
       (Js.replace_all_char "+"%char "-" s)).

(** [.replace(/-/g, '+').replace(/_/g, '/')]. *)
Definition from_url (s : string) : string :=
  Js.replace_all_char "_"%char "/" (Js.replace_all_char "-"%char "+" s).

Definition generateJWT (payload : JWTPayload.t) (secret : string) : Exc string :=
  let header := Base64.btoa Json.stringify_header in
  let body := Base64.btoa (Json.stringify_payload payload) in
  let unsigned := header +:+ "." +:+ body in
  key ← Crypto.importKey (Js.TextEncoder_encode secret);
  let signature := Crypto.hmac_sha256 key (Js.TextEncoder_encode unsigned) in
  let sigBase64 := to_url (Base64.btoa (Js.fromCharCodes signature)) in
  mret (unsigned +:+ "." +:+ sigBase64).

Section Verify.

(** [JSON.parse] of a payload text, read at the type the code gives it;
    [None] when it throws or yields [null]. *)
Variable JSON_parse : string -> option JWTPayload.t.

(** The body of the [try]; every exception is turned into [null] by the
    caller below. *)
Definition verifyJWT_try (token secret : string) : Exc (option JWTPayload.t) :=
  match Js.split "."%char token with
  | h :: b :: s :: _ =>
      key ← Crypto.importKey (Js.TextEncoder_encode secret);
      match Base64.atob (from_url s) with
      | None => Throw "InvalidCharacterError"
      | Some raw =>
          let sig := Js.charCodes raw in
          let valid :=
            Crypto.hmac_verify key sig (Js.TextEncoder_encode (h +:+ "." +:+ b)) in
          if negb valid then mret None
          else match Base64.atob b with
               | None => Throw "InvalidCharacterError"
               | Some text =>
                   match JSON_parse text with
                   | None => Throw "SyntaxError"
                   | Some p => mret (Some p)
                   end
               end
      end
  | _ => Throw "TypeError"
  end.

Definition verifyJWT (token secret : string) : option JWTPayload.t :=
  catchE (verifyJWT_try token secret) (fun _ => None).

End Verify.
End Utils.

(** ** [auth.ts] *)
Module Auth.

Section Verify.

Variable JSON_parse : string -> option JWTPayload.t.

(** Modelled from the spec: [jwtVerify] of the [jose] package, which is not
    part of the sources.  The sibling verification path "checks both" the
    signature and the [exp] field: a compact token of exactly three
    segments is accepted when its signature is the HMAC-SHA256 of
    [header.payload] under the key and the [exp] of its payload lies after
    the current time in seconds; anything else throws. *)
Definition jwtVerify (now : Z) (token : string) (key : list Z) : Exc JWTPayload.t :=
  match Js.split "."%char token with
  | [h; b; s] =>
      k ← Crypto.importKey key;
      match Base64.atob (Utils.from_url s), Base64.atob (Utils.from_url b) with
      | Some raw, Some text =>
          if Crypto.hmac_verify k (Js.charCodes raw)
               (Js.TextEncoder_encode (h +:+ "." +:+ b))
          then match JSON_parse text with
               | Some p =>
                   if JWTPayload.exp p <=? now then Throw "JWTExpired" else mret p
               | None => Throw "JWTInvalid"
               end
          else Throw "JWSSignatureVerificationFailed"
      | _, _ => Throw "JWSInvalid"
      end
  | _ => Throw "JWSInvalid"
  end.

Definition fixed_header : string := "eyJhbGciOiJIUzI1NiIsInR5cCI6IkpXVCJ9".

Definition verifyJWT_try (now : Z) (token secret : string) : Exc (option JWTPayload.t) :=
  match Js.split "."%char token with
  | header :: _ =>
      if negb (String.eqb header fixed_header) then mret None
      else
        decodedPayload ← jwtVerify now token (Js.TextEncoder_encode secret);
        mret (Some decodedPayload)
  | [] => Throw "TypeError"
  end.

(** [now] is the clock the library reads, in seconds. *)
Definition verifyJWT (now : Z) (token secret : string) : option JWTPayload.t :=
  catchE (verifyJWT_try now token secret) (fun _ => None).

End Verify.
End Auth.

(* ===================================================================== *)
(** * The database *)
(* ===================================================================== *)

(** Rows of [users]; the columns the worker never reads or writes
    ([last_login], [total_requests], [provider_subscription_id]) are left
    out. *)
Module User.
Record t : Type := {
  id : string;
  email : string;
  license_key : string;
  plan : string;
  status : string;
  created_at : Z;
  expires_at : Z;
  payment_provider : option string
}.
End User.

(** Rows of [plan_quotas]. *)
Module PlanQuota.
Record t : Type := {
  plan : string;
  daily_limit : Z;
  monthly_limit : Z;
  credits : Z;
  max_batch_size : Z;
  rate_limit_per_minute : Z
}.
End PlanQuota.

(** Rows of [device_sessions], with the columns of the worker's [INSERT].
    The code guards [daily_reset_at] against a missing value, so that
    column is optional. *)
Module Session.
Record t : Type := {
  id : string;
  user_id : string;
  license_key : string;
  device_fingerprint : string;
  device_hash : string;
  browser_agent : string;
  created_at : Z;
  last_used : Z;
  daily_requests : Z;
  daily_reset_at : option Z;
  is_active : Z
}.
End Session.

Record DB : Type := {
  users : list User.t;
  plan_quotas : list PlanQuota.t;
  device_sessions : list Session.t
}.

Record Env : Type := {
  JWT_SECRET : string;
  DODO_API_KEY : string;
  AI_API_KEY : string;
  RESEND_API_KEY : string;
  DODO_WEBHOOK_SECRET : string
}.

(** ** SQL statements *)
Module Sql.

(** [SELECT ... .first()]: the first row that satisfies the condition. *)
Definition first {A} (p : A -> bool) (rows : list A) : option A := List.find p rows.

(** [UPDATE ... SET ... WHERE ...]. *)
Definition update {A} (p : A -> bool) (f : A -> A) (rows : list A) : list A :=
  map (fun r => if p r then f r else r) rows.

(** [SELECT COUNT( * ) ... WHERE ...]. *)
Definition count {A} (p : A -> bool) (rows : list A) : Z :=
  Z.of_nat (length (List.filter p rows)).

(** [SELECT SUM(col) ... WHERE ...]: [NULL] when no row is selected. *)
Definition sum {A} (col : A -> Z) (p : A -> bool) (rows : list A) : option Z :=
  fold_left
    (fun acc r =>
       if p r then Some (match acc with Some s => s + col r | None => col r end)
       else acc)
    rows None.

Definition user_plans : list string := ["free_trial"; "monthly"; "yearly"; "lifetime"].
Definition user_statuses : list string := ["active"; "suspended"; "expired"].

Definition mem (s : string) (l : list string) : bool := existsb (String.eqb s) l.

(** The [CHECK] constraints of [users] and its foreign key into
    [plan_quotas]. *)
Definition user_checks (db : DB) (u : User.t) : bool :=
  mem (User.plan u) user_plans
  && mem (User.status u) user_statuses
  && mem (User.plan u) (map PlanQuota.plan (plan_quotas db)).

(** The primary key and the two [UNIQUE] columns of [users]. *)
Definition user_collides (u : User.t) (rows : list User.t) : bool :=
  existsb
    (fun r =>
       String.eqb (User.id r) (User.id u)
       || String.eqb (User.email r) (User.email u)
       || String.eqb (User.license_key r) (User.license_key u))
    rows.

Definition with_users (db : DB) (rows : list User.t) : DB :=
  {| users := rows; plan_quotas := plan_quotas db; device_sessions := device_sessions db |}.

Definition with_sessions (db : DB) (rows : list Session.t) : DB :=
  {| users := users db; plan_quotas := plan_quotas db; device_sessions := rows |}.

(** [INSERT INTO users ...]: a violated constraint aborts the statement. *)
Definition insert_user (db : DB) (u : User.t) : Exc DB :=
  if negb (user_checks db u) then Throw "D1_ERROR: constraint failed"
  else if user_collides u (users db) then Throw "D1_ERROR: UNIQUE constraint failed"
  else Ret (with_users db (users db ++ [u])).

(** [UPDATE users SET ... WHERE ...] whose new values must still satisfy the
    checks; the statements of the worker never assign a unique column. *)
Definition update_users (db : DB) (p : User.t -> bool) (f : User.t -> User.t) : Exc DB :=
  if forallb (fun r => implb (p r) (user_checks db (f r))) (users db)
  then Ret (with_users db (update p f (users db)))
  else Throw "D1_ERROR: constraint failed".

(** [INSERT INTO users ... ON CONFLICT(license_key) DO UPDATE SET
    plan=excluded.plan, expires_at=excluded.expires_at]. *)
Definition upsert_user (db : DB) (u : User.t) : Exc DB :=
  let same_key r := String.eqb (User.license_key r) (User.license_key u) in
  if existsb same_key (users db) then
    update_users db same_key
      (fun r =>
         {| User.id := User.id r; User.email := User.email r;
            User.license_key := User.license_key r;
            User.plan := User.plan u; User.status := User.status r;
            User.created_at := User.created_at r;
            User.expires_at := User.expires_at u;
            User.payment_provider := User.payment_provider r |})
  else insert_user db u.

End Sql.

(* ===================================================================== *)
(** * The router file: device sessions, validation, the quota gate *)
(* ===================================================================== *)
Module Worker.

Definition MAX_DEVICES_PER_LICENSE : Z := 2.

Definition sha256 (str : string) : string :=
  Crypto.hex (Crypto.sha256_bytes (Js.TextEncoder_encode str)).

(** ** Device sessions *)

(** What [getOrCreateDeviceSession] hands back: the row it read, or the
    two-field object [{ id, daily_requests: 0 }] of a new device. *)
Inductive SessionHandle : Type :=
| Existing (row : Session.t)
| Created (id : string).

Definition handle_id (h : SessionHandle) : string :=
  match h with
  | Existing row => Session.id row
  | Created i => i
  end.

Definition handle_daily_requests (h : SessionHandle) : Z :=
  match h with
  | Existing row => Session.daily_requests row
  | Created _ => 0
  end.

Definition same_device (userId deviceHash : string) (r : Session.t) : bool :=
  String.eqb (Session.user_id r) userId && String.eqb (Session.device_hash r) deviceHash.

Definition has_id (i : string) (r : Session.t) : bool := String.eqb (Session.id r) i.

Definition is_active_of (userId : string) (r : Session.t) : bool :=
  String.eqb (Session.user_id r) userId && (Session.is_active r =? 1).

(** [SET daily_requests=0, daily_reset_at=?, last_used=?]. *)
Definition reset_day (today now : Z) (r : Session.t) : Session.t :=
  {| Session.id := Session.id r; Session.user_id := Session.user_id r;
     Session.license_key := Session.license_key r;
     Session.device_fingerprint := Session.device_fingerprint r;
     Session.device_hash := Session.device_hash r;
     Session.browser_agent := Session.browser_agent r;
     Session.created_at := Session.created_at r;
     Session.last_used := now;
     Session.daily_requests := 0;
     Session.daily_reset_at := Some today;
     Session.is_active := Session.is_active r |}.

(** [SET last_used=?]. *)
Definition touch (now : Z) (r : Session.t) : Session.t :=
  {| Session.id := Session.id r; Session.user_id := Session.user_id r;
     Session.license_key := Session.license_key r;
     Session.device_fingerprint := Session.device_fingerprint r;
     Session.device_hash := Session.device_hash r;
     Session.browser_agent := Session.browser_agent r;
     Session.created_at := Session.created_at r;
     Session.last_used := now;
     Session.daily_requests := Session.daily_requests r;
     Session.daily_reset_at := Session.daily_reset_at r;
     Session.is_active := Session.is_active r |}.

(** [existing.daily_requests = 0] on the object that was read. *)
Definition zero_requests (r : Session.t) : Session.t :=
  {| Session.id := Session.id r; Session.user_id := Session.user_id r;
     Session.license_key := Session.license_key r;
     Session.device_fingerprint := Session.device_fingerprint r;
     Session.device_hash := Session.device_hash r;
     Session.browser_agent := Session.browser_agent r;
     Session.created_at := Session.created_at r;
     Session.last_used := Session.last_used r;
     Session.daily_requests := 0;
     Session.daily_reset_at := Session.daily_reset_at r;
     Session.is_active := Session.is_active r |}.

(** [existing.daily_reset_at || 0]. *)
Definition reset_at_or_0 (r : Session.t) : Z :=
  match Session.daily_reset_at r with
  | Some n => Js.num_or n 0
  | None => 0
  end.

(** The session of a device.  [now] is [Math.floor(Date.now() / 1000)],
    [today] the local midnight in seconds, [uuid] the value that
    [crypto.randomUUID()] returns if it is called.  The result pairs what
    the call returns or throws with the table it leaves behind. *)
Definition getOrCreateDeviceSession
    (userId licenseKey clientFingerprint agent : string) (env : Env)
    (now today : Z) (uuid : string) (rows : list Session.t)
  : Exc SessionHandle * list Session.t :=
  let deviceHash := sha256 (clientFingerprint +:+ agent +:+ userId +:+ JWT_SECRET env) in
  match Sql.first (same_device userId deviceHash) rows with
  | Some existing =>
      if reset_at_or_0 existing <? today then
        (Ret (Existing (zero_requests existing)),
         Sql.update (has_id (Session.id existing)) (reset_day today now) rows)
      else
        (Ret (Existing existing),
         Sql.update (has_id (Session.id existing)) (touch now) rows)
  | None =>
      let activeCount := Sql.count (is_active_of userId) rows in
      if Js.num_or activeCount 0 >=? MAX_DEVICES_PER_LICENSE then
        (Throw "DEVICE_LIMIT_REACHED", rows)
      else
        let id := uuid in
        (Ret (Created id),
         rows ++ [ {| Session.id := id; Session.user_id := userId;
                      Session.license_key := licenseKey;
                      Session.device_fingerprint := clientFingerprint;
                      Session.device_hash := deviceHash;
                      Session.browser_agent := agent;
                      Session.created_at := now; Session.last_used := now;
                      Session.daily_requests := 0;
                      Session.daily_reset_at := Some today;
                      Session.is_active := 1 |} ])
  end.

(** [SET daily_requests=daily_requests+1 WHERE id=?]. *)
Definition incrementDeviceUsage (id : string) (rows : list Session.t) : list Session.t :=
  Sql.update (has_id id)
    (fun r =>
       {| Session.id := Session.id r; Session.user_id := Session.user_id r;
          Session.license_key := Session.license_key r;
          Session.device_fingerprint := Session.device_fingerprint r;
          Session.device_hash := Session.device_hash r;
          Session.browser_agent := Session.browser_agent r;
          Session.created_at := Session.created_at r;
          Session.last_used := Session.last_used r;
          Session.daily_requests := Session.daily_requests r + 1;
          Session.daily_reset_at := Session.daily_reset_at r;
          Session.is_active := Session.is_active r |})
    rows.

(** ** Responses *)

Inductive Body : Type :=
| ErrorBody (error : string)
| AuthBody (token email plan : string) (quota : option PlanQuota.t) (expiry_ms : Z)
| StatsBody (daily_used daily_limit daily_remaining monthly_limit
             max_batch_size device_used : Z) (can_use : bool) (plan : string).

Record Response : Type := { status : Z; body : Body }.

Definition jsonResponse (data : Body) : Response := {| status := 200; body := data |}.

Definition errorResponse (msg : string) (st : Z) : Response :=
  {| status := st; body := ErrorBody msg |}.

(** [success] of the body. *)
Definition success (r : Response) : bool :=
  match body r with
  | ErrorBody _ => false
  | _ => true
  end.

(** The token a response carries, if any. *)
Definition token_of (r : Response) : option string :=
  match body r with
  | AuthBody t _ _ _ _ => Some t
  | _ => None
  end.

(** [new Date(ms).toISOString()] raises outside the range of dates; the
    rendered instant is kept as its milliseconds. *)
Definition toISOString (ms : Z) : Exc Z :=
  if Z.abs ms <=? 8640000000000000 then Ret ms else Throw "Invalid time value".

(** ** [POST /api/auth/validate] *)

(** [licData?.metadata?.plan_type] and [licData?.customer?.email] of the
    provider's licence document. *)
Record LicData : Type := {
  plan_type : option string;
  customer_email : option string
}.

(** What the two requests to the billing provider come to. *)
Inductive DodoReply : Type :=
| DodoThrows (msg : string)
| DodoNotOk
| DodoOk (licData : Exc LicData).

Definition is_license (key : string) (u : User.t) : bool :=
  String.eqb (User.license_key u) key.

Definition quota_of (db : DB) (p : string) : option PlanQuota.t :=
  Sql.first (fun q => String.eqb (PlanQuota.plan q) p) (plan_quotas db).

(** The tail shared by the two successful paths: mint the token, read the
    quota, render the expiry. *)
Definition auth_response (db : DB) (env : Env) (license_key email plan : string)
    (iat expires : Z) : Exc Response :=
  token ← Utils.generateJWT
             {| JWTPayload.sub := license_key; JWTPayload.plan := plan;
                JWTPayload.iat := iat; JWTPayload.exp := expires |} (JWT_SECRET env);
  let quota := quota_of db plan in
  expiry_date ← toISOString (expires * 1000);
  mret (jsonResponse (AuthBody token email plan quota expiry_date)).

(** [req_json] is the outcome of [await req.json()] read at [license_key];
    [now] is [Math.floor(Date.now()/1000)], [iat] the later [Date.now()];
    [uuid] and [dodo] are used only when no local row exists.

    The handler is not one step.  [db] is the database at its [SELECT];
    while the two requests to the billing provider are awaited, other
    requests of the worker run, and [later] is the database as the
    [INSERT] then finds it.  The result carries what the handler makes of
    [later]: [later] itself wherever the handler writes nothing. *)
Definition validate (db : DB) (env : Env) (now iat : Z) (uuid : string)
    (req_json : Exc (option string)) (dodo : DodoReply) (later : DB) : Response * DB :=
  match req_json with
  | Throw e => (errorResponse e 500, later)
  | Ret lk =>
      if negb (Js.truthy lk) then (errorResponse "License key required" 400, later)
      else
        let license_key := default EmptyString lk in
        match Sql.first (is_license license_key) (users db) with
        | Some local =>
            if negb (String.eqb (User.status local) "active")
            then (errorResponse "License inactive" 403, later)
            else if User.expires_at local <? now
            then (errorResponse "License expired" 403, later)
            else
              (catchE
                 (auth_response db env license_key (User.email local) (User.plan local)
                    iat (User.expires_at local))
                 (fun e => errorResponse e 500),
               later)
        | None =>
            match dodo with
            | DodoThrows e => (errorResponse e 500, later)
            | DodoNotOk => (errorResponse "Invalid license" 403, later)
            | DodoOk (Throw e) => (errorResponse e 500, later)
            | DodoOk (Ret licData) =>
                let plan := default EmptyString
                              (Js.or_else (plan_type licData) (Some "monthly")) in
                let email :=
                  default EmptyString
                    (Js.or_else (customer_email licData)
                       (Some ("user_" +:+ Js.take 6 license_key +:+ "@zonkey.ai"))) in
                let duration := 30 * 86400 in
                let duration := if String.eqb plan "yearly" then 365 * 86400 else duration in
                let duration :=
                  if String.eqb plan "lifetime" then 100 * 365 * 86400 else duration in
                let expires := now + duration in
                match Sql.upsert_user later
                        {| User.id := uuid; User.email := email;
                           User.license_key := license_key; User.plan := plan;
                           User.status := "active"; User.created_at := now;
                           User.expires_at := expires;
                           User.payment_provider := None |} with
                | Throw e => (errorResponse e 500, later)
                | Ret db' =>
                    (catchE (auth_response db' env license_key email plan iat expires)
                       (fun e => errorResponse e 500),
                     db')
                end
            end
        end
  end.

(** ** The gate of the metered endpoints *)

(** The three headers a gated request is read through. *)
Record GatedRequest : Type := {
  Authorization : option string;
  X_Device_ID : option string;
  X_Device_Agent : option string
}.

(** [req.headers.get('Authorization')?.replace('Bearer ','') || '']. *)
Definition bearer (req : GatedRequest) : string :=
  match Authorization req with
  | Some a => Js.replace_first "Bearer " EmptyString a
  | None => EmptyString
  end.

(** [req.headers.get(h) || '']. *)
Definition header_or_empty (h : option string) : string := default EmptyString h.

(** [daily_reset_at >= ?]; a missing value compares false. *)
Definition counted_today (userId : string) (today : Z) (r : Session.t) : bool :=
  String.eqb (Session.user_id r) userId
  && match Session.daily_reset_at r with
     | Some d => d >=? today
     | None => false
     end.

(** [SELECT SUM(daily_requests) as t ... WHERE user_id=? AND
    daily_reset_at>=?], then [total?.t || 0]. *)
Definition used_today (userId : string) (today : Z) (rows : list Session.t) : Z :=
  match Sql.sum Session.daily_requests (counted_today userId today) rows with
  | Some t => Js.num_or t 0
  | None => 0
  end.

(** [quota?.daily_limit || 10]. *)
Definition daily_limit_or_10 (quota : option PlanQuota.t) : Z :=
  match quota with
  | Some q => Js.num_or (PlanQuota.daily_limit q) 10
  | None => 10
  end.

Definition limit_message (used dailyLimit : Z) : string :=
  "Daily limit exceeded - Used " +:+ Js.show used +:+ "/" +:+ Js.show dailyLimit.

Definition device_error (e : string) : Response :=
  if String.eqb e "DEVICE_LIMIT_REACHED"
  then errorResponse "Device limit reached - Max 2 devices per license" 403
  else errorResponse e 403.

(** How the checks that open [/api/ai/generate-keywords] and
    [/api/ai/process] end: with a response, or with the request let
    through to the model provider. *)
Inductive Gate : Type :=
| Denied (r : Response)
| Passed (user : User.t) (session : SessionHandle) (used dailyLimit : Z).

Section Gated.

Variable JSON_parse : string -> option JWTPayload.t.

Definition gate (db : DB) (env : Env) (now today : Z) (uuid : string)
    (req : GatedRequest) : Gate * DB :=
  let token := bearer req in
  let deviceId := header_or_empty (X_Device_ID req) in
  let agent := header_or_empty (X_Device_Agent req) in
  match Utils.verifyJWT JSON_parse token (JWT_SECRET env) with
  | None => (Denied (errorResponse "Unauthorized" 401), db)
  | Some payload =>
      match Sql.first (is_license (JWTPayload.sub payload)) (users db) with
      | None => (Denied (errorResponse "User not found" 404), db)
      | Some user =>
          match getOrCreateDeviceSession (User.id user) (User.license_key user)
                  deviceId agent env now today uuid (device_sessions db) with
          | (Throw e, rows) => (Denied (device_error e), Sql.with_sessions db rows)
          | (Ret session, rows) =>
              let db' := Sql.with_sessions db rows in
              let quota := quota_of db' (JWTPayload.plan payload) in
              let used := used_today (User.id user) today rows in
              let dailyLimit := daily_limit_or_10 quota in
              if used >=? dailyLimit
              then (Denied (errorResponse (limit_message used dailyLimit) 429), db')
              else (Passed user session used dailyLimit, db')
          end
      end
  end.

(** [GET /api/user/stats]. *)
Definition stats (db : DB) (env : Env) (now today : Z) (uuid : string)
    (req : GatedRequest) : Response * DB :=
  let token := bearer req in
  let deviceId := header_or_empty (X_Device_ID req) in
  let agent := header_or_empty (X_Device_Agent req) in
  match Utils.verifyJWT JSON_parse token (JWT_SECRET env) with
  | None => (errorResponse "Unauthorized" 401, db)
  | Some payload =>
      match Sql.first (is_license (JWTPayload.sub payload)) (users db) with
      | None => (errorResponse "User not found" 404, db)
      | Some user =>
          match getOrCreateDeviceSession (User.id user) (User.license_key user)
                  deviceId agent env now today uuid (device_sessions db) with
          | (Throw e, rows) => (device_error e, Sql.with_sessions db rows)
          | (Ret session, rows) =>
              let db' := Sql.with_sessions db rows in
              match quota_of db' (JWTPayload.plan payload) with
              | None => (errorResponse "Plan quota not found" 404, db')
              | Some quota =>
                  let totalUsed := used_today (User.id user) today rows in
                  let dailyLimit := Js.num_or (PlanQuota.daily_limit quota) 10 in
                  let monthlyLimit := Js.num_or (PlanQuota.monthly_limit quota) 1000 in
                  let maxBatchSize := Js.num_or (PlanQuota.max_batch_size quota) 10 in
                  let canUse := totalUsed <? dailyLimit in
                  (jsonResponse
                     (StatsBody totalUsed dailyLimit (Z.max 0 (dailyLimit - totalUsed))
                        monthlyLimit maxBatchSize
                        (Js.num_or (handle_daily_requests session) 0)
                        canUse (JWTPayload.plan payload)),
                   db')
              end
          end
      end
  end.

End Gated.

End Worker.

(* ===================================================================== *)
(** * [webhook.ts] *)
(* ===================================================================== *)
Module Webhook.

Record Product : Type := { plan : string; durationDays : Z; name : string }.

(** The product table.  A lookup reads its own entries only. *)
Definition PRODUCTS : list (string * Product) :=
  [ ("pdt_0NWZwZB3eia1vz1BCOw6C",
     {| plan := "monthly"; durationDays := 30; name := "Monthly Pro" |});
    ("pdt_0NWa2tSwTrvneWU2Yh423",
     {| plan := "yearly"; durationDays := 365; name := "Yearly Pro" |});
    ("pdt_0NWZx6IG1WxAoyOv9korR",
     {| plan := "lifetime"; durationDays := 36500; name := "Lifetime Deal" |}) ].

(** [PRODUCTS[productId]]. *)
Definition product (productId : string) : option Product :=
  option_map snd (List.find (fun e => String.eqb (fst e) productId) PRODUCTS).

Definition chars : string := "ABCDEFGHIJKLMNOPQRSTUVWXYZ0123456789".

(** [chars.charAt(i)]: empty out of range. *)
Definition charAt (i : nat) (s : string) : string :=
  match String.get i s with
  | Some c => String c EmptyString
  | None => EmptyString
  end.

(** [rnd i] is [Math.floor(Math.random() * chars.length)] at the [i]-th
    turn of the loop.  The function is private to the module and is given
    the plan of a product of the table, a string that [Js.upper_fits]. *)
Definition generateKey (rnd : nat -> nat) (plan : string) : string :=
  let random := String.concat EmptyString (map (fun i => charAt (rnd i) chars) (seq 0 12)) in
  "AKH-" +:+ Js.toUpperCase plan +:+ "-" +:+ String.substring 0 4 random
         +:+ "-" +:+ String.substring 4 4 random +:+ "-" +:+ Js.slice_from 8 random.

Definition base64ToUint8Array (base64 : string) : Exc (list Z) :=
  match Base64.atob base64 with
  | Some binaryString => Ret (Js.charCodes binaryString)
  | None => Throw "InvalidCharacterError"
  end.

Definition uint8ArrayToBase64 (bytes : list Z) : string :=
  Base64.btoa (Js.fromCharCodes bytes).

Definition verifySignature_try (payload signature timestamp webhookId secret : string)
  : Exc bool :=
  let secretKey := if Js.startsWith "whsec_" secret then Js.slice_from 6 secret else secret in
  let keyData :=
    catchE (base64ToUint8Array secretKey) (fun _ => Js.TextEncoder_encode secretKey) in
  key ← Crypto.importKey keyData;
  let signedData := webhookId +:+ "." +:+ timestamp +:+ "." +:+ payload in
  let expectedSignature := Crypto.hmac_sha256 key (Js.TextEncoder_encode signedData) in
  let expectedSignatureBase64 := uint8ArrayToBase64 expectedSignature in
  let signatures :=
    map (Js.replace_first "v1," EmptyString) (Js.split " "%char signature) in
  let isValid := existsb (fun sig => String.eqb sig expectedSignatureBase64) signatures in
  mret isValid.

Definition verifySignature (payload signature timestamp webhookId secret : string) : bool :=
  catchE (verifySignature_try payload signature timestamp webhookId secret)
    (fun _ => false).

(** ** Events, at the types the code casts them to *)

Record Customer : Type := { email : option string }.
Record Line : Type := { line_product_id : option string }.

Record Data : Type := {
  customer : option Customer;
  customer_email : option string;
  product_id : option string;
  lines : option (list Line);
  subscription_id : option string
}.

(** [data] is [None] when the event carries none or [null]: the first
    property read on it then throws. *)
Record Payload : Type := { type : string; data : option Data }.

(** What [JSON.parse] makes of a raw body, read at the type the code
    gives it. *)
Inductive Parsed : Type :=
| SyntaxError
| ParsedNull
| ParsedValue (payload : Payload).

(** A licence mail handed to [sendLicenseEmail]. *)
Record Mail : Type := { mail_to : string; mail_key : string; mail_plan : string }.

(** [customer?.email || webhookData.customer_email]. *)
Definition billing_email (d : Data) : option string :=
  Js.or_else (match customer d with Some c => email c | None => None end)
    (customer_email d).

(** [webhookData.product_id || lines?.[0]?.product_id], then the monthly
    default of a bare subscription. *)
Definition resolve_product_id (d : Data) : option string :=
  let productId :=
    Js.or_else (product_id d)
      (match lines d with
       | Some (l :: _) => line_product_id l
       | _ => None
       end) in
  if negb (Js.truthy productId) && Js.truthy (subscription_id d)
  then Some "pdt_0NWZwZB3eia1vz1BCOw6C"
  else productId.

Definition is_failure (t : string) : bool :=
  String.eqb t "payment.failed" || String.eqb t "subscription.cancelled"
  || String.eqb t "subscription.payment_failed".

Definition is_success (t : string) : bool :=
  String.eqb t "payment.succeeded" || String.eqb t "subscription.created"
  || String.eqb t "subscription.active".

Definition has_email (e : string) (u : User.t) : bool := String.eqb (User.email u) e.
Definition has_user_id (i : string) (u : User.t) : bool := String.eqb (User.id u) i.

(** [SET status = 'expired']. *)
Definition expire (u : User.t) : User.t :=
  {| User.id := User.id u; User.email := User.email u;
     User.license_key := User.license_key u; User.plan := User.plan u;
     User.status := "expired"; User.created_at := User.created_at u;
     User.expires_at := User.expires_at u;
     User.payment_provider := User.payment_provider u |}.

(** [SET plan = ?, status = 'active', expires_at = ?,
    payment_provider = 'dodo_webhook']. *)
Definition renew (p : string) (newExpiry : Z) (u : User.t) : User.t :=
  {| User.id := User.id u; User.email := User.email u;
     User.license_key := User.license_key u; User.plan := p;
     User.status := "active"; User.created_at := User.created_at u;
     User.expires_at := newExpiry;
     User.payment_provider := Some "dodo_webhook" |}.

(** The mail step that closes a successful event. *)
Definition license_mail (env : Env) (e key : string) (cfg : Product) : option Mail :=
  if negb (String.eqb (RESEND_API_KEY env) EmptyString)
  then Some {| mail_to := e; mail_key := key; mail_plan := name cfg |}
  else None.

(** The body of the [try] of [processWebhookAsync]: the database as its
    statements leave it, and the mail it sends unless it throws.  [now] is
    the clock in seconds, [uuid] and [rnd] the random draws of a new
    licence.  A statement that fails leaves the database as it was; the log
    line that renders the new expiry date comes after the statement, and
    its [toISOString] throws when the date is out of range. *)
Definition processWebhookAsync_try (type : string) (data : option Data) (env : Env)
    (now : Z) (uuid : string) (rnd : nat -> nat) (db : DB) : DB * Exc (option Mail) :=
  match data with
  | None => (db, Throw "Cannot read properties of undefined (reading 'customer')")
  | Some data =>
      if is_failure type then
        let email := billing_email data in
        if Js.truthy email then
          match Sql.update_users db (has_email (default EmptyString email)) expire with
          | Throw e => (db, Throw e)
          | Ret db' => (db', Ret None)
          end
        else (db, Ret None)
      else if is_success type then
        let email := billing_email data in
        let productId := resolve_product_id data in
        if negb (Js.truthy email) || negb (Js.truthy productId) then (db, Ret None)
        else
          let email := default EmptyString email in
          match product (default EmptyString productId) with
          | None => (db, Ret None)
          | Some productConfig =>
              let existingUser := Sql.first (has_email email) (users db) in
              let durationSeconds := durationDays productConfig * 86400 in
              match existingUser with
              | Some existingUser =>
                  let finalLicenseKey := User.license_key existingUser in
                  let currentExpiry := Js.num_or (User.expires_at existingUser) 0 in
                  let newExpiry :=
                    (if currentExpiry >? now then currentExpiry else now) + durationSeconds in
                  match Sql.update_users db (has_user_id (User.id existingUser))
                          (renew (plan productConfig) newExpiry) with
                  | Throw e => (db, Throw e)
                  | Ret db' =>
                      (db',
                       _ ← Worker.toISOString (newExpiry * 1000);
                       mret (license_mail env email finalLicenseKey productConfig))
                  end
              | None =>
                  let finalLicenseKey := generateKey rnd (plan productConfig) in
                  let newExpiry := now + durationSeconds in
                  let userId := uuid in
                  match Sql.insert_user db
                          {| User.id := userId; User.email := email;
                             User.license_key := finalLicenseKey;
                             User.plan := plan productConfig; User.status := "active";
                             User.created_at := now; User.expires_at := newExpiry;
                             User.payment_provider := Some "dodo_webhook" |} with
                  | Throw e => (db, Throw e)
                  | Ret db' =>
                      (db',
                       _ ← Worker.toISOString (newExpiry * 1000);
                       mret (license_mail env email finalLicenseKey productConfig))
                  end
              end
          end
      else (db, Ret None)
  end.

(** An exception is logged and nothing else: no mail goes out, and the
    database stays as the statements before the throw left it. *)
Definition processWebhookAsync (type : string) (data : option Data) (env : Env)
    (now : Z) (uuid : string) (rnd : nat -> nat) (db : DB) : DB * option Mail :=
  let run := processWebhookAsync_try type data env now uuid rnd db in
  (fst run, catchE (snd run) (fun _ => None)).

(** ** The endpoint *)

Record Request : Type := {
  has_body : bool;
  webhook_id : option string;
  webhook_signature : option string;
  webhook_timestamp : option string;
  text : string
}.

Inductive Body : Type :=
| NoRequestBody
| MissingHeaders (webhookId webhookSig webhookTs : string)
| InvalidSignature (webhookId webhookSig webhookTs rawBody : string)
| Duplicate
| InvalidJSON
| Received (webhookId : string)
| InternalError (details : string).

Record Response : Type := { status : Z; body : Body }.

(** What the endpoint works on: the database, the module-level set of
    processed ids, and the promises handed to [ctx.waitUntil]. *)
Record World : Type := {
  db : DB;
  processedWebhooks : gset string;
  background : list (string * option Data)
}.

Section Endpoint.

(** [JSON.parse] of the raw body. *)
Variable JSON_parse : string -> Parsed.

Definition handleDodoWebhook (w : World) (request : Request) (env : Env)
  : Response * World :=
  if negb (has_body request) then ({| status := 400; body := NoRequestBody |}, w)
  else
    let webhookId := default EmptyString (webhook_id request) in
    let webhookSig := default EmptyString (webhook_signature request) in
    let webhookTs := default EmptyString (webhook_timestamp request) in
    let rawBody := text request in
    if String.eqb webhookId EmptyString || String.eqb webhookSig EmptyString
       || String.eqb webhookTs EmptyString
    then ({| status := 400; body := MissingHeaders webhookId webhookSig webhookTs |}, w)
    else if negb (String.eqb (DODO_WEBHOOK_SECRET env) EmptyString)
            && negb (verifySignature rawBody webhookSig webhookTs webhookId
                       (DODO_WEBHOOK_SECRET env))
    then ({| status := 401;
             body := InvalidSignature webhookId webhookSig webhookTs
                       (Js.take 100 rawBody +:+ "...") |}, w)
    else if bool_decide (webhookId ∈ processedWebhooks w)
    then ({| status := 200; body := Duplicate |}, w)
    else
      let w1 := {| db := db w;
                   processedWebhooks := {[ webhookId ]} ∪ processedWebhooks w;
                   background := background w |} in
      match JSON_parse rawBody with
      | SyntaxError => ({| status := 400; body := InvalidJSON |}, w1)
      | ParsedNull =>
          ({| status := 500;
              body := InternalError "Cannot read properties of null (reading 'type')" |},
           w1)
      | ParsedValue payload =>
          ({| status := 200; body := Received webhookId |},
           {| db := db w1; processedWebhooks := processedWebhooks w1;
              background := background w1 ++ [(type payload, data payload)] |})
      end.

End Endpoint.

(** One deferred task runs to its end. *)
Definition run_background (w : World) (env : Env) (now : Z) (uuid : string)
    (rnd : nat -> nat) : World * option Mail :=
  match background w with
  | [] => (w, None)
  | (t, d) :: rest =>
      let '(db', mail) := processWebhookAsync t d env now uuid rnd (db w) in
      ({| db := db'; processedWebhooks := processedWebhooks w; background := rest |}, mail)
  end.

End Webhook.

(* ===================================================================== *)
(** * [score-products.ts] *)
(* ===================================================================== *)
Module ScoreProducts.

(** A product text is an arbitrary JavaScript string: it is kept as its
    UTF-16 code units. *)
Definition Text : Type := list Z.

(** A string literal of the source as such a text. *)
Definition lit (s : string) : Text := Js.charCodes s.

Definition eqb_text (a b : Text) : bool := bool_decide (a = b).

(** The code units [String.prototype.trim] removes: white space and line
    terminators. *)
Definition is_white (u : Z) : bool :=
  (u =? 9) || (u =? 10) || (u =? 11) || (u =? 12) || (u =? 13) || (u =? 32)
  || (u =? 160) || (u =? 5760) || ((8192 <=? u) && (u <=? 8202))
  || (u =? 8232) || (u =? 8233) || (u =? 8239) || (u =? 8287) || (u =? 12288)
  || (u =? 65279).

Fixpoint trimStart (t : Text) : Text :=
  match t with
  | u :: r => if is_white u then trimStart r else t
  | [] => []
  end.

Definition trim (t : Text) : Text := rev (trimStart (rev (trimStart t))).

(** ** Numbers *)

(** A JavaScript number: not-a-number, a finite value, or an infinity.  A
    finite double is a rational, and the source only compares numbers. *)
Module Num.

Inductive t : Type :=
| NaN
| Fin (q : QArith_base.Q)
| PosInf
| NegInf.

Definition of_Z (z : Z) : t := Fin (QArith_base.inject_Z z).

(** [a >= b]. *)
Definition geb (a b : t) : bool :=
  match a, b with
  | NaN, _ | _, NaN => false
  | PosInf, _ => true
  | _, NegInf => true
  | Fin x, Fin y => QArith_base.Qle_bool y x
  | Fin _, PosInf => false
  | NegInf, _ => false
  end.

(** [a > b]. *)
Definition gtb (a b : t) : bool :=
  match a, b with
  | NaN, _ | _, NaN => false
  | PosInf, PosInf => false
  | PosInf, _ => true
  | NegInf, _ => false
  | Fin x, Fin y => negb (QArith_base.Qle_bool x y)
  | Fin _, PosInf => false
  | Fin _, NegInf => true
  end.

(** [a < b]. *)
Definition ltb (a b : t) : bool := gtb b a.

(** [a === b]. *)
Definition eqb (a b : t) : bool :=
  match a, b with
  | Fin x, Fin y => QArith_base.Qeq_bool x y
  | PosInf, PosInf => true
  | NegInf, NegInf => true
  | _, _ => false
  end.

(** The integer part of a finite value, towards zero. *)
Definition trunc (q : QArith_base.Q) : Z :=
  Z.quot (QArith_base.Qnum q) (Z.pos (QArith_base.Qden q)).

End Num.

(** [l.slice(0, end)]. *)
Definition slice_to {A} (end_ : Num.t) (l : list A) : list A :=
  let len := Z.of_nat (length l) in
  let final :=
    match end_ with
    | Num.NaN => 0
    | Num.NegInf => 0
    | Num.PosInf => len
    | Num.Fin q =>
        let relativeEnd := Num.trunc q in
        if relativeEnd <? 0 then Z.max (len + relativeEnd) 0 else Z.min relativeEnd len
    end in
  firstn (Z.to_nat final) l.

(** ** Products and their scores *)

(** A product as the interface declares it: [None] is a property that is
    missing ([undefined]). *)
Record Product : Type := {
  title : Text;
  rating : option Num.t;
  reviews : option Num.t;
  bought : option Num.t;
  asin : option Text;
  price : option Text;
  description : option Text;
  category : option Text
}.

Inductive Level : Type := high | medium | low.

(** [{ ...product, score, level, reasons }]. *)
Record ScoredProduct : Type := {
  product : Product;
  score : Z;
  level : Level;
  reasons : list string
}.

(** [price.replace(/[^0-9.]/g, '')]. *)
Definition digits_and_dots (t : Text) : Text :=
  List.filter (fun u => ((48 <=? u) && (u <=? 57)) || (u =? 46)) t.

Definition nonempty (t : Text) : bool :=
  match t with
  | [] => false
  | _ :: _ => true
  end.

Section Scoring.

(** [parseFloat] of the platform. *)
Variable parseFloat : Text -> Num.t.

Definition calculateProductScore (product : Product) : ScoredProduct :=
  let rating := default (Num.of_Z 0) (rating product) in
  let reviews := default (Num.of_Z 0) (reviews product) in
  let bought := default (Num.of_Z 0) (bought product) in
  let score := 0 in
  let reasons : list string := [] in
  let '(score, reasons) :=
    if Num.geb bought (Num.of_Z 1000)
    then (score + 40, reasons ++ ["High sales volume (1000+ bought)"])
    else if Num.geb bought (Num.of_Z 500)
    then (score + 25, reasons ++ ["Good sales volume (500+ bought)"])
    else if Num.geb bought (Num.of_Z 100)
    then (score + 10, reasons ++ ["Moderate sales volume (100+ bought)"])
    else (score, reasons) in
  let '(score, reasons) :=
    if Num.eqb reviews (Num.of_Z 0) && Num.gtb bought (Num.of_Z 50)
    then (score + 40, reasons ++ ["Popular product with no reviews yet"])
    else if Num.ltb reviews (Num.of_Z 50)
    then (score + 30, reasons ++ ["Low review count (< 50 reviews)"])
    else if Num.ltb reviews (Num.of_Z 500)
    then (score + 10, reasons ++ ["Moderate review count (< 500 reviews)"])
    else (score, reasons) in
  let '(score, reasons) :=
    if Num.geb rating (Num.Fin (QArith_base.Qmake 9 2))
    then (score + 30, reasons ++ ["Excellent rating (4.5+ stars)"])
    else if Num.geb rating (Num.of_Z 4)
    then (score + 20, reasons ++ ["Good rating (4.0+ stars)"])
    else if Num.geb rating (Num.Fin (QArith_base.Qmake 7 2))
    then (score + 10, reasons ++ ["Average rating (3.5+ stars)"])
    else (score, reasons) in
  let '(score, reasons) :=
    if nonempty (title product) && (50 <? Z.of_nat (length (title product)))
    then (score + 5, reasons ++ ["Detailed product title"])
    else (score, reasons) in
  let '(score, reasons) :=
    if match price product with
       | Some p => nonempty p && Num.gtb (parseFloat (digits_and_dots p)) (Num.of_Z 50)
       | None => false
       end
    then (score + 5, reasons ++ ["Premium pricing"])
    else (score, reasons) in
  let level := if score >=? 70 then high else if score >=? 40 then medium else low in
  {| product := product; score := score; level := level; reasons := reasons |}.

(** The filter of [processProducts]. *)
Definition valid (p : Product) : bool :=
  nonempty (title p)
  && (0 <? Z.of_nat (length (trim (title p))))
  && negb (eqb_text (title p) (lit "No Title"))
  && negb (eqb_text (title p) (lit "No title found")).

(** [l.sort((a, b) => b.score - a.score)]: a stable sort, highest score
    first. *)
Fixpoint insert (x : ScoredProduct) (l : list ScoredProduct) : list ScoredProduct :=
  match l with
  | [] => [x]
  | y :: r => if score x <? score y then y :: insert x r else x :: l
  end.

Definition sort (l : list ScoredProduct) : list ScoredProduct := fold_right insert [] l.

Definition processProducts (products : list Product) : list ScoredProduct :=
  let validProducts := List.filter valid products in
  let scoredProducts := map calculateProductScore validProducts in
  sort scoredProducts.

End Scoring.

(** ** The endpoint *)

(** [body.filters]: [minScore] and [maxResults] are [None] unless they
    are numbers. *)
Record Filters : Type := {
  minScore : option Num.t;
  maxResults : option Num.t;
  categories : option (list Text)
}.

(** The [metadata] text of a usage row, kept as the value it is the JSON
    of: what the keyword endpoint writes, and what this endpoint writes. *)
Inductive Metadata : Type :=
| KeywordsMeta (titles_count keywords_generated : Z)
| ScoreMeta (products_processed products_filtered : Z) (filters : Filters).

(** Rows of [usage_logs], without the key the table numbers them by. *)
Module UsageLog.
Record t : Type := {
  user_id : string;
  action : string;
  tokens_used : Z;
  credits_used : Z;
  timestamp : Z;
  metadata : Metadata
}.
End UsageLog.

(** [{}]. *)
Definition no_filters : Filters :=
  {| minScore := None; maxResults := None; categories := None |}.

(** What [request.json()] resolves to, read at the type the code gives
    it: [null], or a value whose [products] is an array or not, and whose
    [filters] is an object or not. *)
Inductive ParsedBody : Type :=
| BodyNull
| BodyValue (products : option (list Product)) (filters : option Filters).

Record Request : Type := {
  Authorization : option string;
  json : Exc ParsedBody
}.

Inductive Body : Type :=
| ErrorBody (error : string)
| ScoreBody (products : list ScoredProduct) (total_processed total_filtered : Z)
            (filters : Filters).

Record Response : Type := { status : Z; body : Body }.

(** [jsonResponse] and [errorResponse] of [utils.ts]. *)
Definition jsonResponse (data : Body) : Response := {| status := 200; body := data |}.
Definition errorResponse (msg : string) (st : Z) : Response :=
  {| status := st; body := ErrorBody msg |}.

(** The two filters, in the order the endpoint applies them. *)
Definition applyFilters (filters : option Filters) (scoredProducts : list ScoredProduct)
  : list ScoredProduct :=
  match filters with
  | Some f =>
      let filteredProducts :=
        match minScore f with
        | Some m => List.filter (fun p => Num.geb (Num.of_Z (score p)) m) scoredProducts
        | None => scoredProducts
        end in
      match maxResults f with
      | Some n => slice_to n filteredProducts
      | None => filteredProducts
      end
  | None => scoredProducts
  end.

(** [WHERE user_id = ? AND timestamp >= ?]. *)
Definition counted (userId : string) (today : Z) (r : UsageLog.t) : bool :=
  String.eqb (UsageLog.user_id r) userId && (UsageLog.timestamp r >=? today).

Section Endpoint.

Variable JSON_parse : string -> option JWTPayload.t.
Variable parseFloat : Text -> Num.t.

(** [clock] is the time at which the token is verified, [today] the local
    midnight and [now] the time at which the usage is logged, all in
    seconds. *)
Definition handleScoreProducts (db : DB) (logs : list UsageLog.t) (env : Env)
    (clock today now : Z) (request : Request) : Response * list UsageLog.t :=
  let authHeader := default EmptyString (Authorization request) in
  match Auth.verifyJWT JSON_parse clock (Js.replace_first "Bearer " EmptyString authHeader)
          (JWT_SECRET env) with
  | None => (errorResponse "Invalid authentication token" 401, logs)
  | Some payload =>
      match Sql.first (Worker.is_license (JWTPayload.sub payload)) (users db) with
      | None => (errorResponse "User not found" 404, logs)
      | Some user =>
          let usage := Sql.count (counted (User.id user) today) logs in
          let quota := Worker.quota_of db (JWTPayload.plan payload) in
          if match quota with
             | Some q => usage >=? PlanQuota.daily_limit q
             | None => false
             end
          then (errorResponse "Daily rate limit exceeded" 429, logs)
          else
            let body :=
              catchE (json request) (fun _ => BodyValue (Some []) (Some no_filters)) in
            match body with
            | BodyNull => (errorResponse "Internal server error" 500, logs)
            | BodyValue None _ => (errorResponse "Invalid products data" 400, logs)
            | BodyValue (Some products) bodyFilters =>
                let scoredProducts := processProducts parseFloat products in
                let filteredProducts := applyFilters bodyFilters scoredProducts in
                let filters := default no_filters bodyFilters in
                let logs' :=
                  logs ++ [ {| UsageLog.user_id := User.id user;
                               UsageLog.action := "score_products";
                               UsageLog.tokens_used := 0;
                               UsageLog.credits_used := 1;
                               UsageLog.timestamp := now;
                               UsageLog.metadata :=
                                 ScoreMeta (Z.of_nat (length scoredProducts))
                                   (Z.of_nat (length filteredProducts)) filters |} ] in
                (jsonResponse
                   (ScoreBody filteredProducts (Z.of_nat (length scoredProducts))
                      (Z.of_nat (length filteredProducts)) filters),
                 logs')
            end
      end
  end.

End Endpoint.

End ScoreProducts.

(* ===================================================================== *)
(** * Concrete data for the examples *)
(* ===================================================================== *)
Module Sample.

Definition env0 : Env :=
  {| JWT_SECRET := "s3cret"; DODO_API_KEY := "dodo-key"; AI_API_KEY := "ai-key";
     RESEND_API_KEY := "resend-key"; DODO_WEBHOOK_SECRET := EmptyString |}.

(** A licence that runs out at second 100. *)
Definition alice : User.t :=
  {| User.id := "u1"; User.email := "alice@example.org"; User.license_key := "KEY-1";
     User.plan := "monthly"; User.status := "active"; User.created_at := 10;
     User.expires_at := 100; User.payment_provider := None |}.

Definition monthly_quota (limit : Z) : PlanQuota.t :=
  {| PlanQuota.plan := "monthly"; PlanQuota.daily_limit := limit;
     PlanQuota.monthly_limit := 1000; PlanQuota.credits := 10000;
     PlanQuota.max_batch_size := 20; PlanQuota.rate_limit_per_minute := 60 |}.

Definition db0 : DB :=
  {| users := [alice]; plan_quotas := [monthly_quota 50]; device_sessions := [] |}.

(** The payload of the credential of [alice], and the credential that
    [generateJWT] mints for it under the secret of [env0]. *)
Definition payload0 : JWTPayload.t :=
  {| JWTPayload.sub := "KEY-1"; JWTPayload.plan := "monthly";
     JWTPayload.iat := 100000; JWTPayload.exp := 100 |}.

Definition token0 : string :=
  "eyJhbGciOiJIUzI1NiIsInR5cCI6IkpXVCJ9"
  +:+ ".eyJzdWIiOiJLRVktMSIsInBsYW4iOiJtb250aGx5IiwiaWF0IjoxMDAwMDAsImV4cCI6MTAwfQ=="
  +:+ ".0sHQtVZMkCMTtmIOh0lJjFeS410A9YvHUgNoUgwzX2E".

(** [JSON.parse] on the one text these examples feed it. *)
Definition parse_payload0 (text : string) : option JWTPayload.t :=
  if String.eqb text (Json.stringify_payload payload0) then Some payload0 else None.

(** A request of [alice] from a device that no row knows yet. *)
Definition req0 : Worker.GatedRequest :=
  {| Worker.Authorization := Some ("Bearer " +:+ token0);
     Worker.X_Device_ID := Some "fp-laptop";
     Worker.X_Device_Agent := Some "Firefox" |}.

(** The table after that request opened its session at second 50 of day 0. *)
Definition sessions0 : list Session.t :=
  snd (Worker.getOrCreateDeviceSession "u1" "KEY-1" "fp-laptop" "Firefox" env0 50 0 "x1" []).

(** The same database with a plan whose daily limit is 0. *)
Definition db_zero : DB :=
  {| users := [alice]; plan_quotas := [monthly_quota 0]; device_sessions := [] |}.

(** *** Webhook deliveries, signed under the key [supersecretkey12] *)

Definition env_signed : Env :=
  {| JWT_SECRET := "s3cret"; DODO_API_KEY := "dodo-key"; AI_API_KEY := "ai-key";
     RESEND_API_KEY := "resend-key";
     DODO_WEBHOOK_SECRET := "whsec_c3VwZXJzZWNyZXRrZXkxMg==" |}.

(** The body of a successful payment of [alice] for the monthly product. *)
Definition paid_text : string :=
  "{" +:+ Json.quote "type" +:+ ":" +:+ Json.quote "payment.succeeded" +:+ ","
      +:+ Json.quote "data" +:+ ":{"
      +:+ Json.quote "customer_email" +:+ ":" +:+ Json.quote "alice@example.org" +:+ ","
      +:+ Json.quote "product_id" +:+ ":" +:+ Json.quote "pdt_0NWZwZB3eia1vz1BCOw6C"
      +:+ "}}".

Definition paid_data : Webhook.Data :=
  {| Webhook.customer := None;
     Webhook.customer_email := Some "alice@example.org";
     Webhook.product_id := Some "pdt_0NWZwZB3eia1vz1BCOw6C";
     Webhook.lines := None;
     Webhook.subscription_id := None |}.

(** [JSON.parse] on the two bodies these examples deliver: the payment
    above, and the text [{oops], which is not JSON. *)
Definition parse_event (text : string) : Webhook.Parsed :=
  if String.eqb text paid_text
  then Webhook.ParsedValue
         {| Webhook.type := "payment.succeeded"; Webhook.data := Some paid_data |}
  else Webhook.SyntaxError.

Definition delivery (id signature timestamp body : string) : Webhook.Request :=
  {| Webhook.has_body := true; Webhook.webhook_id := Some id;
     Webhook.webhook_signature := Some signature;
     Webhook.webhook_timestamp := Some timestamp; Webhook.text := body |}.

Definition paid_msg_1 : Webhook.Request :=
  delivery "msg_1" "v1,/YAyLpAjuYvbFYNTx7FGM9tOScdma1hFTtHwiq/GaAA=" "1700000000" paid_text.

Definition garbled_msg_2 : Webhook.Request :=
  delivery "msg_2" "v1,5rnO36ktVZxenI5b5ZBr/NWut3R+DJxMOV1Z0+fd0dQ=" "1700000100" "{oops".

Definition paid_msg_2 : Webhook.Request :=
  delivery "msg_2" "v1,Pr66pJ/Dad1wJqm3TxpcxZfOCDU5fS5ocP7k92BzK0w=" "1700000200" paid_text.

Definition world_of (d : DB) (ids : gset string) : Webhook.World :=
  {| Webhook.db := d; Webhook.processedWebhooks := ids; Webhook.background := [] |}.

End Sample.

(* ===================================================================== *)
(** * Properties *)
(* ===================================================================== *)

(** ** The platform primitives on known values *)
Module PlatformChecks.

Example sha256_abc :
  Worker.sha256 "abc" = "ba7816bf8f01cfea414140de5dae2223b00361a396177a9cb410ff61f20015ad".
Proof. vm_compute. reflexivity. Qed.

Example sha256_two_blocks :
  Worker.sha256 "abcdbcdecdefdefgefghfghighijhijkijkljklmklmnlmnomnopnopq"
  = "248d6a61d20638b8e5c026930c3e6039a33ce45964ff2167f6ecedd419db06c1".
Proof. vm_compute. reflexivity. Qed.

Example hmac_sha256_fox :
  Crypto.hex
    (Crypto.hmac_sha256 (Js.TextEncoder_encode "key")
       (Js.TextEncoder_encode "The quick brown fox jumps over the lazy dog"))
  = "f7bc83f430538424b13298e6aa6fb143ef4d59a14946175997479dbc2d1a3cd8".
Proof. vm_compute. reflexivity. Qed.

Example btoa_padding :
  (Base64.btoa "a", Base64.btoa "ab", Base64.btoa "abc") = ("YQ==", "YWI=", "YWJj").
Proof. vm_compute. reflexivity. Qed.

Example atob_forgiving :
  (Base64.atob "YQ", Base64.atob "YWI=", Base64.atob "YWI==", Base64.atob "Y-I=")
  = (Some "a", Some "ab", None, None).
Proof. vm_compute. reflexivity. Qed.

(** A signature header with two candidates is accepted when either is the
    computed one. *)
Example second_candidate_is_enough :
  Webhook.verifySignature Sample.paid_text
    "v1,AAAA v1,/YAyLpAjuYvbFYNTx7FGM9tOScdma1hFTtHwiq/GaAA=" "1700000000" "msg_1"
    "whsec_c3VwZXJzZWNyZXRrZXkxMg==" = true
  /\ Webhook.verifySignature Sample.paid_text "v1,AAAA v1,BBBB" "1700000000" "msg_1"
       "whsec_c3VwZXJzZWNyZXRrZXkxMg==" = false.
Proof. vm_compute. split; reflexivity. Qed.

End PlatformChecks.

(** ** Tables *)
Section TableFacts.

Context {A : Type}.
Implicit Types (p q : A -> bool) (f : A -> A) (rows : list A).

Lemma first_In p rows r : Sql.first p rows = Some r -> In r rows /\ p r = true.
Proof. apply List.find_some. Qed.

Lemma first_None p rows r : Sql.first p rows = None -> In r rows -> p r = false.
Proof. intros H Hin. exact (List.find_none p rows H r Hin). Qed.

Lemma first_exists p rows r :
  In r rows -> p r = true -> exists r0, Sql.first p rows = Some r0.
Proof.
  intros Hin Hp. destruct (Sql.first p rows) as [r0|] eqn:E; [eauto|].
  rewrite (first_None p rows r E Hin) in Hp. discriminate.
Qed.


(** An update that does not touch the columns of a condition leaves the
    row it selects in place. *)
Lemma first_update p q f rows :
  (forall r, p (f r) = p r) ->
  Sql.first p (Sql.update q f rows)
  = option_map (fun r => if q r then f r else r) (Sql.first p rows).
Proof.
  intros Hp. unfold Sql.first, Sql.update.
  induction rows as [|a rows IH]; simpl; [reflexivity|].
  destruct (q a) eqn:Hq; [rewrite Hp|];
    (destruct (p a); simpl; [now rewrite Hq | exact IH]).
Qed.

Lemma count_append p rows r :
  Sql.count p (rows ++ [r]) = Sql.count p rows + (if p r then 1 else 0).
Proof.
  unfold Sql.count. rewrite List.filter_app, List.length_app. simpl.
  destruct (p r); simpl; lia.
Qed.

Lemma update_column {B} (col : A -> B) q f rows :
  (forall r, col (f r) = col r) ->
  map col (Sql.update q f rows) = map col rows.
Proof.
  intros Hc. unfold Sql.update. rewrite map_map. apply map_ext.
  intros r. destruct (q r); [apply Hc | reflexivity].
Qed.

Lemma count_update p q f rows :
  (forall r, p (f r) = p r) ->
  Sql.count p (Sql.update q f rows) = Sql.count p rows.
Proof.
  intros Hp. unfold Sql.count, Sql.update. f_equal.
  induction rows as [|a rows IH]; simpl; [reflexivity|].
  destruct (q a); simpl; rewrite ?Hp; destruct (p a); simpl; now rewrite IH.
Qed.

End TableFacts.

(** ** Device sessions *)
Module DeviceProps.
Import Worker Sample.

(** A run of calls for one device: every call reads the clock and may draw
    an identifier. *)
Fixpoint repeated_calls (userId licenseKey clientFingerprint agent : string) (env : Env)
    (clock : list (Z * Z * string)) (rows : list Session.t)
  : list (Exc SessionHandle) * list Session.t :=
  match clock with
  | [] => ([], rows)
  | (now, today, uuid) :: rest =>
      let '(res, rows1) :=
        getOrCreateDeviceSession userId licenseKey clientFingerprint agent env
          now today uuid rows in
      let '(out, rows2) :=
        repeated_calls userId licenseKey clientFingerprint agent env rest rows1 in
      (res :: out, rows2)
  end.

(** The hash under which a device of an account is filed. *)
Definition device_hash_of (userId clientFingerprint agent : string) (env : Env) : string :=
  sha256 (clientFingerprint +:+ agent +:+ userId +:+ JWT_SECRET env).

(** The columns that identify a session. *)
Definition same_session (a b : Session.t) : Prop :=
  Session.id a = Session.id b
  /\ Session.user_id a = Session.user_id b
  /\ Session.device_hash a = Session.device_hash b.

Lemma same_session_refl a : same_session a a.
Proof. repeat split. Qed.

Lemma same_session_trans a b c : same_session a b -> same_session b c -> same_session a c.
Proof. unfold same_session. intuition congruence. Qed.

Lemma has_id_self r : has_id (Session.id r) r = true.
Proof. apply String.eqb_refl. Qed.

Lemma same_device_reset u h today now r :
  same_device u h (reset_day today now r) = same_device u h r.
Proof. reflexivity. Qed.

Lemma same_device_touch u h now r : same_device u h (touch now r) = same_device u h r.
Proof. reflexivity. Qed.

(** One call for a device that is on file: the row found is handed back,
    and the table is rewritten in place. *)
Lemma known_device_step userId licenseKey fp agent env now today uuid rows r0 :
  Sql.first (same_device userId (device_hash_of userId fp agent env)) rows = Some r0 ->
  exists row g,
    getOrCreateDeviceSession userId licenseKey fp agent env now today uuid rows
    = (Ret (Existing row), Sql.update (has_id (Session.id r0)) g rows)
    /\ same_session r0 row
    /\ (forall r, same_session r (g r))
    /\ (forall r, same_device userId (device_hash_of userId fp agent env) (g r)
                  = same_device userId (device_hash_of userId fp agent env) r).
Proof.
  intros Hfirst. unfold getOrCreateDeviceSession.
  fold (device_hash_of userId fp agent env). rewrite Hfirst.
  destruct (reset_at_or_0 r0 <? today).
  - exists (zero_requests r0), (reset_day today now). repeat split.
  - exists r0, (touch now). repeat split.
Qed.

(** After such a call the same row is found again. *)
Lemma known_device_stays userId h g rows r0 :
  Sql.first (same_device userId h) rows = Some r0 ->
  (forall r, same_session r (g r)) ->
  (forall r, same_device userId h (g r) = same_device userId h r) ->
  exists r1,
    Sql.first (same_device userId h) (Sql.update (has_id (Session.id r0)) g rows) = Some r1
    /\ same_session r0 r1.
Proof.
  intros Hfirst Hg Hdev. rewrite first_update by exact Hdev. rewrite Hfirst. simpl.
  rewrite has_id_self. exists (g r0). split; [reflexivity | apply Hg].
Qed.

Lemma repeated_calls_known userId licenseKey fp agent env clock :
  forall rows r0,
    Sql.first (same_device userId (device_hash_of userId fp agent env)) rows = Some r0 ->
    Forall (fun res => exists row, res = Ret (Existing row) /\ same_session r0 row)
      (fst (repeated_calls userId licenseKey fp agent env clock rows))
    /\ map Session.id (snd (repeated_calls userId licenseKey fp agent env clock rows))
       = map Session.id rows.
Proof.
  induction clock as [|[[now today] uuid] rest IH]; intros rows r0 Hfirst; simpl.
  - split; [constructor | reflexivity].
  - destruct (known_device_step userId licenseKey fp agent env now today uuid rows r0 Hfirst)
      as (row & g & Hcall & Hrow & Hg & Hdev).
    rewrite Hcall.
    destruct (known_device_stays userId _ g rows r0 Hfirst Hg Hdev) as (r1 & Hfirst1 & Hr1).
    specialize (IH _ _ Hfirst1).
    destruct (repeated_calls userId licenseKey fp agent env rest
                (Sql.update (has_id (Session.id r0)) g rows)) as [out rows2].
    simpl in *. destruct IH as [Hout Hids]. split.
    + constructor; [exists row; auto|].
      eapply List.Forall_impl; [|exact Hout].
      intros res (row' & -> & Hrow'). exists row'. split; [reflexivity|].
      eapply same_session_trans; eauto.
    + rewrite Hids. apply update_column. intros r. symmetry. apply (Hg r).
Qed.

(** C3. Once a row exists for (user, device hash), every later call of
    [getOrCreateDeviceSession] for that user, fingerprint and agent hands
    back the session on file, whatever the clock and however many sessions
    of the account are active: no call throws, and the table keeps exactly
    the rows it had, so no second row is ever inserted. *)
Theorem known_device_is_always_readmitted
    (userId licenseKey fp agent : string) (env : Env)
    (rows : list Session.t) (r : Session.t) (clock : list (Z * Z * string)) :
  In r rows ->
  Session.user_id r = userId ->
  Session.device_hash r = device_hash_of userId fp agent env ->
  exists r0,
    In r0 rows
    /\ Session.user_id r0 = userId
    /\ Session.device_hash r0 = Session.device_hash r
    /\ Forall (fun res => exists row, res = Ret (Existing row) /\ same_session r0 row)
         (fst (repeated_calls userId licenseKey fp agent env clock rows))
    /\ length (fst (repeated_calls userId licenseKey fp agent env clock rows)) = length clock
    /\ map Session.id (snd (repeated_calls userId licenseKey fp agent env clock rows))
       = map Session.id rows
    /\ length (snd (repeated_calls userId licenseKey fp agent env clock rows)) = length rows.
Proof.
  intros Hin Hu Hh.
  destruct (first_exists (same_device userId (device_hash_of userId fp agent env)) rows r Hin)
    as [r0 Hfirst].
  { unfold same_device. rewrite Hu, Hh, !String.eqb_refl. reflexivity. }
  exists r0. split; [apply (first_In _ _ _ Hfirst)|].
  assert (Hr0 : Session.user_id r0 = userId
                /\ Session.device_hash r0 = Session.device_hash r).
  { destruct (first_In _ _ _ Hfirst) as [_ Hdev]. unfold same_device in Hdev.
    apply andb_true_iff in Hdev. destruct Hdev as [Hu0 Hh0].
    apply String.eqb_eq in Hu0. apply String.eqb_eq in Hh0. split; congruence. }
  destruct Hr0 as [Hu0 Hh0]. split; [exact Hu0|]. split; [exact Hh0|].
  destruct (repeated_calls_known userId licenseKey fp agent env clock rows r0 Hfirst)
    as [Hout Hids].
  split; [exact Hout|]. split.
  - clear. revert rows. induction clock as [|[[now today] uuid] rest IH]; intros rows; simpl.
    + reflexivity.
    + destruct (getOrCreateDeviceSession userId licenseKey fp agent env now today uuid rows)
        as [res rows1].
      specialize (IH rows1).
      destruct (repeated_calls userId licenseKey fp agent env rest rows1). simpl in *.
      now rewrite IH.
  - split; [exact Hids|].
    rewrite <- (length_map Session.id), Hids. apply length_map.
Qed.

Lemma num_or_0 n : Js.num_or n 0 = n.
Proof. unfold Js.num_or. destruct (Z.eqb_spec n 0); congruence. Qed.

Lemma unknown_device_not_found userId h rows :
  (forall r, In r rows -> Session.user_id r = userId -> Session.device_hash r <> h) ->
  Sql.first (same_device userId h) rows = None.
Proof.
  intros Hnew. destruct (Sql.first (same_device userId h) rows) as [r|] eqn:E; [|reflexivity].
  apply first_In in E. destruct E as [Hin Hdev]. unfold same_device in Hdev.
  apply andb_true_iff in Hdev. destruct Hdev as [Hu Hh].
  apply String.eqb_eq in Hu. apply String.eqb_eq in Hh.
  exfalso. exact (Hnew r Hin Hu Hh).
Qed.

(** C4. With [MAX_DEVICES_PER_LICENSE] or more active sessions on the
    account, a call whose device hash is on none of the account's rows
    throws [DEVICE_LIMIT_REACHED] and leaves the table as it was; a call
    for any device that is on file is still answered with its session. *)
Theorem new_device_over_cap_is_rejected
    (userId licenseKey fp agent : string) (env : Env) (now today : Z) (uuid : string)
    (rows : list Session.t) :
  (forall r, In r rows -> Session.user_id r = userId ->
             Session.device_hash r <> device_hash_of userId fp agent env) ->
  MAX_DEVICES_PER_LICENSE <= Sql.count (is_active_of userId) rows ->
  getOrCreateDeviceSession userId licenseKey fp agent env now today uuid rows
  = (Throw "DEVICE_LIMIT_REACHED", rows)
  /\ forall r licenseKey' fp' agent' now' today' uuid',
       In r rows -> Session.user_id r = userId ->
       Session.device_hash r = device_hash_of userId fp' agent' env ->
       exists row,
         fst (getOrCreateDeviceSession userId licenseKey' fp' agent' env now' today' uuid'
                (snd (getOrCreateDeviceSession userId licenseKey fp agent env
                        now today uuid rows)))
         = Ret (Existing row)
         /\ Session.user_id row = userId
         /\ Session.device_hash row = Session.device_hash r.
Proof.
  intros Hnew Hcap.
  assert (Hcall : getOrCreateDeviceSession userId licenseKey fp agent env now today uuid rows
                  = (Throw "DEVICE_LIMIT_REACHED", rows)).
  { unfold getOrCreateDeviceSession. fold (device_hash_of userId fp agent env).
    rewrite (unknown_device_not_found _ _ _ Hnew), num_or_0.
    destruct (Z.geb_spec (Sql.count (is_active_of userId) rows) MAX_DEVICES_PER_LICENSE);
      [reflexivity | lia]. }
  split; [exact Hcall|].
  intros r licenseKey' fp' agent' now' today' uuid' Hin Hu Hh. rewrite Hcall. simpl.
  destruct (first_exists (same_device userId (device_hash_of userId fp' agent' env)) rows r Hin)
    as [r0 Hfirst].
  { unfold same_device. rewrite Hu, Hh, !String.eqb_refl. reflexivity. }
  destruct (known_device_step userId licenseKey' fp' agent' env now' today' uuid' rows r0 Hfirst)
    as (row & g & Hcall' & (_ & Hru & Hrh) & _).
  exists row. rewrite Hcall'. split; [reflexivity|].
  apply first_In in Hfirst. destruct Hfirst as [_ Hdev]. unfold same_device in Hdev.
  apply andb_true_iff in Hdev. destruct Hdev as [Hu0 Hh0].
  apply String.eqb_eq in Hu0. apply String.eqb_eq in Hh0.
  split; congruence.
Qed.

(** The cap is an invariant of the table: no call takes an account past
    [MAX_DEVICES_PER_LICENSE] active sessions. *)
Lemma device_cap_preserved userId licenseKey fp agent env now today uuid rows account :
  Sql.count (is_active_of account) rows <= MAX_DEVICES_PER_LICENSE ->
  Sql.count (is_active_of account)
    (snd (getOrCreateDeviceSession userId licenseKey fp agent env now today uuid rows))
  <= MAX_DEVICES_PER_LICENSE.
Proof.
  intros Hcap. unfold getOrCreateDeviceSession.
  destruct (Sql.first _ rows) as [existing|].
  - destruct (reset_at_or_0 existing <? today); simpl;
      rewrite count_update by reflexivity; exact Hcap.
  - rewrite num_or_0.
    destruct (Z.geb_spec (Sql.count (is_active_of userId) rows) MAX_DEVICES_PER_LICENSE)
      as [Hfull|Hroom]; simpl; [exact Hcap|].
    rewrite count_append. unfold is_active_of at 2. simpl.
    destruct (String.eqb_spec userId account) as [->|Hother]; simpl; lia.
Qed.

(** *** Concrete tables *)

Definition session_of (i userId fp agent : string) (requests : Z) (day : Z) : Session.t :=
  {| Session.id := i; Session.user_id := userId; Session.license_key := "KEY-1";
     Session.device_fingerprint := fp;
     Session.device_hash := device_hash_of userId fp agent env0;
     Session.browser_agent := agent; Session.created_at := 1000;
     Session.last_used := 1000; Session.daily_requests := requests;
     Session.daily_reset_at := Some day; Session.is_active := 1 |}.

Definition laptop : Session.t := session_of "s1" "u1" "fp-laptop" "Firefox" 3 86400.
Definition phone : Session.t := session_of "s2" "u1" "fp-phone" "Safari" 4 86400.

Lemma known_device_witness :
  exists r0,
    In r0 [laptop; phone]
    /\ Session.user_id r0 = "u1"
    /\ Session.device_hash r0 = Session.device_hash phone
    /\ Forall (fun res => exists row, res = Ret (Existing row) /\ same_session r0 row)
         (fst (repeated_calls "u1" "KEY-1" "fp-phone" "Safari" env0
                 [(90000, 86400, "x1"); (180000, 172800, "x2")] [laptop; phone]))
    /\ length (fst (repeated_calls "u1" "KEY-1" "fp-phone" "Safari" env0
                      [(90000, 86400, "x1"); (180000, 172800, "x2")] [laptop; phone]))
       = 2%nat
    /\ map Session.id
         (snd (repeated_calls "u1" "KEY-1" "fp-phone" "Safari" env0
                 [(90000, 86400, "x1"); (180000, 172800, "x2")] [laptop; phone]))
       = ["s1"; "s2"]
    /\ length (snd (repeated_calls "u1" "KEY-1" "fp-phone" "Safari" env0
                      [(90000, 86400, "x1"); (180000, 172800, "x2")] [laptop; phone]))
       = 2%nat.
Proof.
  apply (known_device_is_always_readmitted "u1" "KEY-1" "fp-phone" "Safari" env0
           [laptop; phone] phone [(90000, 86400, "x1"); (180000, 172800, "x2")]).
  - right. left. reflexivity.
  - reflexivity.
  - reflexivity.
Defined.

Lemma third_device_witness :
  getOrCreateDeviceSession "u1" "KEY-1" "fp-tablet" "Chrome" env0 90000 86400 "x3"
    [laptop; phone]
  = (Throw "DEVICE_LIMIT_REACHED", [laptop; phone])
  /\ forall r licenseKey' fp' agent' now' today' uuid',
       In r [laptop; phone] -> Session.user_id r = "u1" ->
       Session.device_hash r = device_hash_of "u1" fp' agent' env0 ->
       exists row,
         fst (getOrCreateDeviceSession "u1" licenseKey' fp' agent' env0 now' today' uuid'
                (snd (getOrCreateDeviceSession "u1" "KEY-1" "fp-tablet" "Chrome" env0
                        90000 86400 "x3" [laptop; phone])))
         = Ret (Existing row)
         /\ Session.user_id row = "u1"
         /\ Session.device_hash row = Session.device_hash r.
Proof.
  apply (new_device_over_cap_is_rejected "u1" "KEY-1" "fp-tablet" "Chrome" env0
           90000 86400 "x3" [laptop; phone]).
  - intros r [<-|[<-|[]]] _; vm_compute; discriminate.
  - vm_compute. discriminate.
Defined.

End DeviceProps.

(** ** The quota gate *)
Module GateProps.
Import Worker Sample.

(** The daily usage of an account in the words of the specification: the
    sum of [daily_requests] over the sessions of the user whose
    [daily_reset_at] is at or after the day boundary. *)
Definition counts_for (userId : string) (today : Z) (r : Session.t) : bool :=
  String.eqb (Session.user_id r) userId
  && match Session.daily_reset_at r with
     | Some d => today <=? d
     | None => false
     end.

Definition dailyUsage (userId : string) (today : Z) (rows : list Session.t) : Z :=
  fold_right Z.add 0
    (map Session.daily_requests (List.filter (counts_for userId today) rows)).

(** The limit the code compares with: the plan's, or 10 in its place when
    the plan's is zero. *)
Definition effective_limit (quota : PlanQuota.t) : Z :=
  if PlanQuota.daily_limit quota =? 0 then 10 else PlanQuota.daily_limit quota.

Lemma counted_today_counts_for userId today r :
  counted_today userId today r = counts_for userId today r.
Proof.
  unfold counted_today, counts_for. destruct (Session.daily_reset_at r); [|reflexivity].
  now rewrite Z.geb_leb.
Qed.

Lemma filter_none {A} (p : A -> bool) (rows : list A) :
  existsb p rows = false -> List.filter p rows = [].
Proof.
  induction rows as [|a rows IH]; simpl; [reflexivity|].
  destruct (p a); simpl; [discriminate | exact IH].
Qed.

Lemma sum_fold {A} (col : A -> Z) (p : A -> bool) (rows : list A) (acc : option Z) :
  fold_left
    (fun acc r =>
       if p r then Some (match acc with Some s => s + col r | None => col r end) else acc)
    rows acc
  = if existsb p rows
    then Some (default 0 acc + fold_right Z.add 0 (map col (List.filter p rows)))
    else acc.
Proof.
  revert acc. induction rows as [|a rows IH]; intros acc; simpl; [reflexivity|].
  rewrite IH. destruct (p a); simpl; [|reflexivity].
  destruct (existsb p rows) eqn:E.
  - destruct acc; unfold default; simpl; f_equal; lia.
  - rewrite (filter_none _ _ E). destruct acc; unfold default; simpl; f_equal; lia.
Qed.

(** The aggregate of the statement is the sum of the specification. *)
Lemma used_today_dailyUsage userId today rows :
  used_today userId today rows = dailyUsage userId today rows.
Proof.
  unfold used_today, dailyUsage, Sql.sum. rewrite sum_fold.
  rewrite (List.filter_ext _ _ (counted_today_counts_for userId today)).
  destruct (existsb (counted_today userId today) rows) eqn:E.
  - simpl. apply DeviceProps.num_or_0.
  - apply filter_none in E.
    rewrite (List.filter_ext _ _ (counted_today_counts_for userId today)) in E.
    now rewrite E.
Qed.

Lemma daily_limit_or_10_effective quota :
  daily_limit_or_10 (Some quota) = effective_limit quota.
Proof. reflexivity. Qed.

Section Gated.

Variable JSON_parse : string -> option JWTPayload.t.

(** C5, as the code has it. For a request that carries a valid credential
    of a stored user, is given a device session, and whose plan has a quota
    row: the usage weighed at the gate is the sum of [daily_requests] over
    the user's sessions with [daily_reset_at] at or after today's boundary
    (in the table the session step leaves); the request is let through
    exactly when that sum is strictly below the plan's [daily_limit], read
    as 10 when the row holds 0, and is otherwise refused with status 429
    and the used/limit pair; [/api/user/stats] reports the same sum, limit
    and comparison. *)
Theorem gate_weighs_account_total
    (db : DB) (env : Env) (now today : Z) (uuid : string) (req : GatedRequest)
    (payload : JWTPayload.t) (user : User.t) (session : SessionHandle)
    (rows : list Session.t) (quota : PlanQuota.t) :
  Utils.verifyJWT JSON_parse (bearer req) (JWT_SECRET env) = Some payload ->
  Sql.first (is_license (JWTPayload.sub payload)) (users db) = Some user ->
  getOrCreateDeviceSession (User.id user) (User.license_key user)
    (header_or_empty (X_Device_ID req)) (header_or_empty (X_Device_Agent req))
    env now today uuid (device_sessions db) = (Ret session, rows) ->
  quota_of db (JWTPayload.plan payload) = Some quota ->
  gate JSON_parse db env now today uuid req
  = (if dailyUsage (User.id user) today rows <? effective_limit quota
     then Passed user session (dailyUsage (User.id user) today rows) (effective_limit quota)
     else Denied
            (errorResponse
               ("Daily limit exceeded - Used "
                  +:+ Js.show (dailyUsage (User.id user) today rows)
                  +:+ "/" +:+ Js.show (effective_limit quota)) 429),
     Sql.with_sessions db rows)
  /\ exists remaining monthly batch device,
       stats JSON_parse db env now today uuid req
       = (jsonResponse
            (StatsBody (dailyUsage (User.id user) today rows) (effective_limit quota)
               remaining monthly batch device
               (dailyUsage (User.id user) today rows <? effective_limit quota)
               (JWTPayload.plan payload)),
          Sql.with_sessions db rows).
Proof.
  intros Hjwt Huser Hsession Hquota. split.
  - unfold gate. rewrite Hjwt, Huser, Hsession.
    replace (quota_of (Sql.with_sessions db rows) (JWTPayload.plan payload))
      with (Some quota) by (symmetry; exact Hquota).
    rewrite daily_limit_or_10_effective, used_today_dailyUsage, Z.geb_leb.
    rewrite (Z.ltb_antisym (effective_limit quota)).
    destruct (effective_limit quota <=? dailyUsage (User.id user) today rows); reflexivity.
  - unfold stats. rewrite Hjwt, Huser, Hsession.
    replace (quota_of (Sql.with_sessions db rows) (JWTPayload.plan payload))
      with (Some quota) by (symmetry; exact Hquota).
    rewrite used_today_dailyUsage. do 4 eexists. reflexivity.
Qed.

End Gated.

Lemma gate_witness :
  gate parse_payload0 db0 env0 50 0 "x1" req0
  = (if dailyUsage (User.id alice) 0 sessions0 <? effective_limit (monthly_quota 50)
     then Passed alice (Created "x1") (dailyUsage (User.id alice) 0 sessions0)
            (effective_limit (monthly_quota 50))
     else Denied
            (errorResponse
               ("Daily limit exceeded - Used "
                  +:+ Js.show (dailyUsage (User.id alice) 0 sessions0)
                  +:+ "/" +:+ Js.show (effective_limit (monthly_quota 50))) 429),
     Sql.with_sessions db0 sessions0)
  /\ exists remaining monthly batch device,
       stats parse_payload0 db0 env0 50 0 "x1" req0
       = (jsonResponse
            (StatsBody (dailyUsage (User.id alice) 0 sessions0)
               (effective_limit (monthly_quota 50))
               remaining monthly batch device
               (dailyUsage (User.id alice) 0 sessions0 <? effective_limit (monthly_quota 50))
               (JWTPayload.plan payload0)),
          Sql.with_sessions db0 sessions0).
Proof.
  apply (gate_weighs_account_total parse_payload0 db0 env0 50 0 "x1" req0
           payload0 alice (Created "x1") sessions0 (monthly_quota 50)).
  - vm_compute. reflexivity.
  - reflexivity.
  - reflexivity.
  - reflexivity.
Defined.

(** With a quota row whose [daily_limit] is 0 and no usage at all, the sum
    (0) is not below the plan's limit (0), and the request is let through
    all the same, against a limit of 10. *)
Lemma gate_passes_a_zero_limit :
  quota_of db_zero (JWTPayload.plan payload0) = Some (monthly_quota 0)
  /\ PlanQuota.daily_limit (monthly_quota 0) = 0
  /\ dailyUsage (User.id alice) 0 sessions0 = 0
  /\ gate parse_payload0 db_zero env0 50 0 "x1" req0
     = (Passed alice (Created "x1") 0 10, Sql.with_sessions db_zero sessions0).
Proof. vm_compute. repeat split. Qed.

End GateProps.

(** ** Licence validation *)
Module ValidateProps.
Import Worker Sample.

Lemma first_unique_key (rows : list User.t) (local : User.t) :
  List.NoDup (map User.license_key rows) ->
  In local rows ->
  Sql.first (is_license (User.license_key local)) rows = Some local.
Proof.
  unfold Sql.first, is_license.
  induction rows as [|a rows IH]; intros Hnd Hin; [destruct Hin|].
  simpl in *. apply List.NoDup_cons_iff in Hnd. destruct Hnd as [Hfresh Hnd].
  destruct (String.eqb_spec (User.license_key a) (User.license_key local)) as [Hk|Hk].
  - destruct Hin as [->|Hin]; [reflexivity|].
    exfalso. apply Hfresh. rewrite Hk. apply in_map. exact Hin.
  - destruct Hin as [->|Hin]; [congruence|]. apply IH; assumption.
Qed.

(** C1, as the code has it. A stored licence whose status is not [active],
    or whose [expires_at] lies strictly before the current second, is
    never validated: the answer carries no token and is not a success,
    the database is untouched, and for a non-empty key the answer is the
    403 error [License inactive] or [License expired]. *)
Theorem validate_refuses_inactive_or_expired
    (db : DB) (env : Env) (now iat : Z) (uuid : string) (dodo : DodoReply)
    (later : DB) (local : User.t) :
  In local (users db) ->
  List.NoDup (map User.license_key (users db)) ->
  User.status local <> "active" \/ User.expires_at local < now ->
  success
    (fst (validate db env now iat uuid (Ret (Some (User.license_key local))) dodo later))
  = false
  /\ token_of
       (fst (validate db env now iat uuid (Ret (Some (User.license_key local))) dodo later))
     = None
  /\ snd (validate db env now iat uuid (Ret (Some (User.license_key local))) dodo later)
     = later
  /\ (User.license_key local <> EmptyString ->
      fst (validate db env now iat uuid (Ret (Some (User.license_key local))) dodo later)
      = errorResponse
          (if String.eqb (User.status local) "active"
           then "License expired" else "License inactive") 403).
Proof.
  intros Hin Hnd Hbad. unfold validate, Js.truthy.
  destruct (String.eqb_spec (User.license_key local) EmptyString) as [He|He]; simpl.
  - repeat split; try reflexivity. intros Hne. contradiction.
  - rewrite (first_unique_key _ _ Hnd Hin).
    destruct (String.eqb_spec (User.status local) "active") as [Ha|Ha]; simpl.
    + destruct Hbad as [Hs|Hx]; [contradiction|].
      destruct (Z.ltb_spec (User.expires_at local) now); [|lia].
      repeat split; reflexivity.
    + repeat split; reflexivity.
Qed.

Lemma validate_witness :
  success (fst (validate db0 env0 101 100000 "x1" (Ret (Some (User.license_key alice)))
                  DodoNotOk db0))
  = false
  /\ token_of (fst (validate db0 env0 101 100000 "x1" (Ret (Some (User.license_key alice)))
                     DodoNotOk db0))
     = None
  /\ snd (validate db0 env0 101 100000 "x1" (Ret (Some (User.license_key alice))) DodoNotOk
            db0)
     = db0
  /\ (User.license_key alice <> EmptyString ->
      fst (validate db0 env0 101 100000 "x1" (Ret (Some (User.license_key alice))) DodoNotOk
             db0)
      = errorResponse
          (if String.eqb (User.status alice) "active"
           then "License expired" else "License inactive") 403).
Proof.
  apply (validate_refuses_inactive_or_expired db0 env0 101 100000 "x1" DodoNotOk db0 alice).
  - left. reflexivity.
  - repeat constructor. simpl. tauto.
  - right. simpl. lia.
Defined.

(** At the very second of expiry ([expires_at = now]) an active licence is
    still validated: the answer is a success and carries a token. *)
Lemma validate_accepts_at_expiry_second :
  In alice (users db0)
  /\ User.expires_at alice <= 100
  /\ validate db0 env0 100 100000 "x1" (Ret (Some (User.license_key alice))) DodoNotOk db0
     = (jsonResponse
          (AuthBody token0 "alice@example.org" "monthly" (Some (monthly_quota 50)) 100000),
        db0).
Proof. vm_compute. intuition discriminate. Qed.

End ValidateProps.

(** ** The webhook endpoint: deduplication *)
Module EndpointProps.
Import Webhook.

(** The inputs of the checks that come before deduplication. *)
Definition header (h : option string) : string := default EmptyString h.

(** A request that gets past the body, header and signature checks. *)
Definition authentic (request : Request) (env : Env) : bool :=
  has_body request
  && negb (String.eqb (header (webhook_id request)) EmptyString)
  && negb (String.eqb (header (webhook_signature request)) EmptyString)
  && negb (String.eqb (header (webhook_timestamp request)) EmptyString)
  && (String.eqb (DODO_WEBHOOK_SECRET env) EmptyString
      || verifySignature (text request) (header (webhook_signature request))
           (header (webhook_timestamp request)) (header (webhook_id request))
           (DODO_WEBHOOK_SECRET env)).

(** The answer to an event whose mutation was handed to the background. *)
Definition applied (id : string) (r : Response) : bool :=
  match body r with
  | Received i => String.eqb i id
  | _ => false
  end.

Definition duplicate_response : Response := {| status := 200; body := Duplicate |}.
Definition invalid_json_response : Response := {| status := 400; body := InvalidJSON |}.

(** The world once an id has been recorded and nothing else changed. *)
Definition recorded (id : string) (w : World) : World :=
  {| db := db w; processedWebhooks := {[ id ]} ∪ processedWebhooks w;
     background := background w |}.

Section Endpoint.

Variable JSON_parse : string -> Parsed.

(** Deliveries handled one after the other. *)
Fixpoint deliveries (w : World) (requests : list Request) (env : Env)
  : list Response * World :=
  match requests with
  | [] => ([], w)
  | request :: rest =>
      let '(r, w1) := handleDodoWebhook JSON_parse w request env in
      let '(rs, w2) := deliveries w1 rest env in
      (r :: rs, w2)
  end.

Lemma handle_authentic w request env :
  authentic request env = true ->
  handleDodoWebhook JSON_parse w request env
  = if bool_decide (header (webhook_id request) ∈ processedWebhooks w)
    then (duplicate_response, w)
    else match JSON_parse (text request) with
         | SyntaxError => (invalid_json_response, recorded (header (webhook_id request)) w)
         | ParsedNull =>
             ({| status := 500;
                 body := InternalError "Cannot read properties of null (reading 'type')" |},
              recorded (header (webhook_id request)) w)
         | ParsedValue payload =>
             ({| status := 200; body := Received (header (webhook_id request)) |},
              {| db := db w;
                 processedWebhooks := {[ header (webhook_id request) ]} ∪ processedWebhooks w;
                 background := background w ++ [(type payload, data payload)] |})
         end.
Proof.
  unfold authentic, handleDodoWebhook, header. intros H.
  repeat (apply andb_true_iff in H; destruct H as [H ?]).
  rewrite H. simpl.
  destruct (String.eqb (default EmptyString (webhook_id request)) EmptyString);
    [discriminate|].
  destruct (String.eqb (default EmptyString (webhook_signature request)) EmptyString);
    [discriminate|].
  destruct (String.eqb (default EmptyString (webhook_timestamp request)) EmptyString);
    [discriminate|].
  simpl.
  destruct (String.eqb (DODO_WEBHOOK_SECRET env) EmptyString); simpl.
  - reflexivity.
  - simpl in *. match goal with Hv : verifySignature _ _ _ _ _ = true |- _ => rewrite Hv end.
    reflexivity.
Qed.

(** A delivery whose id is on record changes nothing, whatever else it
    carries. *)
Lemma recorded_id_changes_nothing w request env :
  header (webhook_id request) ∈ processedWebhooks w ->
  snd (handleDodoWebhook JSON_parse w request env) = w.
Proof.
  intros Hin. unfold handleDodoWebhook. fold (header (webhook_id request)).
  repeat match goal with
         | |- context [if ?c then _ else _] =>
             lazymatch c with
             | bool_decide _ => fail
             | _ => destruct c; [reflexivity|]
             end
         end.
  rewrite bool_decide_eq_true_2 by exact Hin. reflexivity.
Qed.

(** What one delivery can do to the set, and when it is applied. *)
Lemma handle_step w request env :
  processedWebhooks w ⊆ processedWebhooks (snd (handleDodoWebhook JSON_parse w request env))
  /\ forall id,
       applied id (fst (handleDodoWebhook JSON_parse w request env)) = true ->
       (id ∉ processedWebhooks w)
       /\ (id ∈ processedWebhooks (snd (handleDodoWebhook JSON_parse w request env))).
Proof.
  unfold handleDodoWebhook. fold (header (webhook_id request)).
  repeat match goal with
         | |- context [if ?c then _ else _] =>
             lazymatch c with
             | bool_decide _ => fail
             | _ => destruct c; [split; [reflexivity | intros id Hid; discriminate]|]
             end
         end.
  destruct (bool_decide_reflect (header (webhook_id request) ∈ processedWebhooks w))
    as [Hin|Hout].
  - split; [reflexivity | intros id Hid; discriminate].
  - destruct (JSON_parse (text request)); simpl.
    + split; [set_solver | intros id Hid; discriminate].
    + split; [set_solver | intros id Hid; discriminate].
    + split; [set_solver|]. intros id Hid. unfold applied in Hid. simpl in Hid.
      apply String.eqb_eq in Hid. subst id. split; [exact Hout | set_solver].
Qed.

Lemma deliveries_keep_ids requests env :
  forall w, processedWebhooks w ⊆ processedWebhooks (snd (deliveries w requests env)).
Proof.
  induction requests as [|request rest IH]; intros w; simpl; [reflexivity|].
  pose proof (proj1 (handle_step w request env)) as Hsub.
  destruct (handleDodoWebhook JSON_parse w request env) as [r w1]. simpl in *.
  specialize (IH w1). destruct (deliveries w1 rest env) as [rs w2]. simpl in *.
  set_solver.
Qed.

(** Once an id is on record no later delivery is applied under it. *)
Lemma recorded_id_never_applied id requests env :
  forall w,
    id ∈ processedWebhooks w ->
    Forall (fun r => applied id r = false) (fst (deliveries w requests env)).
Proof.
  induction requests as [|request rest IH]; intros w Hin; simpl; [constructor|].
  pose proof (handle_step w request env) as [Hsub Happ].
  destruct (handleDodoWebhook JSON_parse w request env) as [r w1]. simpl in *.
  assert (Hin1 : id ∈ processedWebhooks w1) by (apply Hsub; exact Hin).
  specialize (IH w1 Hin1). destruct (deliveries w1 rest env) as [rs w2]. simpl in *.
  constructor; [|exact IH].
  destruct (applied id r) eqn:E; [|reflexivity].
  destruct (Happ id E) as [Hout _]. contradiction.
Qed.

(** Over any run of deliveries an id is applied at most once. *)
Lemma applied_at_most_once id requests env :
  forall w, (length (List.filter (applied id) (fst (deliveries w requests env))) <= 1)%nat.
Proof.
  induction requests as [|request rest IH]; intros w; simpl; [lia|].
  pose proof (proj2 (handle_step w request env)) as Happ.
  pose proof (recorded_id_never_applied id rest env) as Hnever.
  destruct (handleDodoWebhook JSON_parse w request env) as [r w1]. simpl in *.
  specialize (IH w1). specialize (Hnever w1).
  destruct (deliveries w1 rest env) as [rs w2]. simpl in *.
  destruct (applied id r) eqn:E; [|exact IH].
  destruct (Happ id E) as [_ Hin1]. specialize (Hnever Hin1).
  assert (Hnil : List.filter (applied id) rs = []).
  { clear -Hnever. induction rs as [|x rs IHrs]; [reflexivity|].
    inversion Hnever as [|? ? Hx Hrs]; subst. simpl. rewrite Hx. apply IHrs, Hrs. }
  rewrite Hnil. simpl. lia.
Qed.

(** C6. A delivery whose [webhook-id] is already in the processed set
    leaves the database, the set and the background queue exactly as they
    were; when it is an authentic delivery (body, headers and signature
    pass) the answer is 200 with [duplicate: true]; no later run of
    deliveries is ever applied under that id; and from any state an id is
    applied at most once. *)
Theorem duplicate_delivery_is_inert (w : World) (request : Request) (env : Env) :
  header (webhook_id request) ∈ processedWebhooks w ->
  snd (handleDodoWebhook JSON_parse w request env) = w
  /\ (authentic request env = true ->
      fst (handleDodoWebhook JSON_parse w request env) = duplicate_response)
  /\ (forall requests env',
        Forall (fun r => applied (header (webhook_id request)) r = false)
          (fst (deliveries w requests env')))
  /\ (forall w0 requests env',
        (length (List.filter (applied (header (webhook_id request)))
                   (fst (deliveries w0 requests env'))) <= 1)%nat).
Proof.
  intros Hin. split; [apply recorded_id_changes_nothing, Hin|]. split.
  - intros Hauth. rewrite (handle_authentic _ _ _ Hauth).
    rewrite bool_decide_eq_true_2 by exact Hin. reflexivity.
  - split.
    + intros requests env'. apply recorded_id_never_applied, Hin.
    + intros w0 requests env'. apply applied_at_most_once.
Qed.

(** C10. An authentic delivery with a fresh id whose body does not parse
    is answered 400 [Invalid JSON payload], and by then its id is in the
    processed set; whatever is delivered in between, every later authentic
    delivery under that id, valid body or not, is answered 200 with
    [duplicate: true] and changes nothing, so its event is never applied. *)
Theorem malformed_body_burns_the_id (w : World) (request : Request) (env : Env) :
  authentic request env = true ->
  header (webhook_id request) ∉ processedWebhooks w ->
  JSON_parse (text request) = SyntaxError ->
  handleDodoWebhook JSON_parse w request env
  = (invalid_json_response, recorded (header (webhook_id request)) w)
  /\ forall between later env',
       header (webhook_id later) = header (webhook_id request) ->
       authentic later env' = true ->
       handleDodoWebhook JSON_parse
         (snd (deliveries (recorded (header (webhook_id request)) w) between env'))
         later env'
       = (duplicate_response,
          snd (deliveries (recorded (header (webhook_id request)) w) between env'))
       /\ Forall (fun r => applied (header (webhook_id request)) r = false)
            (fst (deliveries (recorded (header (webhook_id request)) w) between env')).
Proof.
  intros Hauth Hfresh Hparse. split.
  - rewrite (handle_authentic _ _ _ Hauth).
    rewrite bool_decide_eq_false_2 by exact Hfresh. rewrite Hparse. reflexivity.
  - intros between later env' Hid Hauth'.
    assert (Hrec : header (webhook_id request)
                   ∈ processedWebhooks (recorded (header (webhook_id request)) w))
      by (simpl; set_solver).
    split.
    + rewrite (handle_authentic _ _ _ Hauth'). rewrite Hid.
      rewrite bool_decide_eq_true_2; [reflexivity|].
      apply (deliveries_keep_ids between env'). exact Hrec.
    + apply recorded_id_never_applied. exact Hrec.
Qed.

End Endpoint.

Import Sample.

Lemma duplicate_delivery_witness :
  snd (handleDodoWebhook parse_event (world_of db0 {[ "msg_1" ]}) paid_msg_1 env_signed)
  = world_of db0 {[ "msg_1" ]}
  /\ (authentic paid_msg_1 env_signed = true ->
      fst (handleDodoWebhook parse_event (world_of db0 {[ "msg_1" ]}) paid_msg_1 env_signed)
      = duplicate_response)
  /\ (forall requests env',
        Forall (fun r => applied (header (webhook_id paid_msg_1)) r = false)
          (fst (deliveries parse_event (world_of db0 {[ "msg_1" ]}) requests env')))
  /\ (forall w0 requests env',
        (length (List.filter (applied (header (webhook_id paid_msg_1)))
                   (fst (deliveries parse_event w0 requests env'))) <= 1)%nat).
Proof.
  apply (duplicate_delivery_is_inert parse_event (world_of db0 {[ "msg_1" ]})
           paid_msg_1 env_signed).
  apply (bool_decide_eq_true_1 (header (webhook_id paid_msg_1) ∈ ({[ "msg_1" ]} : gset string))).
  vm_compute. reflexivity.
Defined.

(** The signature of the sample delivery is the one the endpoint computes. *)
Example paid_msg_1_is_authentic : authentic paid_msg_1 env_signed = true.
Proof. vm_compute. reflexivity. Qed.

Lemma malformed_body_witness :
  handleDodoWebhook parse_event (world_of db0 ∅) garbled_msg_2 env_signed
  = (invalid_json_response, recorded (header (webhook_id garbled_msg_2)) (world_of db0 ∅))
  /\ forall between later env',
       header (webhook_id later) = header (webhook_id garbled_msg_2) ->
       authentic later env' = true ->
       handleDodoWebhook parse_event
         (snd (deliveries parse_event
                 (recorded (header (webhook_id garbled_msg_2)) (world_of db0 ∅))
                 between env'))
         later env'
       = (duplicate_response,
          snd (deliveries parse_event
                 (recorded (header (webhook_id garbled_msg_2)) (world_of db0 ∅))
                 between env'))
       /\ Forall (fun r => applied (header (webhook_id garbled_msg_2)) r = false)
            (fst (deliveries parse_event
                    (recorded (header (webhook_id garbled_msg_2)) (world_of db0 ∅))
                    between env')).
Proof.
  apply (malformed_body_burns_the_id parse_event (world_of db0 ∅) garbled_msg_2 env_signed).
  - vm_compute. reflexivity.
  - apply (bool_decide_eq_false_1 (header (webhook_id garbled_msg_2) ∈ (∅ : gset string))).
    vm_compute. reflexivity.
  - vm_compute. reflexivity.
Defined.

(** The valid event that follows the malformed one under the same id is
    dropped as a duplicate. *)
Example paid_msg_2_is_dropped :
  fst (deliveries parse_event (world_of db0 ∅) [garbled_msg_2; paid_msg_2] env_signed)
  = [invalid_json_response; duplicate_response]
  /\ background
       (snd (deliveries parse_event (world_of db0 ∅) [garbled_msg_2; paid_msg_2] env_signed))
     = [].
Proof. vm_compute. split; reflexivity. Qed.

End EndpointProps.

(** ** Licence lifecycle: renewal and expiry dates *)
Module LifecycleProps.
Import Webhook.

Lemma mem_In s l : Sql.mem s l = true <-> In s l.
Proof.
  unfold Sql.mem. rewrite existsb_exists. split.
  - intros (x & Hin & Heq). apply String.eqb_eq in Heq. now subst.
  - intros Hin. exists s. split; [exact Hin | apply String.eqb_refl].
Qed.

(** The table holds exactly three products. *)
Lemma product_cases productId cfg :
  product productId = Some cfg ->
  In (productId, cfg) PRODUCTS.
Proof.
  unfold product. intros H.
  destruct (List.find (fun e => String.eqb (fst e) productId) PRODUCTS) as [[k v]|] eqn:E;
    [|discriminate].
  simpl in H. injection H as ->. apply List.find_some in E. destruct E as [Hin Hk].
  simpl in Hk. apply String.eqb_eq in Hk. now subst.
Qed.

Lemma product_plan_allowed productId cfg :
  product productId = Some cfg -> Sql.mem (plan cfg) Sql.user_plans = true.
Proof.
  intros H. apply product_cases in H. simpl in H.
  destruct H as [H|[H|[H|[]]]]; injection H as _ <-; reflexivity.
Qed.


(** The plans of the table are strings on which [Js.toUpperCase] is the
    method of the platform. *)
Lemma product_plan_fits productId cfg :
  product productId = Some cfg -> Js.upper_fits (plan cfg) = true.
Proof.
  intros H. apply product_cases in H. simpl in H.
  destruct H as [H|[H|[H|[]]]]; injection H as _ <-; reflexivity.
Qed.

Lemma product_id_truthy productId cfg :
  product productId = Some cfg -> Js.truthy (Some productId) = true.
Proof.
  intros H. apply product_cases in H. simpl in H.
  destruct H as [H|[H|[H|[]]]]; injection H as <- _; reflexivity.
Qed.

Lemma success_is_not_failure t : is_success t = true -> is_failure t = false.
Proof.
  unfold is_success, is_failure. intros H.
  apply orb_true_iff in H. destruct H as [H|H]; [apply orb_true_iff in H; destruct H as [H|H]|];
    apply String.eqb_eq in H; subst t; reflexivity.
Qed.

(** [(currentExpiry > now ? currentExpiry : now)] with
    [currentExpiry = expires_at || 0] is the larger of the two. *)
Lemma renewal_base expires now :
  (if Js.num_or expires 0 >? now then Js.num_or expires 0 else now) = Z.max expires now.
Proof.
  rewrite DeviceProps.num_or_0. destruct (Z.gtb_spec expires now); lia.
Qed.

Lemma update_users_ok db p f :
  (forall r, In r (users db) -> p r = true -> Sql.user_checks db (f r) = true) ->
  Sql.update_users db p f = Ret (Sql.with_users db (Sql.update p f (users db))).
Proof.
  intros H. unfold Sql.update_users.
  replace (forallb (fun r => implb (p r) (Sql.user_checks db (f r))) (users db)) with true;
    [reflexivity|].
  symmetry. apply forallb_forall. intros r Hin.
  destruct (p r) eqn:Hp; [simpl; apply H; assumption | reflexivity].
Qed.

Lemma update_users_cases db p f :
  Sql.update_users db p f = Ret (Sql.with_users db (Sql.update p f (users db)))
  \/ exists e, Sql.update_users db p f = Throw e.
Proof. unfold Sql.update_users. destruct (forallb _ _); eauto. Qed.

Lemma insert_user_cases db u :
  Sql.insert_user db u = Ret (Sql.with_users db (users db ++ [u]))
  \/ exists e, Sql.insert_user db u = Throw e.
Proof.
  unfold Sql.insert_user.
  destruct (negb (Sql.user_checks db u)); [eauto|].
  destruct (Sql.user_collides u (users db)); eauto.
Qed.

(** The row a fresh licence is stored as. *)
Definition new_license (uuid e key p : string) (now expires : Z) : User.t :=
  {| User.id := uuid; User.email := e; User.license_key := key; User.plan := p;
     User.status := "active"; User.created_at := now; User.expires_at := expires;
     User.payment_provider := Some "dodo_webhook" |}.

(** C2. A success-type event that resolves to an email and to a product of
    duration D (in seconds), processed at second N.  When a licence exists
    for the email, with expiry E, every row with its id is rewritten with
    [expires_at = max(E, N) + D] and status [active], and that is the row
    then found under the email; when none exists, a licence with
    [expires_at = N + D] and status [active] is appended.  The statements
    are subject to the constraints of the schema: the plan must have a
    quota row, and a new licence needs an identifier and a key that no
    stored row uses. *)
Theorem renewal_arithmetic
    (type : string) (data : Data) (env : Env) (now : Z) (uuid : string)
    (rnd : nat -> nat) (db : DB) (e productId : string) (cfg : Product) :
  is_success type = true ->
  billing_email data = Some e ->
  e <> EmptyString ->
  resolve_product_id data = Some productId ->
  product productId = Some cfg ->
  In (plan cfg) (map PlanQuota.plan (plan_quotas db)) ->
  (forall u,
     Sql.first (has_email e) (users db) = Some u ->
     users (fst (processWebhookAsync type (Some data) env now uuid rnd db))
     = Sql.update (has_user_id (User.id u))
         (renew (plan cfg) (Z.max (User.expires_at u) now + durationDays cfg * 86400))
         (users db)
     /\ Sql.first (has_email e)
          (users (fst (processWebhookAsync type (Some data) env now uuid rnd db)))
        = Some (renew (plan cfg)
                  (Z.max (User.expires_at u) now + durationDays cfg * 86400) u)
     /\ User.expires_at
          (renew (plan cfg) (Z.max (User.expires_at u) now + durationDays cfg * 86400) u)
        = Z.max (User.expires_at u) now + durationDays cfg * 86400
     /\ User.status
          (renew (plan cfg) (Z.max (User.expires_at u) now + durationDays cfg * 86400) u)
        = "active")
  /\ (Sql.first (has_email e) (users db) = None ->
      (forall r, In r (users db) ->
                 User.id r <> uuid /\ User.license_key r <> generateKey rnd (plan cfg)) ->
      users (fst (processWebhookAsync type (Some data) env now uuid rnd db))
      = users db
          ++ [new_license uuid e (generateKey rnd (plan cfg)) (plan cfg) now
                (now + durationDays cfg * 86400)]).
Proof.
  intros Hsucc Hemail Hne Hpid Hprod Hfk.
  assert (Hte : Js.truthy (Some e) = true).
  { simpl. destruct (String.eqb_spec e EmptyString); [contradiction | reflexivity]. }
  assert (Hchecks : forall r x, Sql.user_checks db (renew (plan cfg) x r) = true).
  { intros r x. unfold Sql.user_checks.
    apply andb_true_iff; split; [apply andb_true_iff; split|].
    - exact (product_plan_allowed _ _ Hprod).
    - reflexivity.
    - apply mem_In, Hfk. }
  assert (Hrun : fst (processWebhookAsync_try type (Some data) env now uuid rnd db)
                 = match Sql.first (has_email e) (users db) with
                   | Some u =>
                       catchE
                         (Sql.update_users db (has_user_id (User.id u))
                            (renew (plan cfg)
                               (Z.max (User.expires_at u) now + durationDays cfg * 86400)))
                         (fun _ => db)
                   | None =>
                       catchE
                         (Sql.insert_user db
                            (new_license uuid e (generateKey rnd (plan cfg)) (plan cfg) now
                               (now + durationDays cfg * 86400)))
                         (fun _ => db)
                   end).
  { unfold processWebhookAsync_try.
    rewrite (success_is_not_failure _ Hsucc), Hsucc, Hemail, Hpid, Hte.
    rewrite (product_id_truthy _ _ Hprod). simpl. rewrite Hprod.
    destruct (Sql.first (has_email e) (users db)) as [u|].
    - rewrite renewal_base. destruct (Sql.update_users _ _ _); reflexivity.
    - unfold new_license. destruct (Sql.insert_user _ _); reflexivity. }
  unfold processWebhookAsync. cbn [fst]. rewrite Hrun. split.
  - intros u Hu. rewrite Hu.
    rewrite update_users_ok by (intros; apply Hchecks). simpl.
    split; [reflexivity|]. split; [|split; reflexivity].
    rewrite first_update by reflexivity. rewrite Hu. simpl.
    unfold has_user_id. rewrite String.eqb_refl. reflexivity.
  - intros Hnone Hfresh. rewrite Hnone. unfold Sql.insert_user.
    replace (Sql.user_checks db _) with true.
    2:{ symmetry. unfold Sql.user_checks.
        apply andb_true_iff; split; [apply andb_true_iff; split|].
        - exact (product_plan_allowed _ _ Hprod).
        - reflexivity.
        - apply mem_In, Hfk. }
    replace (Sql.user_collides _ (users db)) with false; [reflexivity|].
    symmetry. unfold Sql.user_collides. apply not_true_is_false. intros Hex.
    apply existsb_exists in Hex. destruct Hex as (r & Hin & Hr).
    destruct (Hfresh r Hin) as [Hid Hkey]. simpl in Hr.
    pose proof (first_None _ _ r Hnone Hin) as Hmail. unfold has_email in Hmail.
    rewrite Hmail, orb_false_r in Hr.
    apply orb_true_iff in Hr. destruct Hr as [Hr|Hr]; apply String.eqb_eq in Hr; congruence.
Qed.

Import Sample.

Lemma renewal_witness :
  (forall u,
     Sql.first (has_email "alice@example.org") (users db0) = Some u ->
     users (fst (processWebhookAsync "payment.succeeded" (Some paid_data) env0 1100 "u2"
                   (fun i => i) db0))
     = Sql.update (has_user_id (User.id u))
         (renew "monthly" (Z.max (User.expires_at u) 1100 + 30 * 86400)) (users db0)
     /\ Sql.first (has_email "alice@example.org")
          (users (fst (processWebhookAsync "payment.succeeded" (Some paid_data) env0 1100 "u2"
                        (fun i => i) db0)))
        = Some (renew "monthly" (Z.max (User.expires_at u) 1100 + 30 * 86400) u)
     /\ User.expires_at (renew "monthly" (Z.max (User.expires_at u) 1100 + 30 * 86400) u)
        = Z.max (User.expires_at u) 1100 + 30 * 86400
     /\ User.status (renew "monthly" (Z.max (User.expires_at u) 1100 + 30 * 86400) u)
        = "active")
  /\ (Sql.first (has_email "alice@example.org") (users db0) = None ->
      (forall r, In r (users db0) ->
                 User.id r <> "u2" /\ User.license_key r <> generateKey (fun i => i) "monthly") ->
      users (fst (processWebhookAsync "payment.succeeded" (Some paid_data) env0 1100 "u2"
                    (fun i => i) db0))
      = users db0
          ++ [new_license "u2" "alice@example.org" (generateKey (fun i => i) "monthly")
                "monthly" 1100 (1100 + 30 * 86400)]).
Proof.
  apply (renewal_arithmetic "payment.succeeded" paid_data env0 1100 "u2" (fun i => i) db0
           "alice@example.org" "pdt_0NWZwZB3eia1vz1BCOw6C"
           {| plan := "monthly"; durationDays := 30; name := "Monthly Pro" |}).
  - reflexivity.
  - reflexivity.
  - discriminate.
  - reflexivity.
  - reflexivity.
  - left. reflexivity.
Defined.

(** The example of the specification: a licence that ran out 1000 seconds
    ago is renewed for a month counted from now. *)
Example lapsed_license_restarts_from_now :
  map (fun u => (User.email u, User.status u, User.expires_at u))
    (users (fst (processWebhookAsync "payment.succeeded" (Some paid_data) env0 1100 "u2"
                   (fun i => i) db0)))
  = [("alice@example.org", "active", 1100 + 2592000)].
Proof. vm_compute. reflexivity. Qed.

(** A first purchase creates the licence, with a key drawn from [rnd]. *)
Example first_purchase_creates_license :
  users (fst (processWebhookAsync "payment.succeeded" (Some paid_data) env0 1100 "u2"
                (fun i => (3 * i)%nat)
                {| users := []; plan_quotas := [monthly_quota 50]; device_sessions := [] |}))
  = [new_license "u2" "alice@example.org" "AKH-MONTHLY-ADGJ-MPSV-Y147" "monthly" 1100
       (1100 + 2592000)].
Proof. vm_compute. reflexivity. Qed.

End LifecycleProps.

(** ** The keys of [users] stay unique *)
Module SchemaProps.
Import Webhook LifecycleProps.

(** The primary key and the two [UNIQUE] columns of the schema. *)
Definition unique_keys (rows : list User.t) : Prop :=
  List.NoDup (map User.id rows)
  /\ List.NoDup (map User.email rows)
  /\ List.NoDup (map User.license_key rows).

Lemma unique_append {B} (col : User.t -> B) rows u :
  List.NoDup (map col rows) ->
  (forall r, In r rows -> col r <> col u) ->
  List.NoDup (map col (rows ++ [u])).
Proof.
  intros Hnd Hfresh. rewrite map_app. apply List.NoDup_app; [exact Hnd | |].
  - repeat constructor. intros [].
  - intros a Ha [<-|[]]. apply in_map_iff in Ha. destruct Ha as (r & Hr & Hin).
    exact (Hfresh r Hin Hr).
Qed.

Lemma no_collision u rows r :
  Sql.user_collides u rows = false -> In r rows ->
  User.id r <> User.id u /\ User.email r <> User.email u
  /\ User.license_key r <> User.license_key u.
Proof.
  intros Hc Hin. unfold Sql.user_collides in Hc.
  assert (Hr : (String.eqb (User.id r) (User.id u)
                || String.eqb (User.email r) (User.email u)
                || String.eqb (User.license_key r) (User.license_key u)) = false).
  { destruct (_ || _ || _) eqn:E; [|reflexivity].
    rewrite <- Hc. symmetry. apply existsb_exists. exists r. split; [exact Hin | exact E]. }
  apply orb_false_iff in Hr. destruct Hr as [Hr Hk].
  apply orb_false_iff in Hr. destruct Hr as [Hi He].
  repeat split; intros Heq; rewrite Heq, String.eqb_refl in *; discriminate.
Qed.

Lemma insert_user_unique db u db' :
  unique_keys (users db) -> Sql.insert_user db u = Ret db' -> unique_keys (users db').
Proof.
  intros (Hi & He & Hk). unfold Sql.insert_user.
  destruct (negb (Sql.user_checks db u)); [discriminate|].
  destruct (Sql.user_collides u (users db)) eqn:Hc; [discriminate|].
  intros [= <-]. simpl.
  repeat split; apply unique_append; try assumption;
    intros r Hin; apply (no_collision u (users db) r Hc Hin).
Qed.

Lemma update_unique p f rows :
  (forall r, User.id (f r) = User.id r) ->
  (forall r, User.email (f r) = User.email r) ->
  (forall r, User.license_key (f r) = User.license_key r) ->
  unique_keys rows -> unique_keys (Sql.update p f rows).
Proof.
  intros Hi He Hk (Ui & Ue & Uk). unfold unique_keys.
  now rewrite !update_column by assumption.
Qed.

Lemma webhook_keeps_keys_unique db type data env now uuid rnd :
  unique_keys (users db) ->
  unique_keys (users (fst (processWebhookAsync type data env now uuid rnd db))).
Proof.
  intros Hu. unfold processWebhookAsync, processWebhookAsync_try.
  destruct data as [data|]; [simpl | exact Hu].
  destruct (is_failure type).
  { destruct (Js.truthy (billing_email data)); [|exact Hu].
    destruct (update_users_cases db (has_email (default EmptyString (billing_email data)))
                expire) as [->|[e ->]]; simpl; [|exact Hu].
    now apply update_unique. }
  destruct (is_success type); [|exact Hu].
  destruct (negb (Js.truthy (billing_email data))
            || negb (Js.truthy (resolve_product_id data))); [exact Hu|].
  destruct (product (default EmptyString (resolve_product_id data))) as [cfg|];
    [|exact Hu].
  destruct (Sql.first (has_email (default EmptyString (billing_email data))) (users db))
    as [existing|].
  - match goal with
    | |- context [Sql.update_users db ?p ?f] =>
        destruct (update_users_cases db p f) as [->|[e ->]]
    end; simpl; [|exact Hu].
    now apply update_unique.
  - match goal with
    | |- context [Sql.insert_user db ?u] =>
        destruct (Sql.insert_user db u) as [db'|e] eqn:E
    end; simpl; [|exact Hu].
    eapply insert_user_unique; eauto.
Qed.

Lemma upsert_user_unique db u db' :
  unique_keys (users db) -> Sql.upsert_user db u = Ret db' -> unique_keys (users db').
Proof.
  intros Hu. unfold Sql.upsert_user.
  destruct (existsb _ (users db)); [|now apply insert_user_unique].
  match goal with
  | |- context [Sql.update_users db ?p ?f] =>
      destruct (update_users_cases db p f) as [->|[e ->]]
  end; [|discriminate].
  intros [= <-]. now apply update_unique.
Qed.

Lemma validate_keeps_keys_unique db env now iat uuid req_json dodo later :
  unique_keys (users later) ->
  unique_keys (users (snd (Worker.validate db env now iat uuid req_json dodo later))).
Proof.
  intros Hu. unfold Worker.validate.
  destruct req_json as [lk|e]; [|exact Hu].
  destruct (negb (Js.truthy lk)); [exact Hu|].
  destruct (Sql.first (Worker.is_license (default EmptyString lk)) (users db))
    as [local|] eqn:Hlocal.
  - destruct (negb (String.eqb (User.status local) "active")); [exact Hu|].
    destruct (User.expires_at local <? now); exact Hu.
  - destruct dodo as [e| |[licData|e]]; try exact Hu.
    match goal with
    | |- context [Sql.upsert_user later ?u] =>
        destruct (Sql.upsert_user later u) as [db'|e] eqn:E
    end; simpl; [|exact Hu].
    eapply upsert_user_unique; eauto.
Qed.

End SchemaProps.

(** ** What a validation looks up and what it writes *)
Module ValidationFacts.

(** The key a validation request asks for. *)
Definition requested (req_json : Exc (option string)) : string :=
  match req_json with
  | Ret lk => default EmptyString lk
  | Throw _ => EmptyString
  end.

(** A validation writes only when its lookup found no licence. *)
Lemma validate_writes_when_unknown db env now iat uuid req_json dodo later :
  snd (Worker.validate db env now iat uuid req_json dodo later) = later
  \/ Sql.first (Worker.is_license (requested req_json)) (users db) = None.
Proof.
  unfold Worker.validate, requested.
  destruct req_json as [lk|e]; [|now left].
  destruct (negb (Js.truthy lk)); [now left|].
  destruct (Sql.first (Worker.is_license (default EmptyString lk)) (users db))
    as [local|]; [|now right].
  left. destruct (negb (String.eqb (User.status local) "active")); [reflexivity|].
  destruct (User.expires_at local <? now); reflexivity.
Qed.


Lemma existsb_first {A} (p : A -> bool) rows :
  if existsb p rows then exists r, Sql.first p rows = Some r
  else Sql.first p rows = None.
Proof.
  unfold Sql.first. induction rows as [|a rows IH]; simpl; [reflexivity|].
  destruct (p a); simpl; [eauto | exact IH].
Qed.

(** What the update arm of the upsert makes of a stored row. *)
Definition refreshed (u r : User.t) : User.t :=
  {| User.id := User.id r; User.email := User.email r;
     User.license_key := User.license_key r;
     User.plan := User.plan u; User.status := User.status r;
     User.created_at := User.created_at r;
     User.expires_at := User.expires_at u;
     User.payment_provider := User.payment_provider r |}.

(** The two ways an upsert succeeds. *)
Lemma upsert_cases db u db' :
  Sql.upsert_user db u = Ret db' ->
  (Sql.first (Worker.is_license (User.license_key u)) (users db) <> None
   /\ db' = Sql.with_users db
              (Sql.update (Worker.is_license (User.license_key u)) (refreshed u) (users db)))
  \/ (Sql.first (Worker.is_license (User.license_key u)) (users db) = None
      /\ db' = Sql.with_users db (users db ++ [u])).
Proof.
  unfold Sql.upsert_user.
  pose proof (existsb_first (Worker.is_license (User.license_key u)) (users db)) as Hex.
  unfold Worker.is_license in Hex at 1.
  destruct (existsb _ (users db)).
  - destruct Hex as [r Hr]. intros H. left. split; [congruence|].
    unfold Sql.update_users in H. destruct (forallb _ _); [|discriminate].
    now injection H as <-.
  - intros H. right. split; [exact Hex|].
    unfold Sql.insert_user in H.
    destruct (negb (Sql.user_checks db u)); [discriminate|].
    destruct (Sql.user_collides u (users db)); [discriminate|].
    now injection H as <-.
Qed.

(** A validation leaves the table it finds, or the table its upsert makes
    of it for a row with the requested key. *)
Lemma validate_cases db env now iat uuid req_json dodo later :
  snd (Worker.validate db env now iat uuid req_json dodo later) = later
  \/ exists u,
       User.license_key u = requested req_json
       /\ Sql.upsert_user later u
          = Ret (snd (Worker.validate db env now iat uuid req_json dodo later)).
Proof.
  unfold Worker.validate, requested.
  destruct req_json as [lk|e]; [|now left].
  destruct (negb (Js.truthy lk)); [now left|].
  destruct (Sql.first (Worker.is_license (default EmptyString lk)) (users db)) as [local|].
  - left. destruct (negb (String.eqb (User.status local) "active")); [reflexivity|].
    destruct (User.expires_at local <? now); reflexivity.
  - destruct dodo as [e| |[licData|e]]; try (now left). cbv zeta.
    match goal with
    | |- context [Sql.upsert_user later ?u] =>
        destruct (Sql.upsert_user later u) as [db'|e] eqn:E; [right; exists u | now left]
    end.
    split; [reflexivity | exact E].
Qed.

End ValidationFacts.

(** ** Expiry dates only move forward *)
Module ExpiryProps.
Import Webhook LifecycleProps ValidationFacts.
















Import Sample.






End ExpiryProps.

(** ** The credential *)
Module CredentialProps.

(** [s.includes(c)] for a character. *)
Fixpoint includes (c : ascii) (s : string) : bool :=
  match s with
  | EmptyString => false
  | String x s' => Ascii.eqb x c || includes c s'
  end.

(** A segment is URL-safe without padding when it holds none of [+], [/]
    and [=]. *)
Definition url_safe (s : string) : Prop :=
  includes "+"%char s = false /\ includes "/"%char s = false /\ includes "="%char s = false.

(** A character of standard base64 text: of the alphabet, or the padding. *)
Definition is_b64 (c : ascii) : bool :=
  match Base64.dec c with
  | Some _ => true
  | None => Ascii.eqb c Base64.pad_char
  end.

Lemma includes_append c a b : includes c (a +:+ b) = includes c a || includes c b.
Proof.
  induction a as [|x a IH]; simpl; [reflexivity|]. now rewrite IH, orb_assoc.
Qed.

Lemma includes_replace_same c r s :
  includes c r = false -> includes c (Js.replace_all_char c r s) = false.
Proof.
  intros Hr. induction s as [|x s IH]; simpl; [reflexivity|].
  rewrite includes_append, IH, orb_false_r.
  destruct (Ascii.eqb x c) eqn:E; [exact Hr|]. simpl. now rewrite E.
Qed.

Lemma includes_replace_other x c r s :
  includes x s = false -> includes x r = false ->
  includes x (Js.replace_all_char c r s) = false.
Proof.
  intros Hs Hr. induction s as [|y s IH]; simpl in *; [reflexivity|].
  apply orb_false_iff in Hs. destruct Hs as [Hy Hs].
  rewrite includes_append, (IH Hs), orb_false_r.
  destruct (Ascii.eqb y c); [exact Hr|]. simpl. now rewrite Hy.
Qed.

Lemma replace_absent c r s : includes c s = false -> Js.replace_all_char c r s = s.
Proof.
  induction s as [|x s IH]; simpl; intros H; [reflexivity|].
  apply orb_false_iff in H. destruct H as [Hx Hs]. now rewrite Hx, (IH Hs).
Qed.

Lemma split_single sep s : includes sep s = false -> Js.split sep s = [s].
Proof.
  induction s as [|x s IH]; simpl; intros H; [reflexivity|].
  apply orb_false_iff in H. destruct H as [Hx Hs]. now rewrite Hx, (IH Hs).
Qed.

Lemma split_append sep a b :
  includes sep a = false ->
  Js.split sep (a +:+ String sep b) = a :: Js.split sep b.
Proof.
  induction a as [|x a IH]; simpl; intros H.
  - now rewrite Ascii.eqb_refl.
  - apply orb_false_iff in H. destruct H as [Hx Ha]. now rewrite Hx, (IH Ha).
Qed.

(** *** The texts [btoa] produces *)

Lemma enc_b64 n : is_b64 (Base64.enc n) = true.
Proof.
  unfold Base64.enc. generalize (Z.to_nat n). intros k.
  do 64 (destruct k as [|k]; [reflexivity|]). reflexivity.
Qed.

Lemma includes_encode c l : includes c (Base64.encode l) = true -> is_b64 c = true.
Proof.
  assert (Hpad : is_b64 Base64.pad_char = true) by reflexivity.
  assert (Hc : forall x, is_b64 x = true -> Ascii.eqb x c = true -> is_b64 c = true).
  { intros x Hx E. apply Ascii.eqb_eq in E. now subst. }
  revert l. fix IH 1. intros [|a [|b [|d r]]]; simpl.
  - discriminate.
  - rewrite !orb_false_r. intros H.
    repeat (apply orb_true_iff in H; destruct H as [H|H]);
      eauto using enc_b64.
  - rewrite !orb_false_r. intros H.
    repeat (apply orb_true_iff in H; destruct H as [H|H]);
      eauto using enc_b64.
  - intros H.
    repeat (apply orb_true_iff in H; destruct H as [H|H]);
      eauto using enc_b64.
Qed.

Lemma btoa_no_dot s : includes "."%char (Base64.btoa s) = false.
Proof.
  destruct (includes "."%char (Base64.btoa s)) eqn:E; [|reflexivity].
  apply includes_encode in E. discriminate.
Qed.

(** *** The URL-safe form *)

Lemma to_url_safe s : url_safe (Utils.to_url s).
Proof.
  unfold url_safe, Utils.to_url. repeat split.
  - apply includes_replace_other; [|reflexivity].
    apply includes_replace_other; [|reflexivity].
    now apply includes_replace_same.
  - apply includes_replace_other; [|reflexivity].
    now apply includes_replace_same.
  - now apply includes_replace_same.
Qed.

Lemma to_url_no_dot s : includes "."%char s = false -> includes "."%char (Utils.to_url s) = false.
Proof.
  intros H. unfold Utils.to_url.
  repeat (apply includes_replace_other; [|reflexivity]). exact H.
Qed.

(** *** What [atob] accepts *)

Lemma includes_In c s : includes c s = true -> In c (list_ascii_of_string s).
Proof.
  induction s as [|x s IH]; simpl; [discriminate|].
  intros H. apply orb_true_iff in H. destruct H as [H|H].
  - left. now apply Ascii.eqb_eq.
  - right. now apply IH.
Qed.

Lemma sextets_dec l ns c : Base64.sextets l = Some ns -> In c l -> Base64.dec c <> None.
Proof.
  revert ns. induction l as [|x l IH]; intros ns H Hin; [destruct Hin|].
  simpl in H. destruct (Base64.dec x) eqn:Hx; [|discriminate].
  destruct (Base64.sextets l) eqn:Hl; [|discriminate].
  destruct Hin as [->|Hin]; [congruence | eapply IH; eauto].
Qed.

Lemma strip_padding_keeps c l :
  In c l -> c <> Base64.pad_char -> In c (Base64.strip_padding l).
Proof.
  intros Hin Hc. unfold Base64.strip_padding.
  destruct (length l mod 4 =? 0)%nat; [|exact Hin].
  destruct (rev l) as [|p [|q r]] eqn:E; try exact Hin.
  assert (Hrev : In c (p :: q :: r)) by (rewrite <- E; now apply in_rev in Hin).
  destruct (Ascii.eqb_spec p Base64.pad_char) as [Hp|Hp]; [|exact Hin].
  destruct Hrev as [<-|Hrev]; [contradiction|].
  destruct (Ascii.eqb_spec q Base64.pad_char) as [Hq|Hq].
  - destruct Hrev as [<-|Hrev]; [contradiction|]. now apply in_rev in Hrev.
  - apply in_rev. rewrite rev_involutive. exact Hrev.
Qed.

(** A text that [atob] decodes holds nothing but base64 characters and
    blanks. *)
Lemma atob_alphabet b text c :
  Base64.atob b = Some text ->
  Base64.dec c = None -> Base64.is_space c = false -> c <> Base64.pad_char ->
  includes c b = false.
Proof.
  intros Hatob Hdec Hsp Hpad. destruct (includes c b) eqn:E; [|reflexivity].
  exfalso. apply includes_In in E. unfold Base64.atob in Hatob.
  destruct (Base64.sextets _) as [ns|] eqn:Hs; [|discriminate].
  refine (sextets_dec _ _ c Hs _ Hdec).
  apply strip_padding_keeps; [|exact Hpad].
  apply filter_In. split; [exact E | now rewrite Hsp].
Qed.

Lemma atob_from_url b text : Base64.atob b = Some text -> Utils.from_url b = b.
Proof.
  intros H. unfold Utils.from_url.
  rewrite (replace_absent "-"%char) by (eapply atob_alphabet; eauto; discriminate).
  apply replace_absent. eapply atob_alphabet; eauto; discriminate.
Qed.

(** *** The minted credential *)

Lemma header_segment : Base64.btoa Json.stringify_header = Auth.fixed_header.
Proof. reflexivity. Qed.

Lemma append_cons_assoc a b c :
  (a +:+ String "."%char b) +:+ String "."%char c
  = a +:+ String "."%char (b +:+ String "."%char c).
Proof.
  induction a as [|x a IH]; [reflexivity|].
  change (String x ((a +:+ String "."%char b) +:+ String "."%char c)
          = String x (a +:+ String "."%char (b +:+ String "."%char c))).
  now rewrite IH.
Qed.

(** The signature segment of the credential of [payload] under [secret]. *)
Definition signature_segment (payload : JWTPayload.t) (secret : string) : string :=
  Utils.to_url
    (Base64.btoa
       (Js.fromCharCodes
          (Crypto.hmac_sha256 (Js.TextEncoder_encode secret)
             (Js.TextEncoder_encode
                (Auth.fixed_header +:+ "."
                   +:+ Base64.btoa (Json.stringify_payload payload)))))).

Lemma generateJWT_Ret payload secret token :
  Utils.generateJWT payload secret = Ret token ->
  token = (Auth.fixed_header +:+ "." +:+ Base64.btoa (Json.stringify_payload payload))
            +:+ "." +:+ signature_segment payload secret.
Proof.
  unfold Utils.generateJWT, signature_segment. rewrite header_segment.
  unfold Crypto.importKey. destruct (Js.TextEncoder_encode secret); simpl; [discriminate|].
  now intros [= <-].
Qed.

Lemma encode_nonempty secret : secret <> EmptyString -> Js.TextEncoder_encode secret <> [].
Proof.
  destruct secret as [|c s]; [congruence|]. intros _.
  unfold Js.TextEncoder_encode, Js.charCodes. simpl. unfold Js.utf8_unit.
  destruct (Js.code c <? 128); discriminate.
Qed.

Lemma generateJWT_total payload secret :
  secret <> EmptyString -> exists token, Utils.generateJWT payload secret = Ret token.
Proof.
  intros H. apply encode_nonempty in H. unfold Utils.generateJWT, Crypto.importKey.
  destruct (Js.TextEncoder_encode secret); [contradiction|]. simpl. eauto.
Qed.

(** What the credential is made of: three segments between two dots, the
    fixed header, the payload as [btoa] leaves it (standard base64, with
    [+], [/] and padding where they fall), and the signature over
    [header.payload] in URL-safe form without padding. *)
Theorem minted_credential_segments (payload : JWTPayload.t) (secret token : string) :
  Utils.generateJWT payload secret = Ret token ->
  Js.split "."%char token
  = [Auth.fixed_header; Base64.btoa (Json.stringify_payload payload);
     signature_segment payload secret]
  /\ url_safe Auth.fixed_header
  /\ url_safe (signature_segment payload secret)
  /\ (forall c, includes c (Base64.btoa (Json.stringify_payload payload)) = true ->
                is_b64 c = true).
Proof.
  intros H. apply generateJWT_Ret in H. subst token. split; [|split; [|split]].
  - change (Js.split "."%char
              ((Auth.fixed_header
                  +:+ String "."%char (Base64.btoa (Json.stringify_payload payload)))
                 +:+ String "."%char (signature_segment payload secret))
            = [Auth.fixed_header; Base64.btoa (Json.stringify_payload payload);
               signature_segment payload secret]).
    rewrite append_cons_assoc, split_append by reflexivity.
    rewrite split_append by apply btoa_no_dot.
    rewrite split_single; [reflexivity|].
    apply to_url_no_dot, btoa_no_dot.
  - repeat split.
  - apply to_url_safe.
  - intros c. apply includes_encode.
Qed.

(** C9. The credential minted for the sample payload has three segments,
    a fixed header, the payload and the signature over [header.payload],
    but its payload segment is plain [btoa] output and ends in [==]: it is
    not base64url without padding, unlike the signature segment. *)
Lemma minted_payload_segment_is_padded :
  Utils.generateJWT Sample.payload0 "s3cret" = Ret Sample.token0
  /\ Js.split "."%char Sample.token0
     = [ "eyJhbGciOiJIUzI1NiIsInR5cCI6IkpXVCJ9";
         "eyJzdWIiOiJLRVktMSIsInBsYW4iOiJtb250aGx5IiwiaWF0IjoxMDAwMDAsImV4cCI6MTAwfQ==";
         "0sHQtVZMkCMTtmIOh0lJjFeS410A9YvHUgNoUgwzX2E" ]
  /\ includes "="%char
       "eyJzdWIiOiJLRVktMSIsInBsYW4iOiJtb250aGx5IiwiaWF0IjoxMDAwMDAsImV4cCI6MTAwfQ=="
     = true.
Proof. vm_compute. repeat split. Qed.

Lemma minted_credential_witness :
  Js.split "."%char Sample.token0
  = [Auth.fixed_header; Base64.btoa (Json.stringify_payload Sample.payload0);
     signature_segment Sample.payload0 "s3cret"]
  /\ url_safe Auth.fixed_header
  /\ url_safe (signature_segment Sample.payload0 "s3cret")
  /\ (forall c, includes c (Base64.btoa (Json.stringify_payload Sample.payload0)) = true ->
                is_b64 c = true).
Proof.
  apply (minted_credential_segments Sample.payload0 "s3cret" Sample.token0).
  vm_compute. reflexivity.
Defined.

(** *** The two verification paths *)
Section Verify.

Variable JSON_parse : string -> option JWTPayload.t.

Lemma importKey_secret secret :
  secret <> EmptyString ->
  Crypto.importKey (Js.TextEncoder_encode secret) = Ret (Js.TextEncoder_encode secret).
Proof.
  intros H. apply encode_nonempty in H. unfold Crypto.importKey.
  destruct (Js.TextEncoder_encode secret); [contradiction | reflexivity].
Qed.

Lemma hmac_verify_true key sig msg :
  sig = Crypto.hmac_sha256 key msg -> Crypto.hmac_verify key sig msg = true.
Proof. intros ->. unfold Crypto.hmac_verify, Crypto.eqb_bytes. now apply bool_decide_eq_true_2. Qed.

(** [verifyJWT] of [utils.ts] looks at the signature and at nothing else. *)
Lemma utils_verifyJWT_signed token secret h b s rest raw text payload :
  Js.split "."%char token = h :: b :: s :: rest ->
  secret <> EmptyString ->
  Base64.atob (Utils.from_url s) = Some raw ->
  Js.charCodes raw
  = Crypto.hmac_sha256 (Js.TextEncoder_encode secret) (Js.TextEncoder_encode (h +:+ "." +:+ b)) ->
  Base64.atob b = Some text ->
  JSON_parse text = Some payload ->
  Utils.verifyJWT JSON_parse token secret = Some payload.
Proof.
  intros Hsplit Hsecret Hs Hsig Hb Hparse.
  unfold Utils.verifyJWT, Utils.verifyJWT_try.
  rewrite Hsplit, (importKey_secret _ Hsecret). simpl.
  rewrite Hs, (hmac_verify_true _ _ _ Hsig). simpl.
  now rewrite Hb, Hparse.
Qed.

(** [verifyJWT] of [auth.ts] hands back no payload whose [exp] has
    passed. *)
Lemma auth_verifyJWT_fresh now token secret payload :
  Auth.verifyJWT JSON_parse now token secret = Some payload ->
  now < JWTPayload.exp payload.
Proof.
  unfold Auth.verifyJWT, Auth.verifyJWT_try, Auth.jwtVerify.
  destruct (Js.split "."%char token) as [|h [|b [|s [|x rest]]]]; simpl;
    try discriminate;
    destruct (negb (String.eqb h Auth.fixed_header)); simpl; try discriminate.
  destruct (Crypto.importKey (Js.TextEncoder_encode secret)) as [k|e]; simpl;
    [|discriminate].
  destruct (Base64.atob (Utils.from_url s)) as [raw|]; [|discriminate].
  destruct (Base64.atob (Utils.from_url b)) as [text|]; [|discriminate].
  destruct (Crypto.hmac_verify _ _ _); [|discriminate].
  destruct (JSON_parse text) as [p|]; [|discriminate].
  destruct (Z.leb_spec (JWTPayload.exp p) now); simpl; [discriminate|].
  intros [= <-]. assumption.
Qed.

Lemma auth_verifyJWT_payload now token secret h b s rest text payload payload' :
  Js.split "."%char token = h :: b :: s :: rest ->
  Base64.atob b = Some text ->
  JSON_parse text = Some payload ->
  Auth.verifyJWT JSON_parse now token secret = Some payload' ->
  payload' = payload.
Proof.
  intros Hsplit Hb Hparse.
  unfold Auth.verifyJWT, Auth.verifyJWT_try, Auth.jwtVerify. rewrite Hsplit.
  destruct (negb (String.eqb h Auth.fixed_header)); simpl; [discriminate|].
  destruct rest; simpl; [|discriminate].
  destruct (Crypto.importKey (Js.TextEncoder_encode secret)) as [k|e]; simpl;
    [|discriminate].
  destruct (Base64.atob (Utils.from_url s)) as [raw|]; [|discriminate].
  rewrite (atob_from_url _ _ Hb), Hb.
  destruct (Crypto.hmac_verify _ _ _); [|discriminate].
  rewrite Hparse.
  destruct (JWTPayload.exp payload <=? now); simpl; [discriminate|].
  now intros [= <-].
Qed.

(** C8. A token that carries a valid HMAC-SHA256 signature over
    [header.payload] under the secret, and whose payload decodes, is
    accepted by [verifyJWT] of [utils.ts] with that payload although its
    [exp] lies before the current time; [verifyJWT] of [auth.ts] answers
    [null] for the same token at that time. *)
Theorem expired_token_is_accepted_by_utils_only
    (now : Z) (token secret h b s : string) (rest : list string)
    (raw text : string) (payload : JWTPayload.t) :
  Js.split "."%char token = h :: b :: s :: rest ->
  secret <> EmptyString ->
  Base64.atob (Utils.from_url s) = Some raw ->
  Js.charCodes raw
  = Crypto.hmac_sha256 (Js.TextEncoder_encode secret) (Js.TextEncoder_encode (h +:+ "." +:+ b)) ->
  Base64.atob b = Some text ->
  JSON_parse text = Some payload ->
  JWTPayload.exp payload < now ->
  Utils.verifyJWT JSON_parse token secret = Some payload
  /\ Auth.verifyJWT JSON_parse now token secret = None.
Proof.
  intros Hsplit Hsecret Hs Hsig Hb Hparse Hexp. split.
  - eapply utils_verifyJWT_signed; eauto.
  - destruct (Auth.verifyJWT JSON_parse now token secret) as [p|] eqn:E; [|reflexivity].
    pose proof (auth_verifyJWT_fresh _ _ _ _ E) as Hfresh.
    rewrite (auth_verifyJWT_payload _ _ _ _ _ _ _ _ _ _ Hsplit Hb Hparse E) in Hfresh. lia.
Qed.

End Verify.

Lemma expired_token_witness :
  Utils.verifyJWT Sample.parse_payload0 Sample.token0 "s3cret" = Some Sample.payload0
  /\ Auth.verifyJWT Sample.parse_payload0 101 Sample.token0 "s3cret" = None.
Proof.
  apply (expired_token_is_accepted_by_utils_only Sample.parse_payload0 101 Sample.token0
           "s3cret"
           "eyJhbGciOiJIUzI1NiIsInR5cCI6IkpXVCJ9"
           "eyJzdWIiOiJLRVktMSIsInBsYW4iOiJtb250aGx5IiwiaWF0IjoxMDAwMDAsImV4cCI6MTAwfQ=="
           "0sHQtVZMkCMTtmIOh0lJjFeS410A9YvHUgNoUgwzX2E" []
           (default EmptyString
              (Base64.atob (Utils.from_url "0sHQtVZMkCMTtmIOh0lJjFeS410A9YvHUgNoUgwzX2E")))
           (Json.stringify_payload Sample.payload0) Sample.payload0).
  - vm_compute. reflexivity.
  - discriminate.
  - vm_compute. reflexivity.
  - vm_compute. reflexivity.
  - vm_compute. reflexivity.
  - vm_compute. reflexivity.
  - simpl. lia.
Defined.

(** Before its expiry the same token passes both paths. *)
Example fresh_token_passes_both :
  Utils.verifyJWT Sample.parse_payload0 Sample.token0 "s3cret" = Some Sample.payload0
  /\ Auth.verifyJWT Sample.parse_payload0 99 Sample.token0 "s3cret" = Some Sample.payload0.
Proof. vm_compute. split; reflexivity. Qed.

End CredentialProps.

(** ** Minting and verifying fit together *)
Module RoundTripProps.
Import CredentialProps.

Definition byte (x : Z) : Prop := 0 <= x < 256.
Definition sextet (x : Z) : Prop := 0 <= x < 64.

(** The sextets of a byte string, without padding. *)
Fixpoint sextets_of (l : list Z) : list Z :=
  match l with
  | a :: b :: c :: r =>
      a / 4 :: a mod 4 * 16 + b / 16 :: b mod 16 * 4 + c / 64 :: c mod 64 :: sextets_of r
  | [a; b] => [a / 4; a mod 4 * 16 + b / 16; b mod 16 * 4]
  | [a] => [a / 4; a mod 4 * 16]
  | [] => []
  end.

(** The padding that completes the last group. *)
Fixpoint padding_of (l : list Z) : list ascii :=
  match l with
  | _ :: _ :: _ :: r => padding_of r
  | [_; _] => [Base64.pad_char]
  | [_] => [Base64.pad_char; Base64.pad_char]
  | [] => []
  end.

(** Induction three bytes at a time. *)
Lemma list_ind3 (P : list Z -> Prop) :
  P [] -> (forall a, P [a]) -> (forall a b, P [a; b]) ->
  (forall a b c r, P r -> P (a :: b :: c :: r)) ->
  forall l, P l.
Proof.
  intros H0 H1 H2 H3. fix IH 1.
  intros [|a [|b [|c r]]]; [exact H0 | apply H1 | apply H2 | apply H3, IH].
Qed.

Lemma encode_chars l :
  list_ascii_of_string (Base64.encode l) = map Base64.enc (sextets_of l) ++ padding_of l.
Proof.
  induction l as [|a|a b|a b c r IH] using list_ind3; try reflexivity.
  simpl. now rewrite IH.
Qed.

Lemma sextets_of_range l : Forall byte l -> Forall sextet (sextets_of l).
Proof.
  unfold byte, sextet.
  induction l as [|a|a b|a b c r IH] using list_ind3; intros H; simpl.
  - constructor.
  - inversion H; subst. repeat constructor; Z.div_mod_to_equations; lia.
  - inversion H as [|? ? Ha H']; subst. inversion H'; subst.
    repeat constructor; Z.div_mod_to_equations; lia.
  - inversion H as [|? ? Ha H']; subst. inversion H' as [|? ? Hb H'']; subst.
    inversion H'' as [|? ? Hc Hr]; subst.
    repeat (constructor; [Z.div_mod_to_equations; lia|]). now apply IH.
Qed.

Lemma decode_sextets_of l : Forall byte l -> Base64.decode (sextets_of l) = Some l.
Proof.
  unfold byte.
  induction l as [|a|a b|a b c r IH] using list_ind3; intros H; simpl.
  - reflexivity.
  - inversion H; subst. do 2 f_equal. Z.div_mod_to_equations; lia.
  - inversion H as [|? ? Ha H']; subst. inversion H'; subst.
    do 2 f_equal; [|f_equal]; Z.div_mod_to_equations; lia.
  - inversion H as [|? ? Ha H']; subst. inversion H' as [|? ? Hb H'']; subst.
    inversion H'' as [|? ? Hc Hr]; subst. rewrite (IH Hr).
    do 2 f_equal; [|f_equal; [|f_equal]]; Z.div_mod_to_equations; lia.
Qed.

Lemma sextet_nat n : sextet n -> exists k, n = Z.of_nat k /\ (k < 64)%nat.
Proof. unfold sextet. intros H. exists (Z.to_nat n). lia. Qed.

Lemma dec_enc n : sextet n -> Base64.dec (Base64.enc n) = Some n.
Proof.
  intros H. destruct (sextet_nat n H) as (k & -> & Hk).
  unfold Base64.enc. rewrite Nat2Z.id.
  do 64 (destruct k as [|k]; [reflexivity|]). lia.
Qed.

Lemma enc_not_space n : sextet n -> Base64.is_space (Base64.enc n) = false.
Proof.
  intros H. destruct (sextet_nat n H) as (k & -> & Hk).
  unfold Base64.enc. rewrite Nat2Z.id.
  do 64 (destruct k as [|k]; [reflexivity|]). lia.
Qed.

Lemma enc_not_pad n : sextet n -> Base64.enc n <> Base64.pad_char.
Proof. intros H E. pose proof (dec_enc n H) as D. rewrite E in D. discriminate. Qed.

Lemma sextets_enc ns : Forall sextet ns -> Base64.sextets (map Base64.enc ns) = Some ns.
Proof.
  induction 1 as [|n ns Hn _ IH]; simpl; [reflexivity|]. now rewrite (dec_enc n Hn), IH.
Qed.

Definition plain (c : ascii) : Prop := c <> Base64.pad_char.

Lemma enc_plain ns : Forall sextet ns -> Forall plain (map Base64.enc ns).
Proof. induction 1; simpl; constructor; [now apply enc_not_pad | assumption]. Qed.

Lemma keep_non_space ns pads :
  Forall sextet ns -> Forall (fun c => c = Base64.pad_char) pads ->
  List.filter (fun c => negb (Base64.is_space c)) (map Base64.enc ns ++ pads)
  = map Base64.enc ns ++ pads.
Proof.
  intros Hns Hp. rewrite List.filter_app. f_equal.
  - induction Hns as [|n ns Hn _ IH]; simpl; [reflexivity|].
    now rewrite (enc_not_space n Hn), IH.
  - induction Hp as [|c pads -> _ IH]; simpl; [reflexivity|]. now rewrite IH.
Qed.

(** *** Removing the padding *)

Lemma strip_plain cs : Forall plain cs -> Base64.strip_padding cs = cs.
Proof.
  intros H. unfold Base64.strip_padding.
  destruct (length cs mod 4 =? 0)%nat; [|reflexivity].
  destruct (rev cs) as [|p [|q r]] eqn:E; try reflexivity.
  assert (Hp : plain p).
  { apply List.Forall_rev in H. rewrite E in H. now inversion H. }
  destruct (Ascii.eqb_spec p Base64.pad_char); [contradiction | reflexivity].
Qed.

Lemma strip_one cs :
  Forall plain cs -> cs <> [] -> (length (cs ++ [Base64.pad_char]) mod 4 = 0)%nat ->
  Base64.strip_padding (cs ++ [Base64.pad_char]) = cs.
Proof.
  intros H Hne Hlen. unfold Base64.strip_padding.
  rewrite (proj2 (Nat.eqb_eq _ _) Hlen), rev_app_distr. simpl.
  destruct (rev cs) as [|q r] eqn:E.
  - exfalso. apply Hne. rewrite <- (rev_involutive cs), E. reflexivity.
  - assert (Hq : plain q).
    { apply List.Forall_rev in H. rewrite E in H. now inversion H. }
    destruct (Ascii.eqb_spec q Base64.pad_char); [contradiction|].
    transitivity (rev (rev cs)); [now rewrite E | apply rev_involutive].
Qed.

Lemma strip_two cs :
  (length (cs ++ [Base64.pad_char; Base64.pad_char]) mod 4 = 0)%nat ->
  Base64.strip_padding (cs ++ [Base64.pad_char; Base64.pad_char]) = cs.
Proof.
  intros Hlen. unfold Base64.strip_padding.
  rewrite (proj2 (Nat.eqb_eq _ _) Hlen), rev_app_distr. simpl.
  apply rev_involutive.
Qed.

Lemma encoded_length l :
  exists k, (length (map Base64.enc (sextets_of l) ++ padding_of l) = 4 * k)%nat.
Proof.
  induction l as [|a|a b|a b c r [k IH]] using list_ind3.
  - now exists 0%nat.
  - now exists 1%nat.
  - now exists 1%nat.
  - exists (S k). simpl in *. rewrite IH. lia.
Qed.

Lemma padding_shape l :
  padding_of l = []
  \/ (padding_of l = [Base64.pad_char] /\ sextets_of l <> [])
  \/ padding_of l = [Base64.pad_char; Base64.pad_char].
Proof.
  induction l as [|a|a b|a b c r IH] using list_ind3; simpl.
  - now left.
  - now right; right.
  - right; left. split; [reflexivity | discriminate].
  - destruct IH as [H|[[H _]|H]]; [now left | | now right; right].
    right; left. split; [exact H | discriminate].
Qed.

Lemma strip_encoded l :
  Forall byte l ->
  Base64.strip_padding (map Base64.enc (sextets_of l) ++ padding_of l)
  = map Base64.enc (sextets_of l).
Proof.
  intros Hl. pose proof (enc_plain _ (sextets_of_range l Hl)) as Hplain.
  destruct (encoded_length l) as [k Hk].
  assert (Hmod : (length (map Base64.enc (sextets_of l) ++ padding_of l) mod 4 = 0)%nat).
  { rewrite Hk, Nat.mul_comm. apply Nat.Div0.mod_mul. }
  destruct (padding_shape l) as [H|[[H Hne]|H]]; rewrite H in *.
  - rewrite app_nil_r. now apply strip_plain.
  - apply strip_one; [exact Hplain | | exact Hmod].
    intros E. apply Hne. now apply map_eq_nil in E.
  - now apply strip_two.
Qed.

Lemma code_byte c : byte (Js.code c).
Proof.
  unfold byte, Js.code. pose proof (N_ascii_bounded c). lia.
Qed.

Lemma chr_code c : Js.chr (Js.code c) = c.
Proof.
  unfold Js.chr. rewrite Z.mod_small by apply code_byte.
  unfold Js.code. rewrite N2Z.id. apply ascii_N_embedding.
Qed.

Lemma code_chr z : byte z -> Js.code (Js.chr z) = z.
Proof.
  unfold byte. intros H. unfold Js.chr, Js.code. rewrite Z.mod_small by exact H.
  rewrite N_ascii_embedding by lia. lia.
Qed.

Lemma charCodes_bytes s : Forall byte (Js.charCodes s).
Proof.
  unfold Js.charCodes. induction (list_ascii_of_string s); simpl; constructor;
    [apply code_byte | assumption].
Qed.

Lemma fromCharCodes_charCodes s : Js.fromCharCodes (Js.charCodes s) = s.
Proof.
  unfold Js.fromCharCodes, Js.charCodes. rewrite map_map.
  rewrite (map_ext _ (fun c => c) chr_code), map_id.
  apply string_of_list_ascii_of_string.
Qed.

Lemma charCodes_fromCharCodes l : Forall byte l -> Js.charCodes (Js.fromCharCodes l) = l.
Proof.
  intros H. unfold Js.fromCharCodes, Js.charCodes.
  rewrite list_ascii_of_string_of_list_ascii, map_map.
  induction H as [|z l Hz _ IH]; simpl; [reflexivity|]. now rewrite (code_chr z Hz), IH.
Qed.

(** Decoding what was encoded gives the bytes back. *)
Lemma atob_encode l : Forall byte l -> Base64.atob (Base64.encode l) = Some (Js.fromCharCodes l).
Proof.
  intros Hl. unfold Base64.atob. rewrite encode_chars.
  pose proof (sextets_of_range l Hl) as Hs.
  rewrite keep_non_space.
  - rewrite (strip_encoded l Hl), (sextets_enc _ Hs), (decode_sextets_of l Hl). reflexivity.
  - exact Hs.
  - destruct (padding_shape l) as [H|[[H _]|H]]; rewrite H; repeat constructor.
Qed.

Theorem atob_btoa s : Base64.atob (Base64.btoa s) = Some s.
Proof.
  unfold Base64.btoa. rewrite atob_encode by apply charCodes_bytes.
  now rewrite fromCharCodes_charCodes.
Qed.


(** *** The URL-safe form and back *)

Lemma append_assoc (a b c : string) : (a +:+ b) +:+ c = a +:+ (b +:+ c).
Proof.
  induction a as [|x a IH]; [reflexivity|].
  change (String x ((a +:+ b) +:+ c) = String x (a +:+ (b +:+ c))). now rewrite IH.
Qed.

Lemma replace_append c r a b :
  Js.replace_all_char c r (a +:+ b)
  = Js.replace_all_char c r a +:+ Js.replace_all_char c r b.
Proof.
  induction a as [|x a IH]; [reflexivity|].
  change ((if Ascii.eqb x c then r else String x EmptyString)
            +:+ Js.replace_all_char c r (a +:+ b)
          = ((if Ascii.eqb x c then r else String x EmptyString)
               +:+ Js.replace_all_char c r a) +:+ Js.replace_all_char c r b).
  now rewrite IH, append_assoc.
Qed.

Lemma to_url_append a b : Utils.to_url (a +:+ b) = Utils.to_url a +:+ Utils.to_url b.
Proof. unfold Utils.to_url. now rewrite !replace_append. Qed.

Lemma from_url_append a b : Utils.from_url (a +:+ b) = Utils.from_url a +:+ Utils.from_url b.
Proof. unfold Utils.from_url. now rewrite !replace_append. Qed.

Lemma url_round_enc n :
  sextet n ->
  Utils.from_url (Utils.to_url (String (Base64.enc n) EmptyString))
  = String (Base64.enc n) EmptyString.
Proof.
  intros H. destruct (sextet_nat n H) as (k & -> & Hk).
  unfold Base64.enc. rewrite Nat2Z.id.
  do 64 (destruct k as [|k]; [reflexivity|]). lia.
Qed.

Lemma url_round ns pads :
  Forall sextet ns -> Forall (fun c => c = Base64.pad_char) pads ->
  Utils.from_url (Utils.to_url (string_of_list_ascii (map Base64.enc ns ++ pads)))
  = string_of_list_ascii (map Base64.enc ns).
Proof.
  intros Hns Hp. induction Hns as [|n ns Hn _ IH]; simpl.
  - induction Hp as [|c pads -> _ IH]; [reflexivity|]. simpl.
    change (String Base64.pad_char (string_of_list_ascii pads))
      with (String Base64.pad_char EmptyString +:+ string_of_list_ascii pads).
    rewrite to_url_append, from_url_append, IH. reflexivity.
  - change (String (Base64.enc n) (string_of_list_ascii (map Base64.enc ns ++ pads)))
      with (String (Base64.enc n) EmptyString
              +:+ string_of_list_ascii (map Base64.enc ns ++ pads)).
    rewrite to_url_append, from_url_append, IH, (url_round_enc n Hn). reflexivity.
Qed.

Lemma atob_url_encode l :
  Forall byte l ->
  Base64.atob (Utils.from_url (Utils.to_url (Base64.encode l))) = Some (Js.fromCharCodes l).
Proof.
  intros Hl. pose proof (sextets_of_range l Hl) as Hs.
  rewrite <- (string_of_list_ascii_of_string (Base64.encode l)), encode_chars.
  rewrite url_round.
  - unfold Base64.atob. rewrite list_ascii_of_string_of_list_ascii.
    pose proof (keep_non_space (sextets_of l) [] Hs (List.Forall_nil _)) as Hk.
    rewrite app_nil_r in Hk. rewrite Hk.
    rewrite (strip_plain _ (enc_plain _ Hs)), (sextets_enc _ Hs), (decode_sextets_of l Hl).
    reflexivity.
  - exact Hs.
  - destruct (padding_shape l) as [H|[[H _]|H]]; rewrite H; repeat constructor.
Qed.

(** *** The bytes of a signature *)

Lemma be_bytes_byte n x : Forall byte (Crypto.be_bytes n x).
Proof.
  unfold Crypto.be_bytes. apply Forall_map, Forall_forall. intros i _.
  unfold byte. apply Z.mod_pos_bound. lia.
Qed.

Lemma sha256_bytes_byte msg : Forall byte (Crypto.sha256_bytes msg).
Proof.
  unfold Crypto.sha256_bytes. apply Forall_flat_map, Forall_forall.
  intros x _. apply be_bytes_byte.
Qed.

Lemma hmac_bytes key msg : Forall byte (Crypto.hmac_sha256 key msg).
Proof. unfold Crypto.hmac_sha256. apply sha256_bytes_byte. Qed.

Section Minted.

Variable JSON_parse : string -> option JWTPayload.t.

(** Every credential the worker mints is accepted by [verifyJWT] of
    [utils.ts] for good, and by [verifyJWT] of [auth.ts] until its [exp]. *)
Theorem minted_credential_verifies (now : Z) (payload : JWTPayload.t) (secret token : string) :
  Utils.generateJWT payload secret = Ret token ->
  JSON_parse (Json.stringify_payload payload) = Some payload ->
  Utils.verifyJWT JSON_parse token secret = Some payload
  /\ Auth.verifyJWT JSON_parse now token secret
     = if JWTPayload.exp payload <=? now then None else Some payload.
Proof.
  intros Hmint Hparse.
  destruct (minted_credential_segments payload secret token Hmint) as (Hsplit & _).
  assert (Hkey : Crypto.importKey (Js.TextEncoder_encode secret)
                 = Ret (Js.TextEncoder_encode secret)).
  { unfold Utils.generateJWT in Hmint. unfold Crypto.importKey in *.
    destruct (Js.TextEncoder_encode secret); [discriminate | reflexivity]. }
  assert (Hsig : Base64.atob (Utils.from_url (signature_segment payload secret))
                 = Some (Js.fromCharCodes
                           (Crypto.hmac_sha256 (Js.TextEncoder_encode secret)
                              (Js.TextEncoder_encode
                                 (Auth.fixed_header +:+ "."
                                    +:+ Base64.btoa (Json.stringify_payload payload)))))).
  { unfold signature_segment, Base64.btoa.
    rewrite charCodes_fromCharCodes by apply hmac_bytes.
    apply atob_url_encode, hmac_bytes. }
  assert (Hbody := atob_btoa (Json.stringify_payload payload)).
  split.
  - unfold Utils.verifyJWT, Utils.verifyJWT_try. rewrite Hsplit, Hkey.
    unfold mbind, Exc_bind, mret, Exc_ret. cbv beta iota.
    rewrite Hsig, charCodes_fromCharCodes by apply hmac_bytes.
    rewrite hmac_verify_true by reflexivity. cbv beta iota.
    rewrite Hbody, Hparse. reflexivity.
  - unfold Auth.verifyJWT, Auth.verifyJWT_try, Auth.jwtVerify. rewrite Hsplit.
    rewrite String.eqb_refl. unfold mbind, Exc_bind, mret, Exc_ret. cbv beta iota.
    rewrite Hkey. cbv beta iota.
    rewrite Hsig, (atob_from_url _ _ Hbody), Hbody.
    rewrite charCodes_fromCharCodes by apply hmac_bytes.
    rewrite hmac_verify_true by reflexivity. rewrite Hparse.
    destruct (JWTPayload.exp payload <=? now); reflexivity.
Qed.

End Minted.

End RoundTripProps.

(** ** More on tables *)
Section LookupFacts.

Context {A : Type}.
Implicit Types (p q : A -> bool) (f : A -> A) (rows : list A).

(** A row appended to a table that has no match is the match. *)
Lemma first_append_new p rows (r : A) :
  Sql.first p rows = None -> p r = true -> Sql.first p (rows ++ [r]) = Some r.
Proof.
  unfold Sql.first. induction rows as [|a rows IH]; simpl; intros Hnone Hr.
  - now rewrite Hr.
  - destruct (p a); [discriminate|]. now apply IH.
Qed.

(** A column without duplicates identifies its rows. *)
Lemma unique_column {B} (col : A -> B) rows (a b : A) :
  List.NoDup (map col rows) -> In a rows -> In b rows -> col a = col b -> a = b.
Proof.
  induction rows as [|x rows IH]; intros Hnd Ha Hb Hcol; [destruct Ha|].
  simpl in Hnd. apply List.NoDup_cons_iff in Hnd. destruct Hnd as [Hfresh Hnd].
  destruct Ha as [->|Ha], Hb as [->|Hb].
  - reflexivity.
  - exfalso. apply Hfresh. rewrite Hcol. apply in_map, Hb.
  - exfalso. apply Hfresh. rewrite <- Hcol. apply in_map, Ha.
  - apply IH; assumption.
Qed.

(** An update whose condition selects no row changes none. *)
Lemma update_none q f rows :
  (forall r, In r rows -> q r = false) -> Sql.update q f rows = rows.
Proof.
  unfold Sql.update. induction rows as [|a rows IH]; intros H; simpl; [reflexivity|].
  rewrite (H a (or_introl eq_refl)), IH; [reflexivity|]. intros r Hin. apply H. now right.
Qed.

(** An update of rows that a selection leaves out, before and after, does
    not show in the selection. *)
Lemma filter_update_other p q f rows :
  (forall r, In r rows -> q r = true -> p r = false /\ p (f r) = false) ->
  List.filter p (Sql.update q f rows) = List.filter p rows.
Proof.
  unfold Sql.update. induction rows as [|a rows IH]; intros H; simpl; [reflexivity|].
  rewrite IH by (intros r Hin; apply H; now right).
  destruct (q a) eqn:Hq; [|reflexivity].
  destruct (H a (or_introl eq_refl) Hq) as [Hp Hpf]. now rewrite Hp, Hpf.
Qed.

End LookupFacts.

(** ** [verifyJWT] of [utils.ts] on arbitrary tokens *)
Module TokenProps.
Import CredentialProps.

Lemma split_nonempty sep s : Js.split sep s <> [].
Proof.
  destruct s as [|c s]; simpl; [discriminate|].
  destruct (Ascii.eqb c sep); [discriminate|].
  destruct (Js.split sep s); discriminate.
Qed.

(** Splitting distributes over a separator. *)
Lemma split_at_separator sep a b :
  Js.split sep (a +:+ String sep b) = Js.split sep a ++ Js.split sep b.
Proof.
  induction a as [|c a IH].
  - simpl. now rewrite Ascii.eqb_refl.
  - change (String c a +:+ String sep b) with (String c (a +:+ String sep b)).
    simpl. rewrite IH. destruct (Ascii.eqb c sep); [reflexivity|].
    pose proof (split_nonempty sep a) as Hne.
    destruct (Js.split sep a); [contradiction | reflexivity].
Qed.

Section Verify.

Variable JSON_parse : string -> option JWTPayload.t.

(** X1. Only the first three segments of a token are looked at: anything that
    follows a further dot is ignored. *)
Theorem trailing_segments_are_ignored (token secret h b s junk : string) :
  Js.split "."%char token = [h; b; s] ->
  Utils.verifyJWT JSON_parse (token +:+ "." +:+ junk) secret
  = Utils.verifyJWT JSON_parse token secret.
Proof.
  intros Hsplit. unfold Utils.verifyJWT, Utils.verifyJWT_try.
  change (token +:+ "." +:+ junk) with (token +:+ String "."%char junk).
  rewrite split_at_separator, Hsplit.
  pose proof (split_nonempty "."%char junk) as Hne.
  destruct (Js.split "."%char junk); [contradiction | reflexivity].
Qed.

(** X2. A payload is handed back only for a token of at least three segments
    whose third segment decodes to the HMAC-SHA256 of the first two under
    the secret, which is not empty, and whose second segment decodes to
    the text that parses to it. *)
Theorem accepted_token_is_signed (token secret : string) (payload : JWTPayload.t) :
  Utils.verifyJWT JSON_parse token secret = Some payload ->
  exists h b s rest raw text,
    Js.split "."%char token = h :: b :: s :: rest
    /\ secret <> EmptyString
    /\ Base64.atob (Utils.from_url s) = Some raw
    /\ Js.charCodes raw
       = Crypto.hmac_sha256 (Js.TextEncoder_encode secret)
           (Js.TextEncoder_encode (h +:+ "." +:+ b))
    /\ Base64.atob b = Some text
    /\ JSON_parse text = Some payload.
Proof.
  unfold Utils.verifyJWT, Utils.verifyJWT_try.
  destruct (Js.split "."%char token) as [|h [|b [|s rest]]]; try discriminate.
  destruct secret as [|c secret']; [discriminate|].
  set (secret := String c secret').
  assert (Hkey : Crypto.importKey (Js.TextEncoder_encode secret)
                 = Ret (Js.TextEncoder_encode secret))
    by (apply importKey_secret; discriminate).
  rewrite Hkey. unfold mbind, Exc_bind, mret, Exc_ret. cbv beta iota.
  destruct (Base64.atob (Utils.from_url s)) as [raw|] eqn:Hs; [|discriminate].
  destruct (Crypto.hmac_verify _ _ _) eqn:Hv; [|discriminate]. cbv beta iota.
  simpl negb. cbv iota.
  destruct (Base64.atob b) as [text|] eqn:Hb; [|discriminate].
  destruct (JSON_parse text) as [p|] eqn:Hp; [|discriminate].
  intros [= <-]. exists h, b, s, rest, raw, text.
  repeat split; try assumption; try discriminate.
  unfold Crypto.hmac_verify, Crypto.eqb_bytes in Hv.
  now apply bool_decide_eq_true_1 in Hv.
Qed.

End Verify.

Import RoundTripProps.

(** X3. A token minted by [generateJWT] is accepted by [verifyJWT] under the
    same secret, with the payload it was minted for, whenever the payload
    survives [JSON.stringify] and [JSON.parse]. *)
Theorem minted_token_round_trip
    (JSON_parse : string -> option JWTPayload.t)
    (payload : JWTPayload.t) (secret token : string) :
  Utils.generateJWT payload secret = Ret token ->
  JSON_parse (Json.stringify_payload payload) = Some payload ->
  Utils.verifyJWT JSON_parse token secret = Some payload.
Proof.
  intros Hmint Hparse.
  exact (proj1 (minted_credential_verifies JSON_parse 0 payload secret token Hmint Hparse)).
Qed.

Lemma trailing_segments_witness :
  Utils.verifyJWT Sample.parse_payload0 (Sample.token0 +:+ "." +:+ "anything") "s3cret"
  = Utils.verifyJWT Sample.parse_payload0 Sample.token0 "s3cret".
Proof.
  apply (trailing_segments_are_ignored Sample.parse_payload0 Sample.token0 "s3cret"
           "eyJhbGciOiJIUzI1NiIsInR5cCI6IkpXVCJ9"
           "eyJzdWIiOiJLRVktMSIsInBsYW4iOiJtb250aGx5IiwiaWF0IjoxMDAwMDAsImV4cCI6MTAwfQ=="
           "0sHQtVZMkCMTtmIOh0lJjFeS410A9YvHUgNoUgwzX2E" "anything").
  vm_compute. reflexivity.
Defined.

Lemma accepted_token_witness :
  exists h b s rest raw text,
    Js.split "."%char Sample.token0 = h :: b :: s :: rest
    /\ "s3cret" <> EmptyString
    /\ Base64.atob (Utils.from_url s) = Some raw
    /\ Js.charCodes raw
       = Crypto.hmac_sha256 (Js.TextEncoder_encode "s3cret")
           (Js.TextEncoder_encode (h +:+ "." +:+ b))
    /\ Base64.atob b = Some text
    /\ Sample.parse_payload0 text = Some Sample.payload0.
Proof.
  apply (accepted_token_is_signed Sample.parse_payload0 Sample.token0 "s3cret" Sample.payload0).
  vm_compute. reflexivity.
Defined.

Lemma minted_token_witness :
  Utils.verifyJWT Sample.parse_payload0 Sample.token0 "s3cret" = Some Sample.payload0.
Proof.
  apply (minted_token_round_trip Sample.parse_payload0 Sample.payload0 "s3cret" Sample.token0).
  - vm_compute. reflexivity.
  - vm_compute. reflexivity.
Defined.

End TokenProps.

(** ** [verifyJWT] of [auth.ts]: the pinned header *)
Module HeaderProps.

Section Verify.

Variable JSON_parse : string -> option JWTPayload.t.

(** X4. Whatever the library makes of a token, [verifyJWT] of [auth.ts] hands
    back a payload only when the first segment is its fixed header, and
    that header is the one [generateJWT] of [utils.ts] writes: the base64
    text of the JSON of [{ alg: 'HS256', typ: 'JWT' }]. *)
Theorem only_the_minted_header_is_accepted
    (now : Z) (token secret : string) (payload : JWTPayload.t) :
  Auth.verifyJWT JSON_parse now token secret = Some payload ->
  (exists rest, Js.split "."%char token = Auth.fixed_header :: rest)
  /\ Auth.fixed_header = Base64.btoa Json.stringify_header
  /\ forall payload' secret' token',
       Utils.generateJWT payload' secret' = Ret token' ->
       exists rest', Js.split "."%char token' = Auth.fixed_header :: rest'.
Proof.
  intros H. split; [|split].
  - unfold Auth.verifyJWT, Auth.verifyJWT_try in H.
    destruct (Js.split "."%char token) as [|h rest]; [discriminate|].
    destruct (String.eqb_spec h Auth.fixed_header) as [->|Hh]; [eauto | discriminate].
  - reflexivity.
  - intros payload' secret' token' Hmint.
    destruct (CredentialProps.minted_credential_segments _ _ _ Hmint) as [Hsplit _].
    rewrite Hsplit. eauto.
Qed.

End Verify.

Lemma minted_header_witness :
  (exists rest, Js.split "."%char Sample.token0 = Auth.fixed_header :: rest)
  /\ Auth.fixed_header = Base64.btoa Json.stringify_header
  /\ forall payload' secret' token',
       Utils.generateJWT payload' secret' = Ret token' ->
       exists rest', Js.split "."%char token' = Auth.fixed_header :: rest'.
Proof.
  apply (only_the_minted_header_is_accepted Sample.parse_payload0 99 Sample.token0 "s3cret"
           Sample.payload0).
  vm_compute. reflexivity.
Defined.

End HeaderProps.

(** ** The byte helpers of [webhook.ts] *)
Module CodecProps.
Import Webhook RoundTripProps.

(** X5. Encoding a byte array and decoding the text gives the array back, and
    whatever [base64ToUint8Array] decodes is an array of bytes. *)
Theorem uint8_base64_round_trip (bytes : list Z) :
  Forall byte bytes ->
  base64ToUint8Array (uint8ArrayToBase64 bytes) = Ret bytes
  /\ forall text decoded, base64ToUint8Array text = Ret decoded -> Forall byte decoded.
Proof.
  intros H. split.
  - unfold base64ToUint8Array, uint8ArrayToBase64, Base64.btoa.
    rewrite (charCodes_fromCharCodes _ H), (atob_encode _ H), (charCodes_fromCharCodes _ H).
    reflexivity.
  - intros text decoded. unfold base64ToUint8Array.
    destruct (Base64.atob text) as [binaryString|]; [|discriminate].
    intros [= <-]. apply charCodes_bytes.
Qed.

Lemma uint8_base64_witness :
  base64ToUint8Array (uint8ArrayToBase64 [0; 255; 16; 128]) = Ret [0; 255; 16; 128]
  /\ forall text decoded, base64ToUint8Array text = Ret decoded -> Forall byte decoded.
Proof.
  apply (uint8_base64_round_trip [0; 255; 16; 128]).
  unfold byte. repeat constructor; lia.
Defined.

End CodecProps.

(** ** The webhook signature *)
Module SignatureProps.
Import Webhook CredentialProps.

(** The key [verifySignature] signs with: the secret without its [whsec_]
    prefix, decoded as base64 when it is base64 and taken as UTF-8 text
    when it is not. *)
Definition signing_key (secret : string) : list Z :=
  let secretKey := if Js.startsWith "whsec_" secret then Js.slice_from 6 secret else secret in
  catchE (base64ToUint8Array secretKey) (fun _ => Js.TextEncoder_encode secretKey).

(** The signature it computes for a delivery. *)
Definition expected_signature (payload timestamp webhookId secret : string) : string :=
  uint8ArrayToBase64
    (Crypto.hmac_sha256 (signing_key secret)
       (Js.TextEncoder_encode (webhookId +:+ "." +:+ timestamp +:+ "." +:+ payload))).

Lemma existsb_map {A B} (f : B -> bool) (g : A -> B) (l : list A) :
  existsb f (map g l) = existsb (fun x => f (g x)) l.
Proof. induction l as [|a l IH]; simpl; [reflexivity | now rewrite IH]. Qed.

Lemma verifySignature_candidates payload signature timestamp webhookId secret :
  verifySignature payload signature timestamp webhookId secret
  = match signing_key secret with
    | [] => false
    | _ :: _ =>
        existsb
          (fun c =>
             String.eqb (Js.replace_first "v1," EmptyString c)
               (expected_signature payload timestamp webhookId secret))
          (Js.split " "%char signature)
    end.
Proof.
  unfold verifySignature, verifySignature_try, expected_signature.
  fold (signing_key secret).
  destruct (signing_key secret) as [|k key]; [reflexivity|].
  unfold Crypto.importKey, mbind, Exc_bind, mret, Exc_ret, catchE.
  apply existsb_map.
Qed.

Lemma startsWith_includes c p s :
  includes c p = true -> Js.startsWith p s = true -> includes c s = true.
Proof.
  revert s. induction p as [|x p IH]; intros s Hc Hs; [discriminate|].
  destruct s as [|y s]; [discriminate|]. simpl in *.
  apply andb_true_iff in Hs. destruct Hs as [Hxy Hs]. apply Ascii.eqb_eq in Hxy. subst y.
  apply orb_true_iff in Hc. destruct Hc as [Hc|Hc].
  - now rewrite Hc.
  - rewrite (IH s Hc Hs). apply orb_true_r.
Qed.

(** Nothing is replaced in a text that lacks a character of the pattern. *)
Lemma replace_first_absent c p r s :
  includes c p = true -> includes c s = false -> Js.replace_first p r s = s.
Proof.
  intros Hp. induction s as [|x s IH]; intros Hs.
  - simpl. destruct (Js.startsWith p EmptyString) eqn:E; [|reflexivity].
    rewrite (startsWith_includes c p EmptyString Hp E) in Hs. discriminate.
  - simpl. destruct (Js.startsWith p (String x s)) eqn:E.
    + rewrite (startsWith_includes c p (String x s) Hp E) in Hs. discriminate.
    + simpl in Hs. apply orb_false_iff in Hs. destruct Hs as [_ Hs]. now rewrite (IH Hs).
Qed.

Lemma signature_no_comma bytes : includes ","%char (uint8ArrayToBase64 bytes) = false.
Proof.
  unfold uint8ArrayToBase64, Base64.btoa.
  destruct (includes ","%char (Base64.encode _)) eqn:E; [|reflexivity].
  apply includes_encode in E. discriminate.
Qed.

(** X6. The signature header is a list of candidates between blanks.  With a
    usable key, a delivery is accepted as soon as one candidate is the
    computed signature, with the version tag [v1,] in front of it or bare,
    wherever it stands in the list; it is refused when no candidate is the
    computed signature once a first [v1,] is taken out of it. *)
Theorem one_matching_candidate_is_enough
    (payload signature timestamp webhookId secret : string) :
  signing_key secret <> [] ->
  (forall candidate,
     In candidate (Js.split " "%char signature) ->
     candidate = "v1," +:+ expected_signature payload timestamp webhookId secret
     \/ candidate = expected_signature payload timestamp webhookId secret ->
     verifySignature payload signature timestamp webhookId secret = true)
  /\ ((forall candidate,
         In candidate (Js.split " "%char signature) ->
         Js.replace_first "v1," EmptyString candidate
         <> expected_signature payload timestamp webhookId secret) ->
      verifySignature payload signature timestamp webhookId secret = false).
Proof.
  intros Hkey. rewrite verifySignature_candidates.
  destruct (signing_key secret) as [|k key]; [contradiction|]. split.
  - intros candidate Hin Hc. apply existsb_exists. exists candidate. split; [exact Hin|].
    apply String.eqb_eq. destruct Hc as [->| ->].
    + reflexivity.
    + apply (replace_first_absent ","%char); [reflexivity|].
      apply signature_no_comma.
  - intros Hnone. apply not_true_is_false. intros Hex. apply existsb_exists in Hex.
    destruct Hex as (c & Hin & Hc). apply String.eqb_eq in Hc. exact (Hnone c Hin Hc).
Qed.

(** The [whsec_] prefix of the secret is optional, and a secret that
    decodes to no bytes at all refuses every delivery. *)
Lemma secret_prefix_is_optional (payload signature timestamp webhookId secret : string) :
  Js.startsWith "whsec_" secret = false ->
  verifySignature payload signature timestamp webhookId ("whsec_" +:+ secret)
  = verifySignature payload signature timestamp webhookId secret
  /\ (Base64.atob secret = Some EmptyString ->
      verifySignature payload signature timestamp webhookId secret = false).
Proof.
  intros Hplain. split.
  - unfold verifySignature, verifySignature_try.
    change (Js.startsWith "whsec_" ("whsec_" +:+ secret)) with true.
    change (Js.slice_from 6 ("whsec_" +:+ secret)) with secret.
    rewrite Hplain. reflexivity.
  - intros Hempty. rewrite verifySignature_candidates.
    unfold signing_key, base64ToUint8Array. rewrite Hplain, Hempty. reflexivity.
Qed.

Import Sample.

Lemma matching_candidate_witness :
  (forall candidate,
     In candidate
       (Js.split " "%char "v1,AAAA v1,/YAyLpAjuYvbFYNTx7FGM9tOScdma1hFTtHwiq/GaAA=") ->
     candidate
     = "v1," +:+ expected_signature paid_text "1700000000" "msg_1"
                   "whsec_c3VwZXJzZWNyZXRrZXkxMg=="
     \/ candidate
        = expected_signature paid_text "1700000000" "msg_1" "whsec_c3VwZXJzZWNyZXRrZXkxMg==" ->
     verifySignature paid_text "v1,AAAA v1,/YAyLpAjuYvbFYNTx7FGM9tOScdma1hFTtHwiq/GaAA="
       "1700000000" "msg_1" "whsec_c3VwZXJzZWNyZXRrZXkxMg==" = true)
  /\ ((forall candidate,
         In candidate
           (Js.split " "%char "v1,AAAA v1,/YAyLpAjuYvbFYNTx7FGM9tOScdma1hFTtHwiq/GaAA=") ->
         Js.replace_first "v1," EmptyString candidate
         <> expected_signature paid_text "1700000000" "msg_1"
              "whsec_c3VwZXJzZWNyZXRrZXkxMg==") ->
      verifySignature paid_text "v1,AAAA v1,/YAyLpAjuYvbFYNTx7FGM9tOScdma1hFTtHwiq/GaAA="
        "1700000000" "msg_1" "whsec_c3VwZXJzZWNyZXRrZXkxMg==" = false).
Proof.
  apply (one_matching_candidate_is_enough paid_text
           "v1,AAAA v1,/YAyLpAjuYvbFYNTx7FGM9tOScdma1hFTtHwiq/GaAA="
           "1700000000" "msg_1" "whsec_c3VwZXJzZWNyZXRrZXkxMg==").
  vm_compute. discriminate.
Defined.

(** The header of the sample delivery holds the computed signature as its
    second candidate. *)
Example sample_signature :
  expected_signature paid_text "1700000000" "msg_1" "whsec_c3VwZXJzZWNyZXRrZXkxMg=="
  = "/YAyLpAjuYvbFYNTx7FGM9tOScdma1hFTtHwiq/GaAA=".
Proof. vm_compute. reflexivity. Qed.

End SignatureProps.

(** ** The webhook endpoint: refused deliveries and failed tasks *)
Module DeliveryProps.
Import Webhook EndpointProps.

Section Endpoint.

Variable JSON_parse : string -> Parsed.

(** X7. A delivery that fails the body, header or signature check is answered
    400 or 401 and leaves the database, the processed set and the queue as
    they were: its id is not used up, and an authentic delivery with a
    fresh id that follows it is taken up as if nothing had come before. *)
Theorem refused_delivery_changes_nothing (w : World) (request : Request) (env : Env) :
  authentic request env = false ->
  snd (handleDodoWebhook JSON_parse w request env) = w
  /\ (status (fst (handleDodoWebhook JSON_parse w request env)) = 400
      \/ status (fst (handleDodoWebhook JSON_parse w request env)) = 401)
  /\ forall later payload,
       authentic later env = true ->
       header (webhook_id later) ∉ processedWebhooks w ->
       JSON_parse (text later) = ParsedValue payload ->
       fst (handleDodoWebhook JSON_parse
              (snd (handleDodoWebhook JSON_parse w request env)) later env)
       = {| status := 200; body := Received (header (webhook_id later)) |}.
Proof.
  intros Hbad.
  assert (Hfirst : snd (handleDodoWebhook JSON_parse w request env) = w
                   /\ (status (fst (handleDodoWebhook JSON_parse w request env)) = 400
                       \/ status (fst (handleDodoWebhook JSON_parse w request env)) = 401)).
  { unfold authentic, header in Hbad. unfold handleDodoWebhook.
    destruct (has_body request); simpl in *; [|now split; [|left]].
    destruct (String.eqb (default EmptyString (webhook_id request)) EmptyString);
      simpl in *; [now split; [|left]|].
    destruct (String.eqb (default EmptyString (webhook_signature request)) EmptyString);
      simpl in *; [now split; [|left]|].
    destruct (String.eqb (default EmptyString (webhook_timestamp request)) EmptyString);
      simpl in *; [now split; [|left]|].
    destruct (String.eqb (DODO_WEBHOOK_SECRET env) EmptyString); simpl in *; [discriminate|].
    rewrite Hbad. simpl. now split; [|right]. }
  destruct Hfirst as [Hw Hstatus]. split; [exact Hw|]. split; [exact Hstatus|].
  intros later payload Hauth Hfresh Hparse. rewrite Hw, (handle_authentic _ _ _ _ Hauth).
  rewrite bool_decide_eq_false_2 by exact Hfresh. now rewrite Hparse.
Qed.

(** How a throw of the background task leaves the database: a failed
    statement writes nothing, and the one throw that follows a statement is
    that of the date of the log line. *)
Lemma throw_cases type data env now uuid rnd db e :
  snd (processWebhookAsync_try type data env now uuid rnd db) = Throw e ->
  fst (processWebhookAsync_try type data env now uuid rnd db) = db
  \/ e = "Invalid time value".
Proof.
  unfold processWebhookAsync_try.
  destruct data as [d|]; [|now left].
  destruct (is_failure type).
  { destruct (Js.truthy (billing_email d)); [|now left].
    destruct (Sql.update_users _ _ _); [discriminate | now left]. }
  destruct (is_success type); [|now left].
  destruct (negb (Js.truthy (billing_email d)) || negb (Js.truthy (resolve_product_id d)));
    [now left|].
  destruct (product (default EmptyString (resolve_product_id d))) as [cfg|]; [|now left].
  cbv zeta.
  destruct (Sql.first (has_email (default EmptyString (billing_email d))) (users db))
    as [existing|].
  - destruct (Sql.update_users _ _ _); [|now left].
    cbn [snd]. unfold Worker.toISOString. destruct (_ <=? _); [discriminate|].
    intros [= <-]. now right.
  - destruct (Sql.insert_user _ _); [|now left].
    cbn [snd]. unfold Worker.toISOString. destruct (_ <=? _); [discriminate|].
    intros [= <-]. now right.
Qed.

(** The world once the task queued for a recorded delivery has run and
    left the database [db']. *)
Definition settled (id : string) (db' : DB) (w : World) : World :=
  {| db := db'; processedWebhooks := {[ id ]} ∪ processedWebhooks w; background := [] |}.

(** X8. An event is acknowledged before it is processed.  When the task that
    was queued for it throws, no mail is sent, yet the delivery has been
    answered 200 and its id is on record: a redelivery of the event is
    answered as a duplicate and queues nothing, so the event is never tried
    again.  The database is then as the statement of the task left it: as
    it was, unless the throw is the one of the log line that follows the
    statement, whose date is out of range. *)
Theorem failed_task_is_not_retried
    (w : World) (request : Request) (env : Env) (payload : Payload)
    (now : Z) (uuid : string) (rnd : nat -> nat) (e : string) :
  authentic request env = true ->
  header (webhook_id request) ∉ processedWebhooks w ->
  background w = [] ->
  JSON_parse (text request) = ParsedValue payload ->
  snd (processWebhookAsync_try (type payload) (data payload) env now uuid rnd (db w))
  = Throw e ->
  fst (handleDodoWebhook JSON_parse w request env)
  = {| status := 200; body := Received (header (webhook_id request)) |}
  /\ run_background (snd (handleDodoWebhook JSON_parse w request env)) env now uuid rnd
     = (settled (header (webhook_id request))
          (fst (processWebhookAsync_try (type payload) (data payload) env now uuid rnd (db w)))
          w,
        None)
  /\ (e <> "Invalid time value" ->
      fst (processWebhookAsync_try (type payload) (data payload) env now uuid rnd (db w))
      = db w)
  /\ forall later db',
       header (webhook_id later) = header (webhook_id request) ->
       authentic later env = true ->
       handleDodoWebhook JSON_parse (settled (header (webhook_id request)) db' w) later env
       = (duplicate_response, settled (header (webhook_id request)) db' w).
Proof.
  intros Hauth Hfresh Hqueue Hparse Hthrow.
  rewrite (handle_authentic _ _ _ _ Hauth).
  rewrite bool_decide_eq_false_2 by exact Hfresh. rewrite Hparse. simpl.
  split; [reflexivity|]. split; [|split].
  - unfold run_background. simpl. rewrite Hqueue. simpl.
    unfold processWebhookAsync. cbn [fst snd]. rewrite Hthrow. reflexivity.
  - intros Hother. destruct (throw_cases _ _ _ _ _ _ _ _ Hthrow) as [H|H];
      [exact H | contradiction].
  - intros later db' Hid Hauth'. rewrite (handle_authentic _ _ _ _ Hauth'), Hid.
    rewrite bool_decide_eq_true_2; [reflexivity|]. simpl. set_solver.
Qed.

End Endpoint.

Import Sample.

(** An event without [data], as [JSON.parse] reads the one body that
    carries it. *)
Definition bare_text : string :=
  "{" +:+ Json.quote "type" +:+ ":" +:+ Json.quote "payment.succeeded" +:+ "}".

Definition parse_bare (text : string) : Parsed :=
  if String.eqb text bare_text
  then ParsedValue {| type := "payment.succeeded"; data := None |}
  else parse_event text.

Definition forged_msg_1 : Request := delivery "msg_1" "v1,AAAA" "1700000000" paid_text.
Definition bare_msg_3 : Request := delivery "msg_3" "v1,AAAA" "1700000300" bare_text.

Lemma refused_delivery_witness :
  snd (handleDodoWebhook parse_event (world_of db0 ∅) forged_msg_1 env_signed) = world_of db0 ∅
  /\ (status (fst (handleDodoWebhook parse_event (world_of db0 ∅) forged_msg_1 env_signed)) = 400
      \/ status (fst (handleDodoWebhook parse_event (world_of db0 ∅) forged_msg_1 env_signed))
         = 401)
  /\ forall later payload,
       authentic later env_signed = true ->
       header (webhook_id later) ∉ processedWebhooks (world_of db0 ∅) ->
       parse_event (text later) = ParsedValue payload ->
       fst (handleDodoWebhook parse_event
              (snd (handleDodoWebhook parse_event (world_of db0 ∅) forged_msg_1 env_signed))
              later env_signed)
       = {| status := 200; body := Received (header (webhook_id later)) |}.
Proof.
  apply (refused_delivery_changes_nothing parse_event (world_of db0 ∅) forged_msg_1 env_signed).
  vm_compute. reflexivity.
Defined.

Lemma failed_task_witness :
  fst (handleDodoWebhook parse_bare (world_of db0 ∅) bare_msg_3 env0)
  = {| status := 200; body := Received (header (webhook_id bare_msg_3)) |}
  /\ run_background (snd (handleDodoWebhook parse_bare (world_of db0 ∅) bare_msg_3 env0))
       env0 1100 "u2" (fun i => i)
     = (settled (header (webhook_id bare_msg_3))
          (fst (processWebhookAsync_try "payment.succeeded" None env0 1100 "u2" (fun i => i)
                  db0))
          (world_of db0 ∅),
        None)
  /\ ("Cannot read properties of undefined (reading 'customer')" <> "Invalid time value" ->
      fst (processWebhookAsync_try "payment.succeeded" None env0 1100 "u2" (fun i => i) db0)
      = db0)
  /\ forall later db',
       header (webhook_id later) = header (webhook_id bare_msg_3) ->
       authentic later env0 = true ->
       handleDodoWebhook parse_bare
         (settled (header (webhook_id bare_msg_3)) db' (world_of db0 ∅)) later env0
       = (duplicate_response, settled (header (webhook_id bare_msg_3)) db' (world_of db0 ∅)).
Proof.
  apply (failed_task_is_not_retried parse_bare (world_of db0 ∅) bare_msg_3 env0
           {| type := "payment.succeeded"; data := None |} 1100 "u2" (fun i => i)
           "Cannot read properties of undefined (reading 'customer')").
  - vm_compute. reflexivity.
  - apply (bool_decide_eq_false_1 (header (webhook_id bare_msg_3) ∈ (∅ : gset string))).
    vm_compute. reflexivity.
  - reflexivity.
  - vm_compute. reflexivity.
  - vm_compute. reflexivity.
Defined.

(** A licence whose expiry is the last second of the range of dates is
    renewed: the row is rewritten, the log line throws on the new date, and
    the mail is not sent although the mail key is set. *)
Definition late_alice : User.t :=
  {| User.id := "u1"; User.email := "alice@example.org"; User.license_key := "KEY-1";
     User.plan := "monthly"; User.status := "active"; User.created_at := 10;
     User.expires_at := 8640000000000; User.payment_provider := None |}.

Definition late_db : DB :=
  {| users := [late_alice]; plan_quotas := [monthly_quota 50]; device_sessions := [] |}.

Example late_throw_keeps_the_write :
  processWebhookAsync_try "payment.succeeded" (Some paid_data) env0 1100 "u2" (fun i => i)
    late_db
  = (Sql.with_users late_db [renew "monthly" (8640000000000 + 2592000) late_alice],
     Throw "Invalid time value")
  /\ processWebhookAsync "payment.succeeded" (Some paid_data) env0 1100 "u2" (fun i => i)
       late_db
     = (Sql.with_users late_db [renew "monthly" (8640000000000 + 2592000) late_alice], None).
Proof. vm_compute. split; reflexivity. Qed.

End DeliveryProps.

(** ** Payment events and what validation makes of them *)
Module EventProps.
Import Webhook LifecycleProps.

(** The columns of a licence that no event rewrites. *)
Definition identity (u : User.t) : string * string * string * Z :=
  (User.id u, User.email u, User.license_key u, User.created_at u).

(** How a run of the background task can end. *)
Lemma event_cases type data env now uuid rnd db :
  processWebhookAsync type data env now uuid rnd db = (db, None)
  \/ exists d rows mail,
       data = Some d
       /\ Js.truthy (billing_email d) = true
       /\ is_failure type || is_success type = true
       /\ (is_failure type = true -> mail = None)
       /\ processWebhookAsync type data env now uuid rnd db = (Sql.with_users db rows, mail)
       /\ ((exists p f, rows = Sql.update p f (users db)
                        /\ forall r, identity (f r) = identity r)
           \/ exists u, rows = users db ++ [u]).
Proof.
  unfold processWebhookAsync, processWebhookAsync_try.
  destruct data as [d|]; simpl; [|now left].
  destruct (is_failure type) eqn:Hfail; simpl.
  { destruct (Js.truthy (billing_email d)) eqn:Hmail; [|now left].
    destruct (update_users_cases db (has_email (default EmptyString (billing_email d)))
                expire) as [->|[e ->]]; simpl; [|now left].
    right. eexists d, _, None.
    split; [reflexivity|]. split; [exact Hmail|]. split; [reflexivity|].
    split; [reflexivity|]. split; [reflexivity|].
    left. eexists _, _. split; reflexivity. }
  destruct (is_success type) eqn:Hsucc; simpl; [|now left].
  destruct (Js.truthy (billing_email d)) eqn:Hmail; simpl; [|now left].
  destruct (Js.truthy (resolve_product_id d)); simpl; [|now left].
  destruct (product (default EmptyString (resolve_product_id d))) as [cfg|]; simpl;
    [|now left].
  destruct (Sql.first (has_email (default EmptyString (billing_email d))) (users db))
    as [existing|].
  - match goal with
    | |- context [Sql.update_users db ?p ?f] =>
        destruct (update_users_cases db p f) as [->|[e ->]]
    end; simpl; [|now left].
    right. eexists d, _, _.
    split; [reflexivity|]. split; [exact Hmail|]. split; [reflexivity|].
    split; [discriminate|]. split; [reflexivity|].
    left. eexists _, _. split; reflexivity.
  - match goal with
    | |- context [Sql.insert_user db ?u] =>
        destruct (insert_user_cases db u) as [->|[e ->]]
    end; simpl; [|now left].
    right. eexists d, _, _.
    split; [reflexivity|]. split; [exact Hmail|]. split; [reflexivity|].
    split; [discriminate|]. split; [reflexivity|].
    right. eexists. reflexivity.
Qed.

Lemma event_keeps_quotas type data env now uuid rnd db :
  plan_quotas (fst (processWebhookAsync type data env now uuid rnd db)) = plan_quotas db.
Proof.
  destruct (event_cases type data env now uuid rnd db)
    as [->|(d & rows & mail & _ & _ & _ & _ & -> & _)]; reflexivity.
Qed.

(** X9. What the background task leaves alone, whatever the event: the quota
    and session tables; the whole database and the mailbox when the type
    is not one of the six it knows or no billing email is found; the
    mailbox for every failure type; and, in any case, the id, email, key
    and creation date of every stored licence, after which at most one
    licence is added. *)
Theorem event_frame (type : string) (data : option Data) (env : Env) (now : Z)
    (uuid : string) (rnd : nat -> nat) (db : DB) :
  plan_quotas (fst (processWebhookAsync type data env now uuid rnd db)) = plan_quotas db
  /\ device_sessions (fst (processWebhookAsync type data env now uuid rnd db))
     = device_sessions db
  /\ (is_failure type || is_success type = false ->
      processWebhookAsync type data env now uuid rnd db = (db, None))
  /\ (forall d, data = Some d -> Js.truthy (billing_email d) = false ->
      processWebhookAsync type data env now uuid rnd db = (db, None))
  /\ (is_failure type = true ->
      snd (processWebhookAsync type data env now uuid rnd db) = None)
  /\ exists kept added,
       users (fst (processWebhookAsync type data env now uuid rnd db)) = kept ++ added
       /\ map identity kept = map identity (users db)
       /\ (length added <= 1)%nat.
Proof.
  destruct (event_cases type data env now uuid rnd db)
    as [->|(d & rows & mail & Hd & Hmail & Htype & Hnone & -> & Hrows)]; simpl.
  - split; [reflexivity|]. split; [reflexivity|]. split; [reflexivity|].
    split; [reflexivity|]. split; [reflexivity|].
    exists (users db), []. rewrite app_nil_r. split; [reflexivity|]. split; [reflexivity|].
    simpl. lia.
  - split; [reflexivity|]. split; [reflexivity|].
    split; [intros H; congruence|].
    split; [intros d0 Hd0 Hno; congruence|].
    split; [exact Hnone|].
    destruct Hrows as [(p & f & -> & Hid)|(u & ->)].
    + exists (Sql.update p f (users db)), []. rewrite app_nil_r.
      split; [reflexivity|]. split; [|simpl; lia]. apply update_column, Hid.
    + exists (users db), [u]. split; [reflexivity|]. split; [reflexivity|]. simpl. lia.
Qed.

Lemma truthy_nonempty e : e <> EmptyString -> Js.truthy (Some e) = true.
Proof. intros H. simpl. destruct (String.eqb_spec e EmptyString); [contradiction | reflexivity]. Qed.

Lemma checks_split db u :
  Sql.user_checks db u = true ->
  Sql.mem (User.plan u) Sql.user_plans = true
  /\ Sql.mem (User.plan u) (map PlanQuota.plan (plan_quotas db)) = true.
Proof.
  unfold Sql.user_checks. intros H.
  apply andb_true_iff in H. destruct H as [H Hfk].
  apply andb_true_iff in H. destruct H as [Hplan _]. now split.
Qed.

Lemma is_license_found rows local f q :
  List.NoDup (map User.license_key rows) ->
  In local rows ->
  (forall r, User.license_key (f r) = User.license_key r) ->
  Sql.first (Worker.is_license (User.license_key local)) (Sql.update q f rows)
  = Some (if q local then f local else local).
Proof.
  intros Hnd Hin Hkey. rewrite first_update.
  - now rewrite (ValidateProps.first_unique_key _ _ Hnd Hin).
  - intros r. unfold Worker.is_license. now rewrite Hkey.
Qed.

(** X10. A failure-type event with a billing email sets every licence of that
    email to [expired] and touches nothing else; from then on validation
    of such a licence is refused with 403 [License inactive], whatever its
    expiry date and whatever the billing provider would answer. *)
Theorem failed_payment_locks_the_license
    (type : string) (data : Data) (env : Env) (now : Z) (uuid : string)
    (rnd : nat -> nat) (db : DB) (e : string) :
  is_failure type = true ->
  billing_email data = Some e ->
  e <> EmptyString ->
  (forall r, In r (users db) -> Sql.user_checks db r = true) ->
  processWebhookAsync type (Some data) env now uuid rnd db
  = (Sql.with_users db (Sql.update (has_email e) expire (users db)), None)
  /\ forall local env' now' iat uuid' dodo later,
       In local (users db) ->
       User.email local = e ->
       List.NoDup (map User.license_key (users db)) ->
       User.license_key local <> EmptyString ->
       Worker.validate (fst (processWebhookAsync type (Some data) env now uuid rnd db))
         env' now' iat uuid' (Ret (Some (User.license_key local))) dodo later
       = (Worker.errorResponse "License inactive" 403, later).
Proof.
  intros Hfail Hemail Hne Hvalid.
  assert (Hrun : processWebhookAsync type (Some data) env now uuid rnd db
                 = (Sql.with_users db (Sql.update (has_email e) expire (users db)), None)).
  { unfold processWebhookAsync, processWebhookAsync_try.
    rewrite Hfail, Hemail, (truthy_nonempty e Hne). simpl.
    rewrite update_users_ok; [reflexivity|].
    intros r Hin _. destruct (checks_split db r (Hvalid r Hin)) as [Hplan Hfk].
    unfold Sql.user_checks. change (User.plan (expire r)) with (User.plan r).
    rewrite Hplan, Hfk. reflexivity. }
  split; [exact Hrun|].
  intros local env' now' iat uuid' dodo later Hin Hmail Hnd Hkey. rewrite Hrun. cbn [fst].
  unfold Worker.validate. rewrite (truthy_nonempty _ Hkey).
  cbn [negb default from_option id users Sql.with_users].
  rewrite (is_license_found _ local expire (has_email e) Hnd Hin) by reflexivity.
  unfold has_email. rewrite Hmail, String.eqb_refl. reflexivity.
Qed.

(** The database a success-type event leaves for an email that has a
    licence. *)
Lemma renewal_run type data env now uuid rnd db e productId cfg u :
  is_success type = true ->
  billing_email data = Some e ->
  e <> EmptyString ->
  resolve_product_id data = Some productId ->
  product productId = Some cfg ->
  In (plan cfg) (map PlanQuota.plan (plan_quotas db)) ->
  Sql.first (has_email e) (users db) = Some u ->
  fst (processWebhookAsync type (Some data) env now uuid rnd db)
  = Sql.with_users db
      (Sql.update (has_user_id (User.id u))
         (renew (plan cfg) (Z.max (User.expires_at u) now + durationDays cfg * 86400))
         (users db)).
Proof.
  intros Hsucc Hemail Hne Hpid Hprod Hfk Hu.
  unfold processWebhookAsync, processWebhookAsync_try.
  rewrite (success_is_not_failure _ Hsucc), Hsucc, Hemail, Hpid, (truthy_nonempty e Hne).
  rewrite (product_id_truthy _ _ Hprod). simpl. rewrite Hprod, Hu, renewal_base.
  rewrite update_users_ok; [reflexivity|].
  intros r _ _. unfold Sql.user_checks.
  apply andb_true_iff; split; [apply andb_true_iff; split|].
  - exact (product_plan_allowed _ _ Hprod).
  - reflexivity.
  - apply mem_In, Hfk.
Qed.

(** With a secret and an expiry inside the range of dates, the tail of a
    successful validation returns its answer. *)
Lemma auth_response_Ret db env key email plan iat expires :
  JWT_SECRET env <> EmptyString ->
  Z.abs (expires * 1000) <= 8640000000000000 ->
  exists token,
    Worker.auth_response db env key email plan iat expires
    = Ret (Worker.jsonResponse
             (Worker.AuthBody token email plan (Worker.quota_of db plan) (expires * 1000))).
Proof.
  intros Hsecret Hrange.
  destruct (CredentialProps.generateJWT_total
              {| JWTPayload.sub := key; JWTPayload.plan := plan;
                 JWTPayload.iat := iat; JWTPayload.exp := expires |}
              (JWT_SECRET env) Hsecret) as [token Htoken].
  exists token. unfold Worker.auth_response. rewrite Htoken.
  unfold mbind, Exc_bind, mret, Exc_ret. cbv beta iota. unfold Worker.toISOString.
  destruct (Z.leb_spec (Z.abs (expires * 1000)) 8640000000000000); [reflexivity | lia].
Qed.

(** The licence found under the email once a success-type event has been
    processed. *)
Lemma paid_license type data env now uuid rnd db e productId cfg row :
  is_success type = true ->
  billing_email data = Some e ->
  e <> EmptyString ->
  resolve_product_id data = Some productId ->
  product productId = Some cfg ->
  In (plan cfg) (map PlanQuota.plan (plan_quotas db)) ->
  Sql.first (has_email e)
    (users (fst (processWebhookAsync type (Some data) env now uuid rnd db))) = Some row ->
  User.email row = e /\ User.status row = "active" /\ User.plan row = plan cfg
  /\ now + durationDays cfg * 86400 <= User.expires_at row.
Proof.
  intros Hsucc Hemail Hne Hpid Hprod Hfk.
  destruct (Sql.first (has_email e) (users db)) as [u|] eqn:Hu.
  - rewrite (renewal_run _ _ _ _ _ _ _ _ _ _ _ Hsucc Hemail Hne Hpid Hprod Hfk Hu).
    cbn [users Sql.with_users]. rewrite first_update by reflexivity. rewrite Hu.
    cbn [option_map]. unfold has_user_id. rewrite String.eqb_refl. intros [= <-].
    destruct (first_In _ _ _ Hu) as [_ Hmail]. unfold has_email in Hmail.
    apply String.eqb_eq in Hmail. cbn [renew User.email User.status User.plan User.expires_at].
    repeat split; [exact Hmail | lia].
  - unfold processWebhookAsync, processWebhookAsync_try.
    rewrite (success_is_not_failure _ Hsucc), Hsucc, Hemail, Hpid, (truthy_nonempty e Hne).
    rewrite (product_id_truthy _ _ Hprod). cbn [negb orb default from_option id].
    rewrite Hprod, Hu.
    match goal with
    | |- context [Sql.insert_user db ?u] =>
        destruct (insert_user_cases db u) as [->|[err ->]]
    end; cbn [fst users Sql.with_users].
    + rewrite (first_append_new (has_email e) (users db) _ Hu)
        by (unfold has_email; apply String.eqb_refl).
      intros [= <-]. cbn [User.email User.status User.plan User.expires_at].
      repeat split. lia.
    + rewrite Hu. discriminate.
Qed.

(** X11. Once a success-type event has been processed, the licence stored under
    its billing email, renewed or new, is active, on the plan of the
    product and good for the duration of the product at least; validation
    of its key succeeds at every second up to its expiry, whatever state
    the licence was in before and whatever the billing provider answers. *)
Theorem paid_license_validates
    (type : string) (data : Data) (env : Env) (now : Z) (uuid : string)
    (rnd : nat -> nat) (db : DB) (e productId : string) (cfg : Product) (row : User.t)
    (env' : Env) (now' iat : Z) (uuid' : string) (dodo : Worker.DodoReply) (later : DB) :
  is_success type = true ->
  billing_email data = Some e ->
  e <> EmptyString ->
  resolve_product_id data = Some productId ->
  product productId = Some cfg ->
  In (plan cfg) (map PlanQuota.plan (plan_quotas db)) ->
  SchemaProps.unique_keys (users db) ->
  Sql.first (has_email e)
    (users (fst (processWebhookAsync type (Some data) env now uuid rnd db))) = Some row ->
  User.license_key row <> EmptyString ->
  JWT_SECRET env' <> EmptyString ->
  now' <= User.expires_at row ->
  Z.abs (User.expires_at row * 1000) <= 8640000000000000 ->
  User.status row = "active"
  /\ User.plan row = plan cfg
  /\ now + durationDays cfg * 86400 <= User.expires_at row
  /\ exists token,
       Worker.validate (fst (processWebhookAsync type (Some data) env now uuid rnd db))
         env' now' iat uuid' (Ret (Some (User.license_key row))) dodo later
       = (Worker.jsonResponse
            (Worker.AuthBody token e (plan cfg) (Worker.quota_of db (plan cfg))
               (User.expires_at row * 1000)),
          later).
Proof.
  intros Hsucc Hemail Hne Hpid Hprod Hfk Hunique Hrow Hkey Hsecret Hnow Hrange.
  destruct (paid_license _ _ _ _ _ _ _ _ _ _ _ Hsucc Hemail Hne Hpid Hprod Hfk Hrow)
    as (Hmail & Hstatus & Hplan & Hexp).
  split; [exact Hstatus|]. split; [exact Hplan|]. split; [exact Hexp|].
  pose proof (SchemaProps.webhook_keeps_keys_unique db type (Some data) env now uuid rnd
                Hunique) as (_ & _ & Hnd).
  pose proof (event_keeps_quotas type (Some data) env now uuid rnd db) as Hquotas.
  destruct (first_In _ _ _ Hrow) as [Hin _].
  set (db' := fst (processWebhookAsync type (Some data) env now uuid rnd db)) in *.
  destruct (auth_response_Ret db' env' (User.license_key row) (User.email row)
              (User.plan row) iat (User.expires_at row) Hsecret Hrange) as [token Htoken].
  exists token. unfold Worker.validate. rewrite (truthy_nonempty _ Hkey).
  cbn [negb default from_option id].
  rewrite (ValidateProps.first_unique_key _ _ Hnd Hin), Hstatus.
  cbn [String.eqb Ascii.eqb Bool.eqb negb].
  destruct (Z.ltb_spec (User.expires_at row) now'); [lia|].
  rewrite Htoken. unfold catchE, Worker.quota_of. now rewrite Hquotas, Hmail, Hplan.
Qed.

(** X12. When a licence mail goes out, the key it carries is the key of a
    licence that is stored, active, under the address the mail goes to. *)
Theorem mailed_key_is_the_stored_key
    (type : string) (data : option Data) (env : Env) (now : Z) (uuid : string)
    (rnd : nat -> nat) (db db' : DB) (m : Mail) :
  processWebhookAsync type data env now uuid rnd db = (db', Some m) ->
  is_success type = true
  /\ RESEND_API_KEY env <> EmptyString
  /\ exists row,
       In row (users db')
       /\ User.email row = mail_to m
       /\ User.license_key row = mail_key m
       /\ User.status row = "active".
Proof.
  unfold processWebhookAsync, processWebhookAsync_try.
  destruct data as [d|]; simpl; [|discriminate].
  destruct (is_failure type).
  { destruct (Js.truthy (billing_email d)); [|discriminate].
    destruct (Sql.update_users _ _ _); discriminate. }
  destruct (is_success type); [|discriminate].
  destruct (negb (Js.truthy (billing_email d)) || negb (Js.truthy (resolve_product_id d)));
    [discriminate|].
  destruct (product (default EmptyString (resolve_product_id d))) as [cfg|]; [|discriminate].
  assert (Hmail : forall e key,
             license_mail env e key cfg = Some m ->
             RESEND_API_KEY env <> EmptyString /\ mail_to m = e /\ mail_key m = key).
  { intros e key. unfold license_mail.
    destruct (String.eqb_spec (RESEND_API_KEY env) EmptyString); simpl; [discriminate|].
    intros [= <-]. now repeat split. }
  destruct (Sql.first (has_email (default EmptyString (billing_email d))) (users db))
    as [existing|] eqn:Hfirst.
  - match goal with
    | |- context [Sql.update_users db ?p ?f] =>
        destruct (update_users_cases db p f) as [->|[e ->]]
    end; simpl; [|discriminate].
    intros [= <- Hm]. destruct (Worker.toISOString _); [|discriminate Hm].
    cbn [mbind Exc_bind mret Exc_ret catchE] in Hm.
    destruct (Hmail _ _ Hm) as (Hkey & Hto & Hk).
    destruct (first_In _ _ _ Hfirst) as [Hin He]. unfold has_email in He.
    apply String.eqb_eq in He.
    split; [reflexivity|]. split; [exact Hkey|].
    eexists (renew _ _ existing). simpl. repeat split; try congruence.
    unfold Sql.update. apply in_map_iff. exists existing. split; [|exact Hin].
    unfold has_user_id. now rewrite String.eqb_refl.
  - match goal with
    | |- context [Sql.insert_user db ?u] =>
        destruct (insert_user_cases db u) as [->|[e ->]]
    end; simpl; [|discriminate].
    intros [= <- Hm]. destruct (Worker.toISOString _); [|discriminate Hm].
    cbn [mbind Exc_bind mret Exc_ret catchE] in Hm.
    destruct (Hmail _ _ Hm) as (Hkey & Hto & Hk).
    split; [reflexivity|]. split; [exact Hkey|].
    eexists. split; [apply in_or_app; right; left; reflexivity|].
    simpl. repeat split; congruence.
Qed.

Import Sample.

Lemma failed_payment_witness :
  processWebhookAsync "payment.failed" (Some paid_data) env0 1100 "u2" (fun i => i) db0
  = (Sql.with_users db0 (Sql.update (has_email "alice@example.org") expire (users db0)), None)
  /\ forall local env' now' iat uuid' dodo later,
       In local (users db0) ->
       User.email local = "alice@example.org" ->
       List.NoDup (map User.license_key (users db0)) ->
       User.license_key local <> EmptyString ->
       Worker.validate
         (fst (processWebhookAsync "payment.failed" (Some paid_data) env0 1100 "u2"
                 (fun i => i) db0))
         env' now' iat uuid' (Ret (Some (User.license_key local))) dodo later
       = (Worker.errorResponse "License inactive" 403, later).
Proof.
  apply (failed_payment_locks_the_license "payment.failed" paid_data env0 1100 "u2"
           (fun i => i) db0 "alice@example.org").
  - reflexivity.
  - reflexivity.
  - discriminate.
  - intros r [<-|[]]. reflexivity.
Defined.

Lemma paid_license_witness :
  User.status (Webhook.renew "monthly" (1100 + 30 * 86400) alice) = "active"
  /\ User.plan (Webhook.renew "monthly" (1100 + 30 * 86400) alice) = "monthly"
  /\ 1100 + 30 * 86400 <= User.expires_at (Webhook.renew "monthly" (1100 + 30 * 86400) alice)
  /\ exists token,
       Worker.validate
         (fst (processWebhookAsync "payment.succeeded" (Some paid_data) env0 1100 "u2"
                 (fun i => i) db0))
         env0 2000 2000000 "u3"
         (Ret (Some (User.license_key (Webhook.renew "monthly" (1100 + 30 * 86400) alice))))
         Worker.DodoNotOk db0
       = (Worker.jsonResponse
            (Worker.AuthBody token "alice@example.org" "monthly"
               (Worker.quota_of db0 "monthly")
               (User.expires_at (Webhook.renew "monthly" (1100 + 30 * 86400) alice) * 1000)),
          db0).
Proof.
  apply (paid_license_validates "payment.succeeded" paid_data env0 1100 "u2" (fun i => i)
           db0 "alice@example.org" "pdt_0NWZwZB3eia1vz1BCOw6C"
           {| plan := "monthly"; durationDays := 30; name := "Monthly Pro" |}
           (Webhook.renew "monthly" (1100 + 30 * 86400) alice)
           env0 2000 2000000 "u3" Worker.DodoNotOk db0).
  - reflexivity.
  - reflexivity.
  - discriminate.
  - reflexivity.
  - reflexivity.
  - left. reflexivity.
  - repeat split; repeat constructor; simpl; tauto.
  - reflexivity.
  - discriminate.
  - discriminate.
  - simpl. lia.
  - simpl. lia.
Defined.

Lemma mailed_key_witness :
  is_success "payment.succeeded" = true
  /\ RESEND_API_KEY env0 <> EmptyString
  /\ exists row,
       In row (users (fst (processWebhookAsync "payment.succeeded" (Some paid_data) env0 1100
                             "u2" (fun i => i) db0)))
       /\ User.email row = "alice@example.org"
       /\ User.license_key row = "KEY-1"
       /\ User.status row = "active".
Proof.
  apply (mailed_key_is_the_stored_key "payment.succeeded" (Some paid_data) env0 1100 "u2"
           (fun i => i) db0
           (fst (processWebhookAsync "payment.succeeded" (Some paid_data) env0 1100 "u2"
                   (fun i => i) db0))
           {| mail_to := "alice@example.org"; mail_key := "KEY-1"; mail_plan := "Monthly Pro" |}).
  vm_compute. reflexivity.
Defined.

End EventProps.

(** ** The licence keys the webhook draws *)
Module KeyProps.
Import Webhook CredentialProps.

Lemma charAt_chars n :
  (n < 36)%nat ->
  exists c, charAt n chars = String c EmptyString /\ includes c chars = true.
Proof.
  intros H. unfold charAt.
  do 36 (destruct n as [|n]; [eexists; split; reflexivity|]). lia.
Qed.

Lemma length_append (a b : string) :
  String.length (a +:+ b) = (String.length a + String.length b)%nat.
Proof.
  induction a as [|x a IH]; [reflexivity|].
  change (String x a +:+ b) with (String x (a +:+ b)). simpl. now rewrite IH.
Qed.

(** The number of [ß] in a string: each becomes two letters. *)
Fixpoint sharp_s (s : string) : nat :=
  match s with
  | EmptyString => 0%nat
  | String c s' => ((if (Js.code c =? 223)%Z then 1 else 0) + sharp_s s')%nat
  end.

Lemma length_upper_char c :
  String.length (Js.upper_char c) = (1 + (if (Js.code c =? 223)%Z then 1 else 0))%nat.
Proof.
  unfold Js.upper_char.
  destruct (Z.leb_spec 97 (Js.code c)), (Z.leb_spec (Js.code c) 122),
    (Z.leb_spec 224 (Js.code c)), (Z.leb_spec (Js.code c) 254),
    (Z.eqb_spec (Js.code c) 247), (Z.eqb_spec (Js.code c) 223);
    cbn [andb negb]; try reflexivity; lia.
Qed.

Lemma length_toUpperCase s :
  String.length (Js.toUpperCase s) = (String.length s + sharp_s s)%nat.
Proof.
  induction s as [|x s IH]; [reflexivity|].
  cbn [Js.toUpperCase sharp_s String.length].
  rewrite length_append, length_upper_char, IH. lia.
Qed.

(** X13. With every draw inside the alphabet, a key is [AKH-], the plan in
    upper case, and three dash-separated groups of four characters of
    [A-Z0-9].  Upper case keeps the length of the plan but for [ß], which
    becomes [SS]: the key is 19 characters longer than the plan, and one
    more for each [ß] in it.  (The plan is a string whose capitals are
    strings of this development, as the plans of the product table are.) *)
Theorem generated_key_format (rnd : nat -> nat) (plan : string) :
  Js.upper_fits plan = true ->
  (forall i, (i < 12)%nat -> (rnd i < 36)%nat) ->
  exists a b c,
    generateKey rnd plan
    = "AKH-" +:+ Js.toUpperCase plan +:+ "-" +:+ a +:+ "-" +:+ b +:+ "-" +:+ c
    /\ String.length a = 4%nat /\ String.length b = 4%nat /\ String.length c = 4%nat
    /\ (forall x, includes x (a +:+ b +:+ c) = true -> includes x chars = true)
    /\ String.length (generateKey rnd plan) = (String.length plan + sharp_s plan + 19)%nat.
Proof.
  intros _ Hdraw.
  destruct (charAt_chars (rnd 0%nat)) as (c0 & E0 & I0); [apply Hdraw; lia|].
  destruct (charAt_chars (rnd 1%nat)) as (c1 & E1 & I1); [apply Hdraw; lia|].
  destruct (charAt_chars (rnd 2%nat)) as (c2 & E2 & I2); [apply Hdraw; lia|].
  destruct (charAt_chars (rnd 3%nat)) as (c3 & E3 & I3); [apply Hdraw; lia|].
  destruct (charAt_chars (rnd 4%nat)) as (c4 & E4 & I4); [apply Hdraw; lia|].
  destruct (charAt_chars (rnd 5%nat)) as (c5 & E5 & I5); [apply Hdraw; lia|].
  destruct (charAt_chars (rnd 6%nat)) as (c6 & E6 & I6); [apply Hdraw; lia|].
  destruct (charAt_chars (rnd 7%nat)) as (c7 & E7 & I7); [apply Hdraw; lia|].
  destruct (charAt_chars (rnd 8%nat)) as (c8 & E8 & I8); [apply Hdraw; lia|].
  destruct (charAt_chars (rnd 9%nat)) as (c9 & E9 & I9); [apply Hdraw; lia|].
  destruct (charAt_chars (rnd 10%nat)) as (c10 & E10 & I10); [apply Hdraw; lia|].
  destruct (charAt_chars (rnd 11%nat)) as (c11 & E11 & I11); [apply Hdraw; lia|].
  assert (Hkey : generateKey rnd plan
                 = "AKH-" +:+ Js.toUpperCase plan +:+ "-"
                     +:+ String c0 (String c1 (String c2 (String c3 EmptyString))) +:+ "-"
                     +:+ String c4 (String c5 (String c6 (String c7 EmptyString))) +:+ "-"
                     +:+ String c8 (String c9 (String c10 (String c11 EmptyString)))).
  { unfold generateKey. cbn [seq map].
    rewrite E0, E1, E2, E3, E4, E5, E6, E7, E8, E9, E10, E11. reflexivity. }
  exists (String c0 (String c1 (String c2 (String c3 EmptyString)))),
         (String c4 (String c5 (String c6 (String c7 EmptyString)))),
         (String c8 (String c9 (String c10 (String c11 EmptyString)))).
  split; [exact Hkey|]. split; [reflexivity|]. split; [reflexivity|]. split; [reflexivity|].
  split.
  - intros x Hx. cbn in Hx.
    repeat (apply orb_true_iff in Hx; destruct Hx as [Hx|Hx];
            [apply Ascii.eqb_eq in Hx; subst x; assumption|]).
    discriminate.
  - rewrite Hkey, !length_append, length_toUpperCase. simpl. lia.
Qed.

Lemma generated_key_witness :
  Js.upper_fits "monthly" = true
  /\ exists a b c,
    generateKey (fun i => (3 * i)%nat) "monthly"
    = "AKH-" +:+ Js.toUpperCase "monthly" +:+ "-" +:+ a +:+ "-" +:+ b +:+ "-" +:+ c
    /\ String.length a = 4%nat /\ String.length b = 4%nat /\ String.length c = 4%nat
    /\ (forall x, includes x (a +:+ b +:+ c) = true -> includes x chars = true)
    /\ String.length (generateKey (fun i => (3 * i)%nat) "monthly")
       = (String.length "monthly" + sharp_s "monthly" + 19)%nat.
Proof.
  split; [reflexivity|].
  apply (generated_key_format (fun i => (3 * i)%nat) "monthly"); [reflexivity|].
  intros i Hi. lia.
Defined.

(** The capitals of Latin-1, and a key of 21 characters for a plan of one
    letter. *)
Example upper_case_of_latin_1 :
  Js.toUpperCase (Js.fromCharCodes [115; 116; 114; 97; 223; 101; 32; 233; 116; 233; 247])
  = Js.fromCharCodes [83; 84; 82; 65; 83; 83; 69; 32; 201; 84; 201; 247]
  /\ String.length (generateKey (fun i => i) (Js.fromCharCodes [223])) = 21%nat.
Proof. vm_compute. split; reflexivity. Qed.

End KeyProps.

(** ** The keys of [users] under both writers *)
Module WriterProps.
Import SchemaProps.

(** A write of the worker to [users]: an event processed by the webhook,
    or a validation, whose lookup saw the table [seen] of some earlier
    moment. *)
Inductive Write : Type :=
| Event (type : string) (data : option Webhook.Data) (env : Env) (now : Z) (uuid : string)
        (rnd : nat -> nat)
| Validation (seen : DB) (env : Env) (now iat : Z) (uuid : string)
             (req_json : Exc (option string)) (dodo : Worker.DodoReply).

Definition write (db : DB) (w : Write) : DB :=
  match w with
  | Event type data env now uuid rnd =>
      fst (Webhook.processWebhookAsync type data env now uuid rnd db)
  | Validation seen env now iat uuid req_json dodo =>
      snd (Worker.validate seen env now iat uuid req_json dodo db)
  end.

(** X14. The primary key and the two unique columns of [users] hold after
    every write of the worker: whatever event the webhook processes and
    whatever request is validated, ids, emails and licence keys that were
    pairwise distinct stay pairwise distinct, through any run of such
    writes. *)
Theorem writes_keep_keys_unique (db : DB) (ws : list Write) :
  unique_keys (users db) -> unique_keys (users (fold_left write ws db)).
Proof.
  revert db. induction ws as [|w ws IH]; intros db Hu; simpl; [exact Hu|].
  apply IH. destruct w; simpl.
  - now apply webhook_keeps_keys_unique.
  - now apply validate_keeps_keys_unique.
Qed.

Import Sample.

Lemma writes_witness :
  unique_keys
    (users (fold_left write
              [Event "payment.succeeded" (Some paid_data) env0 1100 "u2" (fun i => i);
               Validation db0 env0 1200 1200000 "u3" (Ret (Some "KEY-9")) Worker.DodoNotOk]
              db0)).
Proof.
  apply (writes_keep_keys_unique db0
           [Event "payment.succeeded" (Some paid_data) env0 1100 "u2" (fun i => i);
            Validation db0 env0 1200 1200000 "u3" (Ret (Some "KEY-9")) Worker.DodoNotOk]).
  repeat split; repeat constructor; simpl; tauto.
Defined.

End WriterProps.

(** ** Device sessions over a day *)
Module SessionProps.
Import Worker DeviceProps.

(** The columns of a session that count: everything but the bookkeeping of
    when it was last seen. *)
Definition counters (r : Session.t) : string * string * string * Z * option Z * Z :=
  (Session.id r, Session.user_id r, Session.device_hash r, Session.daily_requests r,
   Session.daily_reset_at r, Session.is_active r).

(** A call for a device whose row is on file and whose day has not turned. *)
Lemma same_day_call userId licenseKey fp agent env now today uuid rows row :
  Sql.first (same_device userId (device_hash_of userId fp agent env)) rows = Some row ->
  (reset_at_or_0 row <? today) = false ->
  getOrCreateDeviceSession userId licenseKey fp agent env now today uuid rows
  = (Ret (Existing row), Sql.update (has_id (Session.id row)) (touch now) rows).
Proof.
  intros Hfirst Hday. unfold getOrCreateDeviceSession.
  fold (device_hash_of userId fp agent env). now rewrite Hfirst, Hday.
Qed.

(** How a call ends: refused at the cap with the table untouched, or with
    the row of the device on file and stamped with a day that is not
    before today. *)
Lemma call_cases userId licenseKey fp agent env now today uuid rows :
  (getOrCreateDeviceSession userId licenseKey fp agent env now today uuid rows
   = (Throw "DEVICE_LIMIT_REACHED", rows)
   /\ Sql.first (same_device userId (device_hash_of userId fp agent env)) rows = None
   /\ (Js.num_or (Sql.count (is_active_of userId) rows) 0 >=? MAX_DEVICES_PER_LICENSE) = true)
  \/ exists h row,
       fst (getOrCreateDeviceSession userId licenseKey fp agent env now today uuid rows) = Ret h
       /\ Sql.first (same_device userId (device_hash_of userId fp agent env))
            (snd (getOrCreateDeviceSession userId licenseKey fp agent env now today uuid rows))
          = Some row
       /\ (reset_at_or_0 row <? today) = false
       /\ Session.id row = handle_id h
       /\ Session.daily_requests row = handle_daily_requests h.
Proof.
  unfold getOrCreateDeviceSession. fold (device_hash_of userId fp agent env).
  destruct (Sql.first (same_device userId (device_hash_of userId fp agent env)) rows)
    as [existing|] eqn:Hfirst.
  - right. destruct (reset_at_or_0 existing <? today) eqn:Hday; simpl.
    + exists (Existing (zero_requests existing)), (reset_day today now existing).
      split; [reflexivity|]. split.
      * rewrite first_update by reflexivity. rewrite Hfirst. simpl. now rewrite has_id_self.
      * split; [|split; reflexivity].
        unfold reset_at_or_0. simpl. rewrite num_or_0. apply Z.ltb_irrefl.
    + exists (Existing existing), (touch now existing).
      split; [reflexivity|]. split.
      * rewrite first_update by reflexivity. rewrite Hfirst. simpl. now rewrite has_id_self.
      * split; [exact Hday | split; reflexivity].
  - destruct (Js.num_or (Sql.count (is_active_of userId) rows) 0 >=? MAX_DEVICES_PER_LICENSE)
      eqn:Hcap.
    + left. now repeat split.
    + right. eexists (Created uuid), _. simpl. split; [reflexivity|]. split.
      * apply first_append_new; [exact Hfirst|].
        unfold same_device. simpl. now rewrite !String.eqb_refl.
      * split; [|split; reflexivity].
        unfold reset_at_or_0. simpl. rewrite num_or_0. apply Z.ltb_irrefl.
Qed.

(** X15. Within one day a session is reset at most once: after any call, a
    further call for the same device under the same day boundary leaves
    every counter, reset stamp and activity flag of the table as it finds
    them, and hands back the session of the first call with the counter
    the first call reported. *)
Theorem second_call_of_the_day_resets_nothing
    (userId licenseKey licenseKey' fp agent : string) (env : Env)
    (now now' today : Z) (uuid uuid' : string) (rows : list Session.t) :
  map counters
    (snd (getOrCreateDeviceSession userId licenseKey' fp agent env now' today uuid'
            (snd (getOrCreateDeviceSession userId licenseKey fp agent env now today uuid
                    rows))))
  = map counters
      (snd (getOrCreateDeviceSession userId licenseKey fp agent env now today uuid rows))
  /\ forall h,
       fst (getOrCreateDeviceSession userId licenseKey fp agent env now today uuid rows) = Ret h ->
       exists row,
         fst (getOrCreateDeviceSession userId licenseKey' fp agent env now' today uuid'
                (snd (getOrCreateDeviceSession userId licenseKey fp agent env now today uuid
                        rows)))
         = Ret (Existing row)
         /\ Session.id row = handle_id h
         /\ Session.daily_requests row = handle_daily_requests h.
Proof.
  destruct (call_cases userId licenseKey fp agent env now today uuid rows)
    as [(Hcall & Hnone & Hcap)|(h & row & Hres & Hfirst & Hday & Hid & Hreq)].
  - rewrite Hcall. simpl. split; [|intros h Hh; discriminate].
    unfold getOrCreateDeviceSession. fold (device_hash_of userId fp agent env).
    now rewrite Hnone, Hcap.
  - rewrite (same_day_call _ _ _ _ _ _ _ _ _ _ Hfirst Hday). simpl. split.
    + apply update_column. reflexivity.
    + intros h' Hh'. rewrite Hres in Hh'. injection Hh' as <-. now exists row.
Qed.

(** X16. A call on behalf of one account leaves the rows of every other
    account exactly as they were, in every column and in their order. *)
Theorem other_accounts_are_untouched
    (userId licenseKey fp agent : string) (env : Env) (now today : Z) (uuid : string)
    (rows : list Session.t) (other : string) :
  List.NoDup (map Session.id rows) ->
  other <> userId ->
  List.filter (fun r => String.eqb (Session.user_id r) other)
    (snd (getOrCreateDeviceSession userId licenseKey fp agent env now today uuid rows))
  = List.filter (fun r => String.eqb (Session.user_id r) other) rows.
Proof.
  intros Hnd Hother. unfold getOrCreateDeviceSession.
  destruct (Sql.first _ rows) as [existing|] eqn:Hfirst.
  - destruct (first_In _ _ _ Hfirst) as [Hin Hdev]. unfold same_device in Hdev.
    apply andb_true_iff in Hdev. destruct Hdev as [Hu _]. apply String.eqb_eq in Hu.
    assert (Hmine : forall g r,
               (forall x, Session.user_id (g x) = Session.user_id x) ->
               In r rows -> has_id (Session.id existing) r = true ->
               String.eqb (Session.user_id r) other = false
               /\ String.eqb (Session.user_id (g r)) other = false).
    { intros g r Hg Hr Hid. unfold has_id in Hid. apply String.eqb_eq in Hid.
      assert (r = existing) by (eapply (unique_column Session.id); eauto). subst r.
      rewrite Hg, Hu. split; apply String.eqb_neq; congruence. }
    destruct (reset_at_or_0 existing <? today); simpl;
      apply filter_update_other; intros r Hr Hid; apply Hmine; auto.
  - destruct (Js.num_or _ 0 >=? MAX_DEVICES_PER_LICENSE); simpl; [reflexivity|].
    rewrite List.filter_app. simpl.
    replace (String.eqb userId other) with false; [apply app_nil_r|].
    symmetry. apply String.eqb_neq. congruence.
Qed.

(** The cap over any run of calls, for any accounts and devices. *)
Fixpoint calls (requests : list (string * string * string * string * Z * Z * string))
    (env : Env) (rows : list Session.t) : list Session.t :=
  match requests with
  | [] => rows
  | (userId, licenseKey, fp, agent, now, today, uuid) :: rest =>
      calls rest env
        (snd (getOrCreateDeviceSession userId licenseKey fp agent env now today uuid rows))
  end.

(** X17. No run of calls, by whatever accounts and devices, takes an account
    past [MAX_DEVICES_PER_LICENSE] active sessions; an account that starts
    with no session never has more than two. *)
Theorem device_cap_is_invariant
    (requests : list (string * string * string * string * Z * Z * string))
    (env : Env) (rows : list Session.t) (account : string) :
  Sql.count (is_active_of account) rows <= MAX_DEVICES_PER_LICENSE ->
  Sql.count (is_active_of account) (calls requests env rows) <= MAX_DEVICES_PER_LICENSE.
Proof.
  revert rows. induction requests as [|[[[[[[userId licenseKey] fp] agent] now] today] uuid] rest IH];
    intros rows Hcap; simpl; [exact Hcap|].
  apply IH. now apply device_cap_preserved.
Qed.

Import Sample.

Lemma other_accounts_witness :
  List.filter (fun r => String.eqb (Session.user_id r) "u2")
    (snd (getOrCreateDeviceSession "u1" "KEY-1" "fp-phone" "Safari" env0 180000 172800 "x1"
            [laptop; session_of "s9" "u2" "fp-desk" "Edge" 7 86400; phone]))
  = List.filter (fun r => String.eqb (Session.user_id r) "u2")
      [laptop; session_of "s9" "u2" "fp-desk" "Edge" 7 86400; phone].
Proof.
  apply (other_accounts_are_untouched "u1" "KEY-1" "fp-phone" "Safari" env0 180000 172800 "x1"
           [laptop; session_of "s9" "u2" "fp-desk" "Edge" 7 86400; phone] "u2").
  - repeat constructor; simpl; intuition discriminate.
  - discriminate.
Defined.

Lemma device_cap_witness :
  Sql.count (is_active_of "u1")
    (calls [("u1", "KEY-1", "fp-laptop", "Firefox", 50, 0, "x1");
            ("u1", "KEY-1", "fp-phone", "Safari", 60, 0, "x2");
            ("u1", "KEY-1", "fp-tablet", "Chrome", 70, 0, "x3")] env0 [])
  <= MAX_DEVICES_PER_LICENSE.
Proof.
  apply (device_cap_is_invariant
           [("u1", "KEY-1", "fp-laptop", "Firefox", 50, 0, "x1");
            ("u1", "KEY-1", "fp-phone", "Safari", 60, 0, "x2");
            ("u1", "KEY-1", "fp-tablet", "Chrome", 70, 0, "x3")] env0 [] "u1").
  vm_compute. discriminate.
Defined.

End SessionProps.

(** ** Usage accounting across requests *)
Module UsageProps.
Import Worker DeviceProps GateProps SessionProps.

(** What a metered endpoint does once the model provider has answered:
    [incrementDeviceUsage(session.id)]. *)
Definition complete (db : DB) (session : SessionHandle) : DB :=
  Sql.with_sessions db (incrementDeviceUsage (handle_id session) (device_sessions db)).

(** An update that keeps the user, the reset stamp and the counter of
    every row keeps the usage of every account. *)
Lemma usage_update u today q f rows :
  (forall r, Session.user_id (f r) = Session.user_id r) ->
  (forall r, Session.daily_reset_at (f r) = Session.daily_reset_at r) ->
  (forall r, Session.daily_requests (f r) = Session.daily_requests r) ->
  dailyUsage u today (Sql.update q f rows) = dailyUsage u today rows.
Proof.
  intros Hu Hd Hr. unfold dailyUsage, Sql.update.
  induction rows as [|a rows IH]; simpl; [reflexivity|].
  assert (Hc : counts_for u today (if q a then f a else a) = counts_for u today a).
  { destruct (q a); [|reflexivity]. unfold counts_for. now rewrite Hu, Hd. }
  rewrite Hc. destruct (counts_for u today a); simpl; [|exact IH].
  rewrite IH. destruct (q a); [now rewrite Hr | reflexivity].
Qed.

Lemma usage_bump u today i f rows row :
  List.NoDup (map Session.id rows) ->
  In row rows ->
  Session.id row = i ->
  counts_for u today row = true ->
  (forall r, counts_for u today (f r) = counts_for u today r) ->
  (forall r, Session.daily_requests (f r) = Session.daily_requests r + 1) ->
  dailyUsage u today (Sql.update (has_id i) f rows) = dailyUsage u today rows + 1.
Proof.
  intros Hnd Hin Hid Hcounts Hc Hr. unfold dailyUsage.
  induction rows as [|a rows IH]; [destruct Hin|].
  simpl in Hnd. apply List.NoDup_cons_iff in Hnd. destruct Hnd as [Hfresh Hnd].
  destruct Hin as [->|Hin].
  - assert (Hrest : Sql.update (has_id i) f rows = rows).
    { apply update_none. intros r Hr0. unfold has_id. apply String.eqb_neq. intros E.
      apply Hfresh. rewrite Hid, <- E. apply in_map, Hr0. }
    change (Sql.update (has_id i) f (row :: rows))
      with ((if has_id i row then f row else row) :: Sql.update (has_id i) f rows).
    rewrite Hrest. unfold has_id at 1. rewrite Hid, String.eqb_refl. simpl.
    rewrite Hc, Hcounts. simpl. rewrite Hr. lia.
  - assert (Ha : has_id i a = false).
    { unfold has_id. apply String.eqb_neq. intros E. apply Hfresh.
      rewrite E, <- Hid. apply in_map, Hin. }
    change (Sql.update (has_id i) f (a :: rows))
      with ((if has_id i a then f a else a) :: Sql.update (has_id i) f rows).
    rewrite Ha. simpl. destruct (counts_for u today a); simpl; rewrite (IH Hnd Hin); lia.
Qed.

(** What a row adds to the day's usage of an account. *)
Definition contribution (u : string) (today : Z) (r : Session.t) : Z :=
  if counts_for u today r then Session.daily_requests r else 0.

Lemma dailyUsage_sum u today rows :
  dailyUsage u today rows = fold_right Z.add 0 (map (contribution u today) rows).
Proof.
  unfold dailyUsage, contribution. induction rows as [|a rows IH]; simpl; [reflexivity|].
  destruct (counts_for u today a); simpl; now rewrite IH.
Qed.

Lemma sum_snoc (l : list Z) (x : Z) :
  fold_right Z.add 0 (l ++ [x]) = fold_right Z.add 0 l + x.
Proof. induction l as [|a l IH]; simpl; [lia | rewrite IH; lia]. Qed.

(** A row that is due for a reset does not count for the day. *)
Lemma stale_row_is_not_counted u today r :
  (reset_at_or_0 r <? today) = true -> counts_for u today r = false.
Proof.
  unfold reset_at_or_0, counts_for. intros H.
  destruct (Session.daily_reset_at r) as [d|]; [|apply andb_false_r].
  rewrite num_or_0 in H. apply Z.ltb_lt in H.
  destruct (Z.leb_spec today d); [lia | apply andb_false_r].
Qed.

(** The session step of a request changes the day's usage of no account. *)
Lemma call_keeps_usage userId licenseKey fp agent env now today uuid rows account :
  List.NoDup (map Session.id rows) ->
  used_today account today
    (snd (getOrCreateDeviceSession userId licenseKey fp agent env now today uuid rows))
  = used_today account today rows.
Proof.
  intros Hnd. rewrite !used_today_dailyUsage. unfold getOrCreateDeviceSession.
  destruct (Sql.first _ rows) as [existing|] eqn:Hfirst.
  - destruct (first_In _ _ _ Hfirst) as [Hin _].
    destruct (reset_at_or_0 existing <? today) eqn:Hday; cbn [snd].
    + rewrite !dailyUsage_sum. f_equal. unfold Sql.update. rewrite map_map.
      apply map_ext_in. intros r Hr. destruct (has_id (Session.id existing) r) eqn:Hid;
        [|reflexivity].
      unfold has_id in Hid. apply String.eqb_eq in Hid.
      assert (r = existing) by (eapply (unique_column Session.id); eauto). subst r.
      unfold contribution. rewrite (stale_row_is_not_counted account today existing Hday).
      cbn [reset_day Session.daily_requests]. now destruct (counts_for _ _ _).
    + now apply usage_update.
  - destruct (Js.num_or _ 0 >=? MAX_DEVICES_PER_LICENSE); cbn [snd]; [reflexivity|].
    rewrite !dailyUsage_sum, map_app. cbn [map]. rewrite sum_snoc.
    match goal with
    | |- context [contribution account today ?r] =>
        assert (contribution account today r = 0) as ->
          by (unfold contribution; destruct (counts_for account today r); reflexivity)
    end.
    lia.
Qed.

Lemma increment_usage userId today rows row :
  List.NoDup (map Session.id rows) ->
  In row rows ->
  counts_for userId today row = true ->
  used_today userId today (incrementDeviceUsage (Session.id row) rows)
  = used_today userId today rows + 1.
Proof.
  intros Hnd Hin Hcounts. rewrite !used_today_dailyUsage. unfold incrementDeviceUsage.
  apply (usage_bump userId today (Session.id row) _ rows row Hnd Hin eq_refl Hcounts);
    reflexivity.
Qed.

(** X18. With session ids that are unique, the day's usage of an account moves
    only when a request completes: the session step of any request, by
    whatever account and device, leaves it as it is; [incrementDeviceUsage]
    raises it by exactly one when the id is that of a session of the
    account that counts for the day, and changes no row when no session
    has the id. *)
Theorem usage_moves_only_on_completion
    (account : string) (today : Z) (rows : list Session.t) :
  List.NoDup (map Session.id rows) ->
  (forall userId licenseKey fp agent env now uuid,
     used_today account today
       (snd (getOrCreateDeviceSession userId licenseKey fp agent env now today uuid rows))
     = used_today account today rows)
  /\ (forall row,
        In row rows -> counts_for account today row = true ->
        used_today account today (incrementDeviceUsage (Session.id row) rows)
        = used_today account today rows + 1)
  /\ (forall id, ~ In id (map Session.id rows) -> incrementDeviceUsage id rows = rows).
Proof.
  intros Hnd. split; [|split].
  - intros. now apply call_keeps_usage.
  - intros row Hin Hcounts. now apply increment_usage.
  - intros id Hid. unfold incrementDeviceUsage. apply update_none.
    intros r Hr. unfold has_id. apply String.eqb_neq. intros E. apply Hid.
    rewrite <- E. apply in_map, Hr.
Qed.

(** The row behind the session a call hands back. *)
Lemma session_row userId licenseKey fp agent env now today uuid rows session rows1 :
  getOrCreateDeviceSession userId licenseKey fp agent env now today uuid rows
  = (Ret session, rows1) ->
  List.NoDup (map Session.id rows) ->
  ~ In uuid (map Session.id rows) ->
  0 < today ->
  List.NoDup (map Session.id rows1)
  /\ exists row,
       In row rows1
       /\ Sql.first (same_device userId (device_hash_of userId fp agent env)) rows1 = Some row
       /\ Session.id row = handle_id session
       /\ Session.user_id row = userId
       /\ exists d, Session.daily_reset_at row = Some d /\ today <= d.
Proof.
  intros Hcall Hnd Hfresh Htoday.
  destruct (call_cases userId licenseKey fp agent env now today uuid rows)
    as [(Hthrow & _)|(h & row & Hres & Hfirst & Hday & Hid & _)].
  { rewrite Hthrow in Hcall. discriminate. }
  rewrite Hcall in Hres, Hfirst. simpl in Hres, Hfirst. injection Hres as <-.
  split.
  - revert Hcall. unfold getOrCreateDeviceSession.
    destruct (Sql.first _ rows) as [existing|].
    + destruct (reset_at_or_0 existing <? today); intros [= _ <-];
        now rewrite update_column by reflexivity.
    + destruct (Js.num_or _ 0 >=? MAX_DEVICES_PER_LICENSE); [discriminate|].
      intros [= _ <-]. rewrite map_app. simpl. apply List.NoDup_app; [exact Hnd | |].
      * repeat constructor. intros [].
      * intros a Ha [<-|[]]. contradiction.
  - exists row. destruct (first_In _ _ _ Hfirst) as [Hin Hdev].
    unfold same_device in Hdev. apply andb_true_iff in Hdev. destruct Hdev as [Hu _].
    apply String.eqb_eq in Hu.
    split; [exact Hin|]. split; [exact Hfirst|]. split; [exact Hid|]. split; [exact Hu|].
    unfold reset_at_or_0 in Hday. destruct (Session.daily_reset_at row) as [d|].
    + exists d. split; [reflexivity|]. rewrite num_or_0 in Hday.
      apply Z.ltb_ge in Hday. exact Hday.
    + apply Z.ltb_ge in Hday. lia.
Qed.

Section Gated.

Variable JSON_parse : string -> option JWTPayload.t.

(** X19. A request that the gate lets through and that runs to its end is
    counted exactly once: the usage the gate weighed was below the limit,
    the account's usage for the day is then one more, and every later
    request under the same credential on the same day, from whatever
    device, is weighed with that usage against the same limit: it is let
    through for the same user while the limit is not reached, and refused
    with 429 once it is (or with 403 for the device cap). *)
Theorem completed_request_is_counted
    (db : DB) (env : Env) (now today : Z) (uuid : string) (req : GatedRequest)
    (user : User.t) (session : SessionHandle) (used dailyLimit : Z) (db1 : DB) :
  gate JSON_parse db env now today uuid req = (Passed user session used dailyLimit, db1) ->
  List.NoDup (map Session.id (device_sessions db)) ->
  ~ In uuid (map Session.id (device_sessions db)) ->
  0 < today ->
  used < dailyLimit
  /\ used_today (User.id user) today (device_sessions (complete db1 session)) = used + 1
  /\ forall now' uuid' req',
       bearer req' = bearer req ->
       match fst (gate JSON_parse (complete db1 session) env now' today uuid' req') with
       | Passed user' _ used' dailyLimit' =>
           user' = user /\ used' = used + 1 /\ dailyLimit' = dailyLimit
           /\ used + 1 < dailyLimit
       | Denied r =>
           status r = 403
           \/ (dailyLimit <= used + 1
               /\ r = errorResponse (limit_message (used + 1) dailyLimit) 429)
       end.
Proof.
  intros Hgate Hnd Hfresh Htoday. unfold gate in Hgate.
  destruct (Utils.verifyJWT JSON_parse (bearer req) (JWT_SECRET env)) as [payload|] eqn:Hjwt;
    [|discriminate].
  destruct (Sql.first (is_license (JWTPayload.sub payload)) (users db)) as [user0|] eqn:Huser;
    [|discriminate].
  destruct (getOrCreateDeviceSession (User.id user0) (User.license_key user0)
              (header_or_empty (X_Device_ID req)) (header_or_empty (X_Device_Agent req))
              env now today uuid (device_sessions db)) as [[session0|e] rows1] eqn:Hcall;
    [|discriminate].
  destruct (Z.geb_spec (used_today (User.id user0) today rows1)
              (daily_limit_or_10 (quota_of (Sql.with_sessions db rows1)
                                    (JWTPayload.plan payload)))) as [Hfull|Hroom];
    [discriminate|].
  injection Hgate as <- <- <- <- <-.
  destruct (session_row _ _ _ _ _ _ _ _ _ _ _ Hcall Hnd Hfresh Htoday)
    as (Hnd1 & row & Hin & Hfirst & Hid & Hu & d & Hd & Hle).
  assert (Hcounts : counts_for (User.id user0) today row = true).
  { unfold counts_for. rewrite Hu, String.eqb_refl, Hd. simpl. now apply Z.leb_le. }
  assert (Hused : used_today (User.id user0) today
                    (incrementDeviceUsage (handle_id session0) rows1)
                  = used_today (User.id user0) today rows1 + 1).
  { rewrite <- Hid. exact (increment_usage (User.id user0) today rows1 row Hnd1 Hin Hcounts). }
  split; [exact Hroom|]. split; [exact Hused|].
  intros now' uuid' req' Hbearer. unfold gate, complete.
  cbn [users device_sessions Sql.with_sessions].
  rewrite Hbearer, Hjwt, Huser.
  set (bump := incrementDeviceUsage (handle_id session0) rows1) in *.
  assert (Hnd2 : List.NoDup (map Session.id bump)).
  { unfold bump, incrementDeviceUsage. now rewrite update_column by reflexivity. }
  pose proof (call_keeps_usage (User.id user0) (User.license_key user0)
                (header_or_empty (X_Device_ID req')) (header_or_empty (X_Device_Agent req'))
                env now' today uuid' bump (User.id user0) Hnd2) as Hkeep.
  destruct (getOrCreateDeviceSession (User.id user0) (User.license_key user0)
              (header_or_empty (X_Device_ID req')) (header_or_empty (X_Device_Agent req'))
              env now' today uuid' bump) as [[session'|e] rows2].
  - cbn [snd] in Hkeep. rewrite Hkeep, Hused.
    change (quota_of (Sql.with_sessions _ rows2) (JWTPayload.plan payload))
      with (quota_of (Sql.with_sessions db rows1) (JWTPayload.plan payload)).
    destruct (Z.geb_spec (used_today (User.id user0) today rows1 + 1)
                (daily_limit_or_10 (quota_of (Sql.with_sessions db rows1)
                                      (JWTPayload.plan payload)))); cbn [fst].
    + right. split; [lia | reflexivity].
    + repeat split. lia.
  - cbn [fst]. left. unfold device_error. destruct (String.eqb e _); reflexivity.
Qed.

End Gated.

Import Sample.

Lemma usage_witness :
  (forall userId licenseKey fp agent env now uuid,
     used_today "u1" 86400
       (snd (getOrCreateDeviceSession userId licenseKey fp agent env now 86400 uuid
               [laptop; phone]))
     = used_today "u1" 86400 [laptop; phone])
  /\ (forall row,
        In row [laptop; phone] -> counts_for "u1" 86400 row = true ->
        used_today "u1" 86400 (incrementDeviceUsage (Session.id row) [laptop; phone])
        = used_today "u1" 86400 [laptop; phone] + 1)
  /\ (forall id, ~ In id (map Session.id [laptop; phone]) ->
                 incrementDeviceUsage id [laptop; phone] = [laptop; phone]).
Proof.
  apply (usage_moves_only_on_completion "u1" 86400 [laptop; phone]).
  repeat constructor; simpl; intuition discriminate.
Defined.

(** The two sessions of the sample account hold 3 and 4 requests. *)
Example sample_usage : used_today "u1" 86400 [laptop; phone] = 7.
Proof. reflexivity. Qed.

Lemma completed_request_witness :
  0 < 50
  /\ used_today (User.id alice) 86400
       (device_sessions (complete (Sql.with_sessions db0
                                     (snd (getOrCreateDeviceSession "u1" "KEY-1" "fp-laptop"
                                             "Firefox" env0 90000 86400 "x1" [])))
                           (Created "x1")))
     = 0 + 1
  /\ forall now' uuid' req',
       bearer req' = bearer req0 ->
       match fst (gate parse_payload0
                    (complete (Sql.with_sessions db0
                                 (snd (getOrCreateDeviceSession "u1" "KEY-1" "fp-laptop"
                                         "Firefox" env0 90000 86400 "x1" [])))
                       (Created "x1"))
                    env0 now' 86400 uuid' req') with
       | Passed user' _ used' dailyLimit' =>
           user' = alice /\ used' = 0 + 1 /\ dailyLimit' = 50 /\ 0 + 1 < 50
       | Denied r =>
           status r = 403
           \/ (50 <= 0 + 1 /\ r = errorResponse (limit_message (0 + 1) 50) 429)
       end.
Proof.
  apply (completed_request_is_counted parse_payload0 db0 env0 90000 86400 "x1" req0
           alice (Created "x1") 0 50).
  - vm_compute. reflexivity.
  - constructor.
  - intros [].
  - lia.
Defined.

End UsageProps.

(** ** [/api/user/stats] beside the gate *)
Module StatsProps.
Import Worker.

Section Gated.

Variable JSON_parse : string -> option JWTPayload.t.

(** X20. [GET /api/user/stats] is not a read: it leaves the database exactly as
    the gate of a metered request with the same headers would, new device
    session included.  When it answers 200, what it reports as remaining
    is the limit less the usage, never below 0, and [can_use] says
    whether anything remains. *)
Theorem stats_leaves_what_the_gate_leaves
    (db : DB) (env : Env) (now today : Z) (uuid : string) (req : GatedRequest) :
  snd (stats JSON_parse db env now today uuid req)
  = snd (gate JSON_parse db env now today uuid req)
  /\ forall used limit remaining monthly batch device can_use plan,
       body (fst (stats JSON_parse db env now today uuid req))
       = StatsBody used limit remaining monthly batch device can_use plan ->
       remaining = Z.max 0 (limit - used)
       /\ can_use = (0 <? remaining)
       /\ limit <> 0.
Proof.
  unfold stats, gate.
  destruct (Utils.verifyJWT JSON_parse (bearer req) (JWT_SECRET env)) as [payload|];
    [|split; [reflexivity | intros; discriminate]].
  destruct (Sql.first (is_license (JWTPayload.sub payload)) (users db)) as [user|];
    [|split; [reflexivity | intros; discriminate]].
  destruct (getOrCreateDeviceSession _ _ _ _ _ _ _ _ _) as [[session|e] rows].
  2:{ split; [reflexivity|]. intros until plan. unfold device_error.
      destruct (String.eqb e _); discriminate. }
  destruct (quota_of (Sql.with_sessions db rows) (JWTPayload.plan payload)) as [quota|].
  - split; [destruct (_ >=? _); reflexivity|].
    intros used limit remaining monthly batch device can_use plan [= <- <- <- _ _ _ <- _].
    split; [reflexivity|]. split.
    + destruct (Z.ltb_spec (used_today (User.id user) today rows)
                  (Js.num_or (PlanQuota.daily_limit quota) 10));
        destruct (Z.ltb_spec 0
                    (Z.max 0 (Js.num_or (PlanQuota.daily_limit quota) 10
                              - used_today (User.id user) today rows))); lia.
    + unfold Js.num_or. destruct (Z.eqb_spec (PlanQuota.daily_limit quota) 0); lia.
  - split; [destruct (_ >=? _); reflexivity | intros; discriminate].
Qed.

End Gated.

End StatsProps.

(** ** Licence validation: registration and the credential it hands out *)
Module RegistrationProps.
Import Worker LifecycleProps ValidationFacts.

(** The plan and the address taken from the provider's document, and the
    time a plan runs for, as [validate] computes them. *)
Definition plan_of (licData : LicData) : string :=
  default EmptyString (Js.or_else (plan_type licData) (Some "monthly")).

Definition email_of (license_key : string) (licData : LicData) : string :=
  default EmptyString
    (Js.or_else (customer_email licData)
       (Some ("user_" +:+ Js.take 6 license_key +:+ "@zonkey.ai"))).

Definition validity (p : string) : Z :=
  if String.eqb p "lifetime" then 100 * 365 * 86400
  else if String.eqb p "yearly" then 365 * 86400
  else 30 * 86400.

(** The row a licence is registered as on its first validation. *)
Definition registered (uuid license_key : string) (licData : LicData) (now : Z) : User.t :=
  {| User.id := uuid; User.email := email_of license_key licData;
     User.license_key := license_key; User.plan := plan_of licData;
     User.status := "active"; User.created_at := now;
     User.expires_at := now + validity (plan_of licData);
     User.payment_provider := None |}.


Lemma validity_cases p :
  (if String.eqb p "lifetime" then 100 * 365 * 86400
   else if String.eqb p "yearly" then 365 * 86400 else 30 * 86400)
  = validity p.
Proof. reflexivity. Qed.




(** A stored licence and what a validation of [key] made of it: the same
    row, or, for the licence that holds [key], the row with another plan
    and expiry. *)
Definition rewritten (key : string) (before after : User.t) : Prop :=
  User.id after = User.id before
  /\ User.email after = User.email before
  /\ User.license_key after = User.license_key before
  /\ User.status after = User.status before
  /\ User.created_at after = User.created_at before
  /\ User.payment_provider after = User.payment_provider before
  /\ (after = before \/ User.license_key before = key).

Lemma rewritten_refl key rows : Forall2 (rewritten key) rows rows.
Proof.
  induction rows as [|a rows IH]; constructor; [|exact IH].
  repeat split. now left.
Qed.

Lemma rewritten_update key p f rows :
  (forall r, p r = true -> rewritten key r (f r)) ->
  Forall2 (rewritten key) rows (Sql.update p f rows).
Proof.
  intros H. unfold Sql.update. induction rows as [|a rows IH]; simpl; constructor;
    [|exact IH].
  destruct (p a) eqn:Hp; [now apply H|]. repeat split. now left.
Qed.

(** X22. Validation never removes a stored licence and never touches the
    quota or session tables.  Of the table its [INSERT] finds it keeps
    every licence in place, with its id, email, key, status and creation
    date, and appends at most one.  It rewrites nothing when its lookup
    finds the key, and nothing when its [INSERT] finds no licence with the
    key; only a licence with the key that was stored between the two has
    its plan and expiry rewritten. *)
Theorem validation_writes_one_licence
    (db : DB) (env : Env) (now iat : Z) (uuid : string)
    (req_json : Exc (option string)) (dodo : DodoReply) (later : DB) :
  plan_quotas (snd (validate db env now iat uuid req_json dodo later)) = plan_quotas later
  /\ device_sessions (snd (validate db env now iat uuid req_json dodo later))
     = device_sessions later
  /\ (exists kept added,
        users (snd (validate db env now iat uuid req_json dodo later)) = kept ++ added
        /\ Forall2 (rewritten (requested req_json)) (users later) kept
        /\ (length added <= 1)%nat)
  /\ (forall local,
        Sql.first (is_license (requested req_json)) (users db) = Some local ->
        snd (validate db env now iat uuid req_json dodo later) = later)
  /\ (Sql.first (is_license (requested req_json)) (users later) = None ->
      exists added,
        users (snd (validate db env now iat uuid req_json dodo later)) = users later ++ added
        /\ (length added <= 1)%nat).
Proof.
  assert (Hfound : forall local,
             Sql.first (is_license (requested req_json)) (users db) = Some local ->
             snd (validate db env now iat uuid req_json dodo later) = later).
  { intros local Hlocal.
    destruct (validate_writes_when_unknown db env now iat uuid req_json dodo later)
      as [H|H]; [exact H | congruence]. }
  destruct (validate_cases db env now iat uuid req_json dodo later)
    as [->|(u & Hkey & Hup)].
  { split; [reflexivity|]. split; [reflexivity|]. split.
    - exists (users later), []. rewrite app_nil_r.
      split; [reflexivity|]. split; [apply rewritten_refl | simpl; lia].
    - split; [reflexivity|]. intros _. exists []. rewrite app_nil_r.
      split; [reflexivity | simpl; lia]. }
  rewrite <- Hkey in *.
  destruct (upsert_cases _ _ _ Hup) as [[Hsome Hdb]|[Hnone Hdb]]; rewrite Hdb in *.
  - split; [reflexivity|]. split; [reflexivity|]. split.
    + eexists _, []. rewrite app_nil_r. cbn [users Sql.with_users].
      split; [reflexivity|]. split; [|simpl; lia].
      apply rewritten_update. intros r Hr. unfold is_license in Hr.
      apply String.eqb_eq in Hr. repeat split. now right.
    + split; [exact Hfound|]. intros Hnone. contradiction.
  - split; [reflexivity|]. split; [reflexivity|]. split.
    + exists (users later), [u]. cbn [users Sql.with_users].
      split; [reflexivity|]. split; [apply rewritten_refl | simpl; lia].
    + split; [exact Hfound|]. intros _. exists [u]. split; [reflexivity | simpl; lia].
Qed.

Lemma bearer_token (req : GatedRequest) token :
  Authorization req = Some ("Bearer " +:+ token) -> bearer req = token.
Proof. intros H. unfold bearer. rewrite H. reflexivity. Qed.

Lemma auth_response_inv db env key email plan iat expires token email' plan' quota ms :
  catchE (auth_response db env key email plan iat expires) (fun e => errorResponse e 500)
  = jsonResponse (AuthBody token email' plan' quota ms) ->
  Utils.generateJWT
    {| JWTPayload.sub := key; JWTPayload.plan := plan; JWTPayload.iat := iat;
       JWTPayload.exp := expires |} (JWT_SECRET env) = Ret token
  /\ plan' = plan /\ ms = expires * 1000.
Proof.
  unfold auth_response.
  destruct (Utils.generateJWT _ (JWT_SECRET env)) as [t|e]; [|discriminate].
  unfold mbind, Exc_bind, mret, Exc_ret. cbv beta iota.
  destruct (toISOString (expires * 1000)) as [d|e] eqn:Hd; [|discriminate].
  unfold catchE, jsonResponse. intros [= <- _ <- _ <-].
  unfold toISOString in Hd. destruct (_ <=? _); [|discriminate].
  injection Hd as <-. now repeat split.
Qed.

Section Gated.

Variable JSON_parse : string -> option JWTPayload.t.

(** X23. The credential a successful validation hands out opens the gate of
    the metered endpoints under the same secret: a request that bears it
    is never answered 401 or 404; it is let through for the licence that
    was validated, or refused for the device cap (403) or the daily limit
    (429).  (Licences are not deleted: the keys stored when the handler
    looked its key up are stored afterwards.) *)
Theorem validated_token_opens_the_gate
    (db : DB) (env : Env) (now iat : Z) (uuid key : string) (dodo : DodoReply) (later : DB)
    (token email plan : string) (quota : option PlanQuota.t) (ms : Z) (db' : DB)
    (now' today : Z) (uuid' : string) (req : GatedRequest) :
  validate db env now iat uuid (Ret (Some key)) dodo later
  = (jsonResponse (AuthBody token email plan quota ms), db') ->
  (forall r, In r (users db) ->
             exists r', In r' (users later) /\ User.license_key r' = User.license_key r) ->
  JSON_parse
    (Json.stringify_payload
       {| JWTPayload.sub := key; JWTPayload.plan := plan; JWTPayload.iat := iat;
          JWTPayload.exp := ms / 1000 |})
  = Some {| JWTPayload.sub := key; JWTPayload.plan := plan; JWTPayload.iat := iat;
            JWTPayload.exp := ms / 1000 |} ->
  Authorization req = Some ("Bearer " +:+ token) ->
  match fst (gate JSON_parse db' env now' today uuid' req) with
  | Denied r => status r = 403 \/ status r = 429
  | Passed user _ _ _ => User.license_key user = key
  end.
Proof.
  intros Hval Hkept Hparse Hauth.
  assert (Hfacts : Utils.generateJWT
                     {| JWTPayload.sub := key; JWTPayload.plan := plan; JWTPayload.iat := iat;
                        JWTPayload.exp := ms / 1000 |} (JWT_SECRET env) = Ret token
                   /\ exists user, Sql.first (is_license key) (users db') = Some user).
  { unfold validate in Hval.
    destruct (negb (Js.truthy (Some key))); [discriminate|].
    cbn [default from_option id] in Hval.
    destruct (Sql.first (is_license key) (users db)) as [local|] eqn:Hlocal.
    - destruct (negb (String.eqb (User.status local) "active")); [discriminate|].
      destruct (User.expires_at local <? now); [discriminate|].
      injection Hval as Hresp <-.
      apply auth_response_inv in Hresp. destruct Hresp as (Htoken & -> & ->).
      rewrite Z.div_mul by lia. split; [exact Htoken|].
      destruct (first_In _ _ _ Hlocal) as [Hin Hk].
      destruct (Hkept local Hin) as (r' & Hin' & Hk').
      apply (first_exists _ _ r' Hin'). unfold is_license in *. now rewrite Hk'.
    - destruct dodo as [e| |[licData|e]]; try discriminate.
      match type of Hval with
      | context [Sql.upsert_user later ?u] =>
          destruct (Sql.upsert_user later u) as [d|e] eqn:Hup; [|discriminate]
      end.
      injection Hval as Hresp <-.
      apply auth_response_inv in Hresp. destruct Hresp as (Htoken & -> & ->).
      rewrite Z.div_mul by lia. split; [exact Htoken|].
      destruct (upsert_cases _ _ _ Hup) as [[Hsome ->]|[Hnone ->]];
        cbn [users Sql.with_users User.license_key] in *.
      + rewrite first_update by reflexivity.
        destruct (Sql.first (is_license key) (users later)); [|contradiction].
        eexists. reflexivity.
      + eexists. apply first_append_new; [exact Hnone|].
        unfold is_license. apply String.eqb_refl. }
  destruct Hfacts as (Htoken & user & Huser).
  pose proof (proj1 (RoundTripProps.minted_credential_verifies JSON_parse 0 _ _ _
                       Htoken Hparse)) as Hjwt.
  unfold gate. rewrite (bearer_token _ _ Hauth), Hjwt.
  cbn [JWTPayload.sub JWTPayload.plan]. rewrite Huser.
  destruct (first_In _ _ _ Huser) as [_ Hkey]. unfold is_license in Hkey.
  apply String.eqb_eq in Hkey.
  destruct (getOrCreateDeviceSession _ _ _ _ _ _ _ _ _) as [[session|e] rows].
  - destruct (_ >=? _); cbn [fst]; [right; reflexivity | exact Hkey].
  - cbn [fst]. left. unfold device_error. destruct (String.eqb e _); reflexivity.
Qed.

End Gated.

Import Sample.

(** A key of the yearly plan that the provider knows and the table does
    not. *)
Definition yearly_doc : LicData :=
  {| plan_type := Some "yearly"; customer_email := Some "bob@example.org" |}.

Definition db_plans : DB :=
  {| users := [alice];
     plan_quotas :=
       [monthly_quota 50;
        {| PlanQuota.plan := "yearly"; PlanQuota.daily_limit := 100;
           PlanQuota.monthly_limit := 5000; PlanQuota.credits := 60000;
           PlanQuota.max_batch_size := 50; PlanQuota.rate_limit_per_minute := 100 |}];
     device_sessions := [] |}.


Lemma validated_token_witness :
  match fst (gate parse_payload0 db0 env0 50 0 "x1" req0) with
  | Denied r => status r = 403 \/ status r = 429
  | Passed user _ _ _ => User.license_key user = "KEY-1"
  end.
Proof.
  apply (validated_token_opens_the_gate parse_payload0 db0 env0 100 100000 "x1" "KEY-1"
           DodoNotOk db0 token0 "alice@example.org" "monthly" (Some (monthly_quota 50)) 100000
           db0 50 0 "x1" req0).
  - vm_compute. reflexivity.
  - intros r Hr. exists r. split; [exact Hr | reflexivity].
  - vm_compute. reflexivity.
  - reflexivity.
Defined.

(** The lookup finds no licence with the key, the [INSERT] does: that
    licence is rewritten, and no row is appended. *)
Example conflicting_validation_rewrites :
  users (snd (validate
                {| users := []; plan_quotas := plan_quotas db_plans; device_sessions := [] |}
                env0 1000 1000000 "u2" (Ret (Some "KEY-1")) (DodoOk (Ret yearly_doc))
                db_plans))
  = [refreshed (registered "u2" "KEY-1" yearly_doc 1000) alice].
Proof. vm_compute. reflexivity. Qed.

End RegistrationProps.

(** ** Product scores *)
Module ScoreProps.
Import ScoreProducts.

(** Highest score first. *)
Fixpoint descending (l : list ScoredProduct) : Prop :=
  match l with
  | [] => True
  | x :: r => (forall y, In y r -> score y <= score x) /\ descending r
  end.

(** *** The five parts of a score *)

(** What a part adds to the score, with the reason it gives. *)
Definition Part : Type := Z * list string.

Definition volume (bought : Num.t) : Part :=
  if Num.geb bought (Num.of_Z 1000) then (40, ["High sales volume (1000+ bought)"])
  else if Num.geb bought (Num.of_Z 500) then (25, ["Good sales volume (500+ bought)"])
  else if Num.geb bought (Num.of_Z 100) then (10, ["Moderate sales volume (100+ bought)"])
  else (0, []).

Definition scarcity (reviews bought : Num.t) : Part :=
  if Num.eqb reviews (Num.of_Z 0) && Num.gtb bought (Num.of_Z 50)
  then (40, ["Popular product with no reviews yet"])
  else if Num.ltb reviews (Num.of_Z 50) then (30, ["Low review count (< 50 reviews)"])
  else if Num.ltb reviews (Num.of_Z 500) then (10, ["Moderate review count (< 500 reviews)"])
  else (0, []).

Definition stars (rating : Num.t) : Part :=
  if Num.geb rating (Num.Fin (QArith_base.Qmake 9 2))
  then (30, ["Excellent rating (4.5+ stars)"])
  else if Num.geb rating (Num.of_Z 4) then (20, ["Good rating (4.0+ stars)"])
  else if Num.geb rating (Num.Fin (QArith_base.Qmake 7 2))
  then (10, ["Average rating (3.5+ stars)"])
  else (0, []).

Definition detail (title : Text) : Part :=
  if nonempty title && (50 <? Z.of_nat (length title))
  then (5, ["Detailed product title"]) else (0, []).

Definition premium (parseFloat : Text -> Num.t) (price : option Text) : Part :=
  if match price with
     | Some p => nonempty p && Num.gtb (parseFloat (digits_and_dots p)) (Num.of_Z 50)
     | None => false
     end
  then (5, ["Premium pricing"]) else (0, []).

Definition level_of (score : Z) : Level :=
  if 70 <=? score then high else if 40 <=? score then medium else low.

(** A part adds nothing and gives no reason, or adds a positive multiple
    of 5 up to its weight and gives one reason. *)
Definition fits (top : Z) (pt : Part) : Prop :=
  pt = (0, []) \/ exists k reason, pt = (5 * k, [reason]) /\ 0 < k /\ 5 * k <= top.

Lemma fits_nothing top : fits top (0, []).
Proof. now left. Qed.

Lemma fits_some top k reason : 0 < k -> 5 * k <= top -> fits top (5 * k, [reason]).
Proof. intros. right. now exists k, reason. Qed.

Lemma volume_fits b : fits 40 (volume b).
Proof.
  unfold volume. repeat destruct (Num.geb _ _);
    first [apply fits_nothing
          | apply (fits_some 40 8); lia | apply (fits_some 40 5); lia
          | apply (fits_some 40 2); lia].
Qed.

Lemma scarcity_fits r b : fits 40 (scarcity r b).
Proof.
  unfold scarcity. destruct (_ && _); [apply (fits_some 40 8); lia|].
  repeat destruct (Num.ltb _ _);
    first [apply fits_nothing | apply (fits_some 40 6); lia | apply (fits_some 40 2); lia].
Qed.

Lemma stars_fits g : fits 30 (stars g).
Proof.
  unfold stars. repeat destruct (Num.geb _ _);
    first [apply fits_nothing
          | apply (fits_some 30 6); lia | apply (fits_some 30 4); lia
          | apply (fits_some 30 2); lia].
Qed.

Lemma detail_fits t : fits 5 (detail t).
Proof.
  unfold detail. destruct (_ && _); [apply (fits_some 5 1); lia | apply fits_nothing].
Qed.

Lemma premium_fits parseFloat pr : fits 5 (premium parseFloat pr).
Proof.
  unfold premium. destruct (match pr with Some _ => _ | None => _ end);
    [apply (fits_some 5 1); lia | apply fits_nothing].
Qed.

(** *** Order on numbers *)

Lemma geb_trans a b c : Num.geb a b = true -> Num.geb b c = true -> Num.geb a c = true.
Proof.
  destruct a as [|x| |], b as [|y| |], c as [|z| |]; simpl; try congruence.
  rewrite !QArith_base.Qle_bool_iff. intros Hyx Hzy.
  eapply QArith_base.Qle_trans; eassumption.
Qed.

Lemma gtb_trans a b c : Num.geb a b = true -> Num.gtb b c = true -> Num.gtb a c = true.
Proof.
  destruct a as [|x| |], b as [|y| |], c as [|z| |]; simpl; try congruence.
  intros Hyx Hzy. apply negb_true_iff in Hzy. apply negb_true_iff.
  apply not_true_is_false. intros Hxz. apply not_true_iff_false in Hzy. apply Hzy.
  apply QArith_base.Qle_bool_iff. apply QArith_base.Qle_bool_iff in Hyx, Hxz.
  eapply QArith_base.Qle_trans; eassumption.
Qed.

Lemma volume_mono b b' : Num.geb b' b = true -> fst (volume b) <= fst (volume b').
Proof.
  intros H. unfold volume.
  destruct (Num.geb b (Num.of_Z 1000)) eqn:E1;
    [rewrite (geb_trans _ _ _ H E1); simpl; lia|].
  destruct (Num.geb b (Num.of_Z 500)) eqn:E2;
    [rewrite (geb_trans _ _ _ H E2); destruct (Num.geb b' (Num.of_Z 1000)); simpl; lia|].
  destruct (Num.geb b (Num.of_Z 100)) eqn:E3;
    [rewrite (geb_trans _ _ _ H E3)|];
    destruct (Num.geb b' (Num.of_Z 1000)); try (simpl; lia);
    destruct (Num.geb b' (Num.of_Z 500)); try (simpl; lia);
    destruct (Num.geb b' (Num.of_Z 100)); simpl; lia.
Qed.

Lemma stars_mono g g' : Num.geb g' g = true -> fst (stars g) <= fst (stars g').
Proof.
  intros H. unfold stars.
  destruct (Num.geb g (Num.Fin (QArith_base.Qmake 9 2))) eqn:E1;
    [rewrite (geb_trans _ _ _ H E1); simpl; lia|].
  destruct (Num.geb g (Num.of_Z 4)) eqn:E2;
    [rewrite (geb_trans _ _ _ H E2);
     destruct (Num.geb g' (Num.Fin (QArith_base.Qmake 9 2))); simpl; lia|].
  destruct (Num.geb g (Num.Fin (QArith_base.Qmake 7 2))) eqn:E3;
    [rewrite (geb_trans _ _ _ H E3)|];
    destruct (Num.geb g' (Num.Fin (QArith_base.Qmake 9 2))); try (simpl; lia);
    destruct (Num.geb g' (Num.of_Z 4)); try (simpl; lia);
    destruct (Num.geb g' (Num.Fin (QArith_base.Qmake 7 2))); simpl; lia.
Qed.

Lemma scarcity_mono r b b' :
  Num.geb b' b = true -> fst (scarcity r b) <= fst (scarcity r b').
Proof.
  intros H. unfold scarcity.
  destruct (Num.eqb r (Num.of_Z 0)); cbn [andb]; [|apply Z.le_refl].
  destruct (Num.gtb b (Num.of_Z 50)) eqn:E; [rewrite (gtb_trans _ _ _ H E); simpl; lia|].
  destruct (Num.gtb b' (Num.of_Z 50)); [|apply Z.le_refl].
  destruct (Num.ltb r (Num.of_Z 50)); [simpl; lia|].
  destruct (Num.ltb r (Num.of_Z 500)); simpl; lia.
Qed.

Section Scoring.

Variable parseFloat : Text -> Num.t.

(** The score is the sum of its five parts and the reasons are theirs, in
    the order of the parts. *)
Lemma score_parts (p : Product) :
  calculateProductScore parseFloat p
  = let bought := default (Num.of_Z 0) (bought p) in
    let reviews := default (Num.of_Z 0) (reviews p) in
    let rating := default (Num.of_Z 0) (rating p) in
    let total :=
      fst (volume bought) + fst (scarcity reviews bought) + fst (stars rating)
      + fst (detail (title p)) + fst (premium parseFloat (price p)) in
    {| product := p; score := total; level := level_of total;
       reasons :=
         snd (volume bought) ++ snd (scarcity reviews bought) ++ snd (stars rating)
         ++ snd (detail (title p)) ++ snd (premium parseFloat (price p)) |}.
Proof.
  unfold calculateProductScore, volume, scarcity, stars, detail, premium. cbv zeta.
  destruct (Num.geb (default (Num.of_Z 0) (bought p)) (Num.of_Z 1000));
    [|destruct (Num.geb (default (Num.of_Z 0) (bought p)) (Num.of_Z 500));
      [|destruct (Num.geb (default (Num.of_Z 0) (bought p)) (Num.of_Z 100))]];
  (destruct (Num.eqb (default (Num.of_Z 0) (reviews p)) (Num.of_Z 0)
             && Num.gtb (default (Num.of_Z 0) (bought p)) (Num.of_Z 50));
    [|destruct (Num.ltb (default (Num.of_Z 0) (reviews p)) (Num.of_Z 50));
      [|destruct (Num.ltb (default (Num.of_Z 0) (reviews p)) (Num.of_Z 500))]]);
  (destruct (Num.geb (default (Num.of_Z 0) (rating p)) (Num.Fin (QArith_base.Qmake 9 2)));
    [|destruct (Num.geb (default (Num.of_Z 0) (rating p)) (Num.of_Z 4));
      [|destruct (Num.geb (default (Num.of_Z 0) (rating p))
                   (Num.Fin (QArith_base.Qmake 7 2)))]]);
  destruct (nonempty (title p) && (50 <? Z.of_nat (length (title p))));
  destruct (match price p with
            | Some p0 =>
                nonempty p0 && Num.gtb (parseFloat (digits_and_dots p0)) (Num.of_Z 50)
            | None => false
            end);
  reflexivity.
Qed.

(** A product of the largest possible score short of the price bonus: a
    thousand sales, no review, five stars and a long title. *)
Definition bestseller : Product :=
  {| title := repeat 65 51; rating := Some (Num.of_Z 5); reviews := Some (Num.of_Z 0);
     bought := Some (Num.of_Z 1000); asin := None; price := None; description := None;
     category := None |}.

(** X24. A score is a multiple of 5 between 0 and 120, so it can pass 100: the
    best seller above scores 115.  The level follows the score ([high]
    from 70, [medium] from 40), every reason stands for a part of the
    score, so that a product has no reason exactly when it scores 0, and
    the product itself is handed back unchanged. *)
Theorem score_is_bounded (p : Product) :
  0 <= score (calculateProductScore parseFloat p) <= 120
  /\ score (calculateProductScore parseFloat p) mod 5 = 0
  /\ level (calculateProductScore parseFloat p)
     = (if 70 <=? score (calculateProductScore parseFloat p) then high
        else if 40 <=? score (calculateProductScore parseFloat p) then medium else low)
  /\ (score (calculateProductScore parseFloat p) = 0
      <-> reasons (calculateProductScore parseFloat p) = [])
  /\ (length (reasons (calculateProductScore parseFloat p)) <= 5)%nat
  /\ product (calculateProductScore parseFloat p) = p
  /\ score (calculateProductScore parseFloat bestseller) = 115.
Proof.
  assert (Hbest : score (calculateProductScore parseFloat bestseller) = 115).
  { rewrite score_parts. vm_compute. reflexivity. }
  rewrite score_parts. cbv zeta. cbn [score level reasons product].
  pose proof (volume_fits (default (Num.of_Z 0) (bought p))) as Hv.
  pose proof (scarcity_fits (default (Num.of_Z 0) (reviews p))
                (default (Num.of_Z 0) (bought p))) as Hr.
  pose proof (stars_fits (default (Num.of_Z 0) (rating p))) as Hg.
  pose proof (detail_fits (title p)) as Hd.
  pose proof (premium_fits parseFloat (price p)) as Hp.
  destruct (volume _) as [v rv]. destruct (scarcity _ _) as [r rr].
  destruct (stars _) as [g rg]. destruct (detail _) as [d rd].
  destruct (premium _ _) as [c rc]. cbn [fst snd].
  unfold fits in *.
  destruct Hv as [[= -> ->]|(kv & wv & [= -> ->] & ? & ?)];
  destruct Hr as [[= -> ->]|(kr & wr & [= -> ->] & ? & ?)];
  destruct Hg as [[= -> ->]|(kg & wg & [= -> ->] & ? & ?)];
  destruct Hd as [[= -> ->]|(kd & wd & [= -> ->] & ? & ?)];
  destruct Hp as [[= -> ->]|(kc & wc & [= -> ->] & ? & ?)];
  (split; [lia|]);
  (split; [apply Z.mod_divide; [discriminate|];
           repeat apply Z.divide_add_r;
           first [apply Z.divide_factor_l | apply Z.divide_0_r]|]);
  (split; [reflexivity|]);
  (split; [split; intros H; [try reflexivity; exfalso; lia | try lia; discriminate H]|]);
  (split; [simpl; lia|]); (split; [reflexivity | exact Hbest]).
Qed.

(** X25. More sales and a better rating never lower a score: with the title,
    the price and the number of reviews unchanged, a product that sold at
    least as often and is rated at least as high scores at least as
    much. *)
Theorem better_figures_never_lower_the_score (p p' : Product) :
  title p' = title p ->
  price p' = price p ->
  reviews p' = reviews p ->
  Num.geb (default (Num.of_Z 0) (bought p')) (default (Num.of_Z 0) (bought p)) = true ->
  Num.geb (default (Num.of_Z 0) (rating p')) (default (Num.of_Z 0) (rating p)) = true ->
  score (calculateProductScore parseFloat p) <= score (calculateProductScore parseFloat p').
Proof.
  intros Ht Hp Hr Hb Hg. rewrite !score_parts. cbv zeta. cbn [score].
  rewrite Ht, Hp, Hr.
  pose proof (volume_mono _ _ Hb). pose proof (stars_mono _ _ Hg).
  pose proof (scarcity_mono (default (Num.of_Z 0) (reviews p)) _ _ Hb). lia.
Qed.

Lemma insert_In x l y : In y (insert x l) <-> y = x \/ In y l.
Proof.
  induction l as [|a l IH]; simpl.
  - intuition.
  - destruct (score x <? score a); simpl; rewrite ?IH; intuition.
Qed.

Lemma insert_descending x l : descending l -> descending (insert x l).
Proof.
  induction l as [|a l IH]; simpl; intros H.
  - split; [intros y []|exact I].
  - destruct H as [Ha Hl]. destruct (Z.ltb_spec (score x) (score a)); simpl.
    + split; [|apply IH, Hl].
      intros y Hy. apply insert_In in Hy. destruct Hy as [->|Hy]; [lia | apply Ha, Hy].
    + split; [|split; assumption].
      intros y [<-|Hy]; [lia|]. specialize (Ha y Hy). lia.
Qed.

Lemma insert_Permutation x l : Permutation (insert x l) (x :: l).
Proof.
  induction l as [|a l IH]; simpl; [reflexivity|].
  destruct (score x <? score a); [|reflexivity].
  rewrite IH. apply perm_swap.
Qed.

Lemma sort_descending l : descending (sort l).
Proof. induction l as [|a l IH]; simpl; [exact I | apply insert_descending, IH]. Qed.

Lemma sort_Permutation l : Permutation (sort l) l.
Proof.
  induction l as [|a l IH]; simpl; [reflexivity|].
  rewrite insert_Permutation. now constructor.
Qed.

(** X26. [processProducts] hands back the scored forms of exactly the products
    with a usable title, each once, highest score first. *)
Theorem processed_products_are_ranked (products : list Product) :
  descending (processProducts parseFloat products)
  /\ Permutation (processProducts parseFloat products)
       (map (calculateProductScore parseFloat) (List.filter valid products))
  /\ forall s,
       In s (processProducts parseFloat products) <->
       exists p, In p products /\ valid p = true /\ s = calculateProductScore parseFloat p.
Proof.
  unfold processProducts. split; [apply sort_descending|].
  split; [apply sort_Permutation|].
  intros s. split.
  - intros Hs. apply (Permutation_in _ (sort_Permutation _)) in Hs.
    apply in_map_iff in Hs. destruct Hs as (p & <- & Hp).
    apply filter_In in Hp. destruct Hp as [Hin Hvalid]. now exists p.
  - intros (p & Hin & Hvalid & ->).
    apply (Permutation_in _ (Permutation_sym (sort_Permutation _))).
    apply in_map, filter_In. now split.
Qed.

End Scoring.

Lemma descending_filter f l : descending l -> descending (List.filter f l).
Proof.
  induction l as [|a l IH]; simpl; intros H; [exact I|].
  destruct H as [Ha Hl]. destruct (f a); simpl; [|apply IH, Hl].
  split; [|apply IH, Hl]. intros y Hy. apply filter_In in Hy. apply Ha, Hy.
Qed.

Lemma descending_app a b :
  descending (a ++ b) ->
  descending a /\ forall x y, In x a -> In y b -> score y <= score x.
Proof.
  induction a as [|h a IH]; simpl; intros H.
  - split; [exact I | intros x y []].
  - destruct H as [Hh Hl]. destruct (IH Hl) as [Ha Hcross]. split.
    + split; [|exact Ha]. intros y Hy. apply Hh, in_or_app. now left.
    + intros x y [<-|Hx] Hy; [apply Hh, in_or_app; now right | now apply Hcross].
Qed.

Lemma slice_to_prefix {A} n (l : list A) : exists rest, l = slice_to n l ++ rest.
Proof. unfold slice_to. eexists. symmetry. apply firstn_skipn. Qed.

(** The products with at least the minimum score, in the order given. *)
Definition above (filters : option Filters) (l : list ScoredProduct) : list ScoredProduct :=
  match filters with
  | Some {| minScore := Some m |} => List.filter (fun p => Num.geb (Num.of_Z (score p)) m) l
  | _ => l
  end.

(** X27. Of a ranked list the filters keep a best-first prefix of the products
    that reach the minimum score: what is handed back is ranked, nothing
    left out for the count outranks anything handed back, every product
    handed back reaches the minimum, and no more are handed back than a
    non-negative [maxResults] allows. *)
Theorem filters_keep_the_best (filters : option Filters) (scored : list ScoredProduct) :
  descending scored ->
  (exists rest,
     above filters scored = applyFilters filters scored ++ rest
     /\ forall x y, In x (applyFilters filters scored) -> In y rest -> score y <= score x)
  /\ descending (applyFilters filters scored)
  /\ (forall f m x,
        filters = Some f -> minScore f = Some m -> In x (applyFilters filters scored) ->
        Num.geb (Num.of_Z (score x)) m = true)
  /\ (forall f q,
        filters = Some f -> maxResults f = Some (Num.Fin q) -> 0 <= Num.trunc q ->
        Z.of_nat (length (applyFilters filters scored)) <= Num.trunc q).
Proof.
  intros Hdesc.
  assert (Habove : descending (above filters scored)).
  { unfold above. destruct filters as [[[m|] n c]|]; try exact Hdesc.
    now apply descending_filter. }
  assert (Hprefix : exists rest, above filters scored = applyFilters filters scored ++ rest).
  { unfold above, applyFilters. destruct filters as [[[m|] [n|] c]|]; simpl;
      try apply slice_to_prefix; exists []; now rewrite app_nil_r. }
  destruct Hprefix as [rest Hrest]. rewrite Hrest in Habove.
  destruct (descending_app _ _ Habove) as [Hout Hcross].
  split; [exists rest; split; [exact Hrest | exact Hcross]|].
  split; [exact Hout|]. split.
  - intros f m x -> Hm Hx.
    assert (Hin : In x (above (Some f) scored)) by (rewrite Hrest; apply in_or_app; now left).
    unfold above in Hin. destruct f as [ms n c]. simpl in Hm. subst ms.
    apply filter_In in Hin. apply Hin.
  - intros f q -> Hq Hpos. unfold applyFilters. rewrite Hq. unfold slice_to.
    destruct (Z.ltb_spec (Num.trunc q) 0); [lia|].
    rewrite length_firstn. lia.
Qed.

Section Endpoint.

Variable JSON_parse : string -> option JWTPayload.t.
Variable parseFloat : Text -> Num.t.

(** The row a scored request is logged as. *)
Definition logged (userId : string) (now : Z) (r : UsageLog.t) : Prop :=
  UsageLog.user_id r = userId /\ UsageLog.action r = "score_products"
  /\ UsageLog.tokens_used r = 0 /\ UsageLog.credits_used r = 1
  /\ UsageLog.timestamp r = now.

(** How a call of the endpoint can end. *)
Lemma score_cases db logs env clock today now request :
  (status (fst (handleScoreProducts JSON_parse parseFloat db logs env clock today now request))
   <> 200
   /\ snd (handleScoreProducts JSON_parse parseFloat db logs env clock today now request) = logs)
  \/ exists payload user products bodyFilters row,
       Auth.verifyJWT JSON_parse clock
         (Js.replace_first "Bearer " EmptyString (default EmptyString (Authorization request)))
         (JWT_SECRET env) = Some payload
       /\ Sql.first (Worker.is_license (JWTPayload.sub payload)) (users db) = Some user
       /\ (forall q, Worker.quota_of db (JWTPayload.plan payload) = Some q ->
                     Sql.count (counted (User.id user) today) logs < PlanQuota.daily_limit q)
       /\ catchE (json request) (fun _ => BodyValue (Some []) (Some no_filters))
          = BodyValue (Some products) bodyFilters
       /\ logged (User.id user) now row
       /\ handleScoreProducts JSON_parse parseFloat db logs env clock today now request
          = (jsonResponse
               (ScoreBody (applyFilters bodyFilters (processProducts parseFloat products))
                  (Z.of_nat (length (processProducts parseFloat products)))
                  (Z.of_nat (length (applyFilters bodyFilters
                                       (processProducts parseFloat products))))
                  (default no_filters bodyFilters)),
             logs ++ [row]).
Proof.
  unfold handleScoreProducts.
  destruct (Auth.verifyJWT JSON_parse clock _ (JWT_SECRET env)) as [payload|] eqn:Hjwt;
    [|left; split; [discriminate | reflexivity]].
  destruct (Sql.first (Worker.is_license (JWTPayload.sub payload)) (users db))
    as [user|] eqn:Huser; [|left; split; [discriminate | reflexivity]].
  destruct (match Worker.quota_of db (JWTPayload.plan payload) with
            | Some q =>
                Sql.count (counted (User.id user) today) logs >=? PlanQuota.daily_limit q
            | None => false
            end) eqn:Hlimit; [left; split; [discriminate | reflexivity]|].
  destruct (catchE (json request) (fun _ => BodyValue (Some []) (Some no_filters)))
    as [|[products|] bodyFilters] eqn:Hbody;
    try (left; split; [discriminate | reflexivity]).
  right. eexists payload, user, products, bodyFilters, _.
  split; [reflexivity|]. split; [exact Huser|]. split.
  - intros q Hq. rewrite Hq in Hlimit.
    destruct (Z.geb_spec (Sql.count (counted (User.id user) today) logs)
                (PlanQuota.daily_limit q)); [discriminate | assumption].
  - split; [reflexivity|]. split; [|reflexivity]. repeat split.
Qed.

(** X28. Usage is logged exactly when the answer is 200: one row is appended
    then, for the user of the token, with the action [score_products], no
    tokens, one credit and the current time, and the answer carries the
    ranked and filtered products with their two counts; on every other
    answer the table is left as it was. *)
Theorem scored_request_is_logged_once
    (db : DB) (logs : list UsageLog.t) (env : Env) (clock today now : Z)
    (request : Request) :
  (status (fst (handleScoreProducts JSON_parse parseFloat db logs env clock today now request))
   <> 200 ->
   snd (handleScoreProducts JSON_parse parseFloat db logs env clock today now request) = logs)
  /\ (status (fst (handleScoreProducts JSON_parse parseFloat db logs env clock today now
                     request)) = 200 ->
      exists payload user products bodyFilters row,
        Auth.verifyJWT JSON_parse clock
          (Js.replace_first "Bearer " EmptyString (default EmptyString (Authorization request)))
          (JWT_SECRET env) = Some payload
        /\ Sql.first (Worker.is_license (JWTPayload.sub payload)) (users db) = Some user
        /\ catchE (json request) (fun _ => BodyValue (Some []) (Some no_filters))
           = BodyValue (Some products) bodyFilters
        /\ logged (User.id user) now row
        /\ handleScoreProducts JSON_parse parseFloat db logs env clock today now request
           = (jsonResponse
                (ScoreBody (applyFilters bodyFilters (processProducts parseFloat products))
                   (Z.of_nat (length (processProducts parseFloat products)))
                   (Z.of_nat (length (applyFilters bodyFilters
                                        (processProducts parseFloat products))))
                   (default no_filters bodyFilters)),
              logs ++ [row])).
Proof.
  destruct (score_cases db logs env clock today now request)
    as [[Hstatus Hlogs]|(payload & user & products & bodyFilters & row
                         & Hjwt & Huser & _ & Hbody & Hrow & Hrun)].
  - split; [intros _; exact Hlogs | intros H; contradiction].
  - split.
    + intros H. rewrite Hrun in H. simpl in H. contradiction.
    + intros _. exists payload, user, products, bodyFilters, row. auto.
Qed.

(** X29. The daily limit of this endpoint.  For a verified token of a stored
    user whose plan has a quota row: once the user's rows of the day
    number the plan's [daily_limit] or more, the request is refused with
    429 and nothing is logged; and a request logged at or after the day
    boundary never takes the number of the day's rows past the larger of
    what it was and the limit. *)
Theorem score_limit_holds
    (db : DB) (logs : list UsageLog.t) (env : Env) (clock today now : Z)
    (request : Request) (payload : JWTPayload.t) (user : User.t) (q : PlanQuota.t) :
  Auth.verifyJWT JSON_parse clock
    (Js.replace_first "Bearer " EmptyString (default EmptyString (Authorization request)))
    (JWT_SECRET env) = Some payload ->
  Sql.first (Worker.is_license (JWTPayload.sub payload)) (users db) = Some user ->
  Worker.quota_of db (JWTPayload.plan payload) = Some q ->
  (PlanQuota.daily_limit q <= Sql.count (counted (User.id user) today) logs ->
   handleScoreProducts JSON_parse parseFloat db logs env clock today now request
   = (errorResponse "Daily rate limit exceeded" 429, logs))
  /\ Sql.count (counted (User.id user) today)
       (snd (handleScoreProducts JSON_parse parseFloat db logs env clock today now request))
     <= Z.max (Sql.count (counted (User.id user) today) logs) (PlanQuota.daily_limit q).
Proof.
  intros Hjwt Huser Hq. split.
  - intros Hfull. unfold handleScoreProducts. rewrite Hjwt, Huser, Hq.
    destruct (Z.geb_spec (Sql.count (counted (User.id user) today) logs)
                (PlanQuota.daily_limit q)); [reflexivity | lia].
  - destruct (score_cases db logs env clock today now request)
      as [[_ ->]|(payload' & user' & products & bodyFilters & row
                  & Hjwt' & Huser' & Hroom & _ & Hrow & ->)]; [lia|].
    rewrite Hjwt in Hjwt'. injection Hjwt' as <-.
    rewrite Huser in Huser'. injection Huser' as <-.
    specialize (Hroom q Hq). cbn [snd]. rewrite count_append.
    destruct (counted (User.id user) today row); lia.
Qed.

(** X30. A body that is not JSON is taken for an empty list of products: the
    request of a verified user under the limit is answered 200 with no
    product, and it is logged like any other. *)
Theorem unreadable_body_counts_as_empty
    (db : DB) (logs : list UsageLog.t) (env : Env) (clock today now : Z)
    (request : Request) (payload : JWTPayload.t) (user : User.t) (e : string) :
  Auth.verifyJWT JSON_parse clock
    (Js.replace_first "Bearer " EmptyString (default EmptyString (Authorization request)))
    (JWT_SECRET env) = Some payload ->
  Sql.first (Worker.is_license (JWTPayload.sub payload)) (users db) = Some user ->
  (forall q, Worker.quota_of db (JWTPayload.plan payload) = Some q ->
             Sql.count (counted (User.id user) today) logs < PlanQuota.daily_limit q) ->
  json request = Throw e ->
  handleScoreProducts JSON_parse parseFloat db logs env clock today now request
  = (jsonResponse (ScoreBody [] 0 0 no_filters),
     logs ++ [ {| UsageLog.user_id := User.id user; UsageLog.action := "score_products";
                  UsageLog.tokens_used := 0; UsageLog.credits_used := 1;
                  UsageLog.timestamp := now;
                  UsageLog.metadata := ScoreMeta 0 0 no_filters |} ]).
Proof.
  intros Hjwt Huser Hroom Hjson. unfold handleScoreProducts. rewrite Hjwt, Huser, Hjson.
  destruct (Worker.quota_of db (JWTPayload.plan payload)) as [q|].
  - specialize (Hroom q eq_refl).
    destruct (Z.geb_spec (Sql.count (counted (User.id user) today) logs)
                (PlanQuota.daily_limit q)); [lia | reflexivity].
  - reflexivity.
Qed.

End Endpoint.

End ScoreProps.

(** *** A sample request *)
Module ScoreSample.
Import ScoreProducts ScoreProps Sample.

(** [parseFloat] on the one price text these examples hold. *)
Definition parse_price (t : Text) : Num.t :=
  if eqb_text t (lit "99.00") then Num.of_Z 99 else Num.NaN.

Definition gadget : Product :=
  {| title := lit "Gadget"; rating := Some (Num.Fin (QArith_base.Qmake 23 5));
     reviews := Some (Num.of_Z 10); bought := Some (Num.of_Z 1200); asin := None;
     price := Some (lit "$99.00"); description := None; category := None |}.

Definition widget : Product :=
  {| title := lit "Widget"; rating := Some (Num.of_Z 3); reviews := Some (Num.of_Z 900);
     bought := Some (Num.of_Z 20); asin := None; price := None; description := None;
     category := None |}.

Definition untitled : Product :=
  {| title := lit "No Title"; rating := None; reviews := None; bought := None; asin := None;
     price := None; description := None; category := None |}.

Definition top_one : Filters :=
  {| minScore := Some (Num.of_Z 40); maxResults := Some (Num.of_Z 1); categories := None |}.

Definition score_request (body : Exc ParsedBody) : Request :=
  {| Authorization := Some ("Bearer " +:+ token0); json := body |}.

Example sample_scores :
  map (fun s => (score s, level s)) (processProducts parse_price [widget; untitled; gadget])
  = [(105, high); (0, low)].
Proof. vm_compute. reflexivity. Qed.

Definition popular_widget : Product :=
  {| title := lit "Widget"; rating := Some (Num.of_Z 4); reviews := Some (Num.of_Z 900);
     bought := Some (Num.of_Z 600); asin := None; price := None; description := None;
     category := None |}.

Lemma better_figures_witness :
  score (calculateProductScore parse_price widget)
  <= score (calculateProductScore parse_price popular_widget).
Proof.
  apply (better_figures_never_lower_the_score parse_price widget popular_widget).
  - reflexivity.
  - reflexivity.
  - reflexivity.
  - reflexivity.
  - reflexivity.
Defined.

Lemma filters_witness :
  (exists rest,
     above (Some top_one) (processProducts parse_price [widget; untitled; gadget])
     = applyFilters (Some top_one) (processProducts parse_price [widget; untitled; gadget])
         ++ rest
     /\ forall x y,
          In x (applyFilters (Some top_one)
                  (processProducts parse_price [widget; untitled; gadget])) ->
          In y rest -> score y <= score x)
  /\ descending (applyFilters (Some top_one)
                   (processProducts parse_price [widget; untitled; gadget]))
  /\ (forall f m x,
        Some top_one = Some f -> minScore f = Some m ->
        In x (applyFilters (Some top_one)
                (processProducts parse_price [widget; untitled; gadget])) ->
        Num.geb (Num.of_Z (score x)) m = true)
  /\ (forall f q,
        Some top_one = Some f -> maxResults f = Some (Num.Fin q) -> 0 <= Num.trunc q ->
        Z.of_nat (length (applyFilters (Some top_one)
                            (processProducts parse_price [widget; untitled; gadget])))
        <= Num.trunc q).
Proof.
  apply (filters_keep_the_best (Some top_one)
           (processProducts parse_price [widget; untitled; gadget])).
  vm_compute. repeat split; intros y Hy;
    repeat (destruct Hy as [<-|Hy]; [discriminate|]); destruct Hy.
Defined.

Lemma score_limit_witness :
  (PlanQuota.daily_limit (monthly_quota 50) <= Sql.count (counted (User.id alice) 0) [] ->
   handleScoreProducts parse_payload0 parse_price db0 [] env0 99 0 99
     (score_request (Ret (BodyValue (Some [widget; gadget]) (Some top_one))))
   = (errorResponse "Daily rate limit exceeded" 429, []))
  /\ Sql.count (counted (User.id alice) 0)
       (snd (handleScoreProducts parse_payload0 parse_price db0 [] env0 99 0 99
               (score_request (Ret (BodyValue (Some [widget; gadget]) (Some top_one))))))
     <= Z.max (Sql.count (counted (User.id alice) 0) [])
          (PlanQuota.daily_limit (monthly_quota 50)).
Proof.
  apply (score_limit_holds parse_payload0 parse_price db0 [] env0 99 0 99
           (score_request (Ret (BodyValue (Some [widget; gadget]) (Some top_one))))
           payload0 alice (monthly_quota 50)).
  - vm_compute. reflexivity.
  - reflexivity.
  - reflexivity.
Defined.

Lemma unreadable_body_witness :
  handleScoreProducts parse_payload0 parse_price db0 [] env0 99 0 99
    (score_request (Throw "SyntaxError"))
  = (jsonResponse (ScoreBody [] 0 0 no_filters),
     [] ++ [ {| UsageLog.user_id := User.id alice; UsageLog.action := "score_products";
                UsageLog.tokens_used := 0; UsageLog.credits_used := 1;
                UsageLog.timestamp := 99;
                UsageLog.metadata := ScoreMeta 0 0 no_filters |} ]).
Proof.
  apply (unreadable_body_counts_as_empty parse_payload0 parse_price db0 [] env0 99 0 99
           (score_request (Throw "SyntaxError")) payload0 alice "SyntaxError").
  - vm_compute. reflexivity.
  - reflexivity.
  - intros q [= <-]. vm_compute. reflexivity.
  - reflexivity.
Defined.

End ScoreSample.
